(** * A shopping-catalog front end: cart reducer, catalog pipeline, remote client

    Shallow embedding of the TypeScript sources

    - [types/Product.ts], [types/CartItem.ts]   the data model
    - [api/productsApi.ts]                      the remote product client
    - [App.tsx]                                 catalog and cart state, handlers
    - [pages/ProductsPage.tsx]                  the search / price / sort pipeline

    Modelling conventions.

    - A JavaScript [number] that holds a quantity is the integer it denotes
      ([Z]); the sum and the difference of two quantities are rounded to the
      nearest double as the host does, so that arithmetic is exact up to
      2^53 in magnitude and rounds beyond.  A price is a rational ([Q]), and
      the arithmetic of prices is exact: rounding, overflow and NaN-valued
      prices are outside the model.
    - A JavaScript string is the [string] of the bytes of its UTF-8 encoding.
      Equality and containment of well-formed strings are the same on the
      code units of the host and on these bytes.
    - Arrays are immutable lists: every array operation of the sources
      ([filter], [map], [find], spread, [sort] on a fresh copy) builds a new
      array and never mutates its receiver.
    - Side effects (React state updates, [alert], [console.error], thrown
      exceptions) live in the monad [Eff]; what the environment decides (the
      outcome of a network call, the content of the storage) is an explicit
      argument. *)

From Stdlib Require Import ZArith QArith List Ascii Bool Permutation Sorted Lia.
From Stdlib Require String.
From Stdlib Require OrderedTypeEx.
From stdpp Require Import base gmap strings.
Import ListNotations.

Local Open Scope Z_scope.

(** ** JavaScript primitives used by the sources *)

Module JS.

(** [a === b] on strings. *)
Definition strictEq (a b : string) : bool := String.eqb a b.

(** Truthiness of a string: only the empty string is falsy. *)
Definition truthy (s : string) : bool := negb (String.eqb s "").

(** [s.includes(sub)]: [sub] occurs in [s] at some position. *)
Fixpoint includes (s sub : string) : bool :=
  String.prefix sub s ||
  match s with
  | EmptyString => false
  | String _ s' => includes s' sub
  end.

(** The integer-valued double nearest to an integer, ties going to the even
    significand: integers up to 2^53 in magnitude are doubles themselves;
    beyond, a double has 53 significant bits. *)
Definition nearestDouble (z : Z) : Z :=
  let a := Z.abs z in
  if a <? 2 ^ 53 then z
  else
    let ulp := 2 ^ (Z.log2 a - 52) in
    let m := a / ulp in
    let r := a mod ulp in
    let m' :=
      if 2 * r <? ulp then m
      else if ulp <? 2 * r then m + 1
      else if Z.even m then m else m + 1 in
    Z.sgn z * (m' * ulp).

(** [a + b] and [a - b] on integer-valued numbers: the exact result, rounded
    to the nearest double.  (The sources add and subtract [1] only, which
    never overflows to an infinity.) *)
Definition add (a b : Z) : Z := nearestDouble (a + b).
Definition sub (a b : Z) : Z := nearestDouble (a - b).

(** The result of [Number(str)]: a finite value, an infinity, or NaN. *)
Inductive number : Type :=
| Fin (q : Q)
| PosInf
| NegInf
| NaN.

(** [x >= n] and [x <= n] for a finite [x]; every comparison with NaN is
    false. *)
Definition geNumber (x : Q) (n : number) : bool :=
  match n with
  | Fin q => Qle_bool q x
  | NegInf => true
  | PosInf | NaN => false
  end.

Definition leNumber (x : Q) (n : number) : bool :=
  match n with
  | Fin q => Qle_bool x q
  | PosInf => true
  | NegInf | NaN => false
  end.

(** [Array.prototype.sort(comparefn)] on a fresh copy.  A comparator that is
    consistent (it orders the elements by a total preorder) leaves one stable
    arrangement only: [a] stays before [b] unless [comparefn(a, b) > 0].
    ECMAScript 2019 and later require the sort to be stable, so every
    conforming engine returns that arrangement; it is computed here by a
    stable insertion sort. *)
Section Sort.
Context {A : Type} (comparefn : A -> A -> Q).

Fixpoint insert (x : A) (l : list A) : list A :=
  match l with
  | [] => [x]
  | y :: l' =>
      if Qle_bool (comparefn x y) 0 then x :: y :: l'
      else y :: insert x l'
  end.

Definition sort (l : list A) : list A := fold_right insert [] l.
End Sort.

End JS.

(** ** Data model: [types/Product.ts] and [types/CartItem.ts] *)

Record Product : Type := {
  id : string;
  name : string;
  price : Q;
  description : option string;
  image : option string
}.

Record CartItem : Type := {
  product : Product;
  quantity : Z
}.

(** ** JSON values

    [JSON.parse] returns a value of any shape; TypeScript does not check it
    against the type the program expects. *)

Module JSON.
Local Set Warnings "-register-all".

Inductive value : Type :=
| Null
| Bool (b : bool)
| Num (q : Q)
| Str (s : string)
| Arr (items : list value)
| Obj (members : list (string * value)).

End JSON.

(** ** Effects *)

(** What the user and the developer console observe. *)
Inductive Event : Type :=
| ConsoleError (msg : string)
| Alert (msg : string).

(** A thrown value. *)
Inductive Error : Type :=
| MkError (message : string).

(** The state owned by the [App] component, together with the trace of
    observable events (oldest first). *)
Record AppState : Type := {
  products : list Product;
  loading : bool;
  cartItems : list CartItem;
  events : list Event
}.

Inductive Outcome (A : Type) : Type :=
| Returns (a : A)
| Throws (e : Error).
Arguments Returns {A} a.
Arguments Throws {A} e.

Definition Eff (A : Type) : Type := AppState -> Outcome A * AppState.

Definition ret {A} (a : A) : Eff A := fun st => (Returns a, st).

Definition bind {A B} (m : Eff A) (k : A -> Eff B) : Eff B :=
  fun st =>
    match m st with
    | (Returns a, st') => k a st'
    | (Throws e, st') => (Throws e, st')
    end.

Definition throw {A} (e : Error) : Eff A := fun st => (Throws e, st).

(** [try { body } catch (error) { handler }] *)
Definition tryCatch {A} (body : Eff A) (handler : Error -> Eff A) : Eff A :=
  fun st =>
    match body st with
    | (Returns a, st') => (Returns a, st')
    | (Throws e, st') => handler e st'
    end.

(** [try { body } catch (error) { handler } finally { final }] for a body
    without a return value. *)
Definition tryCatchFinally (body : Eff unit) (handler : Error -> Eff unit)
    (final : Eff unit) : Eff unit :=
  fun st =>
    match tryCatch body handler st with
    | (Returns tt, st') => final st'
    | (Throws e, st') =>
        match final st' with
        | (Returns tt, st'') => (Throws e, st'')
        | (Throws e', st'') => (Throws e', st'')
        end
    end.

Declare Scope eff_scope.
Delimit Scope eff_scope with eff.
Notation "'let*' x ':=' m 'in' k" := (bind m (fun x => k))
  (at level 10, x name, m at level 100, k at level 200) : eff_scope.
Notation "m1 ';;;' m2" := (bind m1 (fun _ => m2))
  (at level 100, right associativity) : eff_scope.

Definition emit (ev : Event) : Eff unit :=
  fun st =>
    (Returns tt,
     {| products := products st; loading := loading st;
        cartItems := cartItems st; events := events st ++ [ev] |}).

Definition consoleError (msg : string) : Eff unit := emit (ConsoleError msg).
Definition alert (msg : string) : Eff unit := emit (Alert msg).

(** React state setters. *)
Definition setProducts (ps : list Product) : Eff unit :=
  fun st =>
    (Returns tt,
     {| products := ps; loading := loading st;
        cartItems := cartItems st; events := events st |}).

Definition setLoading (b : bool) : Eff unit :=
  fun st =>
    (Returns tt,
     {| products := products st; loading := b;
        cartItems := cartItems st; events := events st |}).

(** [setCartItems(updater)]: the updater receives the current cart. *)
Definition setCartItems (updater : list CartItem -> list CartItem) : Eff unit :=
  fun st =>
    (Returns tt,
     {| products := products st; loading := loading st;
        cartItems := updater (cartItems st); events := events st |}).

(** The state a computation leaves behind, and its outcome. *)
Definition exec {A} (m : Eff A) (st : AppState) : AppState := snd (m st).
Definition outcome {A} (m : Eff A) (st : AppState) : Outcome A := fst (m st).

(** ** The remote product client: [api/productsApi.ts] *)

(** How a network round trip ends: the promise returned by axios is fulfilled
    with the decoded payload, or rejected (transport or decode failure). *)
Inductive Reply (A : Type) : Type :=
| Fulfilled (data : A)
| Rejected (e : Error).
Arguments Fulfilled {A} data.
Arguments Rejected {A} e.

Definition await {A} (r : Reply A) : Eff A :=
  match r with
  | Fulfilled data => ret data
  | Rejected e => throw e
  end.

Module productsApi.
Local Open Scope eff_scope.

Definition getProducts (reply : Reply (list Product)) : Eff (list Product) :=
  tryCatch
    (let* data := await reply in
     ret data)
    (fun error =>
       consoleError "API Error: Failed to fetch product list:" ;;;
       alert ("We couldn't load the product list from the server. " +:+
              "This may be due to a network issue or the API being unavailable.") ;;;
       ret []).

Definition getProduct (reply : Reply Product) (id : string) : Eff Product :=
  tryCatch
    (let* data := await reply in
     ret data)
    (fun error =>
       consoleError ("API Error: Failed to fetch product with ID " +:+ id +:+ ":") ;;;
       alert ("We couldn't load the product with ID " +:+ id +:+ ". " +:+
              "It may have been deleted or the server may be unavailable.") ;;;
       throw error).

Definition createProduct (reply : Reply Product) (product : Product)
  : Eff Product :=
  tryCatch
    (let* data := await reply in
     ret data)
    (fun error =>
       consoleError "API Error: Failed to create product:" ;;;
       alert ("We couldn't create this product. " +:+
              "Please check your input or try again later.") ;;;
       throw error).

Definition updateProduct (reply : Reply Product) (id : string)
    (product : Product) : Eff Product :=
  tryCatch
    (let* data := await reply in
     ret data)
    (fun error =>
       consoleError ("API Error: Failed to update product with ID " +:+ id +:+ ":") ;;;
       alert ("We couldn't update this product. " +:+
              "The server may be unavailable or the product may no longer exist.") ;;;
       throw error).

Definition deleteProduct (reply : Reply unit) (id : string) : Eff unit :=
  tryCatch
    (let* _ := await reply in
     ret tt)
    (fun error =>
       consoleError ("API Error: Failed to delete product with ID " +:+ id +:+ ":") ;;;
       alert ("We couldn't delete this product. " +:+
              "It may have already been removed or the server may be unavailable.") ;;;
       throw error).

End productsApi.

(** ** The application component: [App.tsx] *)

Module App.
Local Open Scope eff_scope.

(** *** Initial state *)

Section Rehydration.
(** The host's [JSON.parse]: [None] when it throws a [SyntaxError]. *)
Variable JSON_parse : string -> option JSON.value.

(** The initializer of the cart state.  [stored] is how
    [localStorage.getItem("cart")] ends: with the stored string, with
    [null] ([None]) when the key is absent, or with an exception when the
    browser denies access to the storage. *)
Definition cartInitializer (stored : Reply (option string))
  : Eff JSON.value :=
  tryCatch
    (let* saved := await stored in
     match saved with
     | Some text =>
         if JS.truthy text
         then
           match JSON_parse text with
           | Some v => ret v
           | None => throw (MkError "SyntaxError")
           end
         else ret (JSON.Arr [])
     | None => ret (JSON.Arr [])
     end)
    (fun error =>
       consoleError "Error reading cart from localStorage:" ;;;
       alert "We couldn't load your saved cart because the data was invalid. Your cart has been reset." ;;;
       ret (JSON.Arr [])).
End Rehydration.

(** The first render reads [cartItems.length] for the navigation bar.
    Reading a property of [null] throws a [TypeError]; reading one of any
    other JSON value does not. *)
Definition cartCountReadThrows (cartItems' : JSON.value) : bool :=
  match cartItems' with
  | JSON.Null => true
  | _ => false
  end.

(** The state of the component after its first render: no products, the
    loading flag raised, and the rehydrated cart. *)
Definition initialState (cart : list CartItem) (evs : list Event) : AppState :=
  {| products := []; loading := true; cartItems := cart; events := evs |}.

(** *** Product CRUD handlers

    Each handler reads [products] as captured by the render that created
    it, awaits the remote client, and updates the catalog on success. *)

Definition handleCreateProduct (reply : Reply Product) (product : Product)
  : Eff unit :=
  fun st =>
    let products := products st in
    tryCatch
      (let* newProduct := productsApi.createProduct reply product in
       setProducts (products ++ [newProduct]))
      (fun error =>
         consoleError "Error creating product:" ;;;
         alert "We couldn't create this product. The server may be down or the data may be invalid.")
      st.

Definition handleUpdateProduct (reply : Reply Product) (updated : Product)
  : Eff unit :=
  fun st =>
    let products := products st in
    tryCatch
      (let* saved := productsApi.updateProduct reply (id updated) updated in
       setProducts
         (List.map (fun p => if JS.strictEq (id p) (id saved) then saved else p)
                   products))
      (fun error =>
         consoleError "Error updating product:" ;;;
         alert "We couldn't update this product. Please try again or check your connection.")
      st.

Definition handleDeleteProduct (reply : Reply unit) (id' : string)
  : Eff unit :=
  fun st =>
    let products := products st in
    tryCatch
      (productsApi.deleteProduct reply id' ;;;
       setProducts
         (List.filter (fun p => negb (JS.strictEq (id p) id')) products))
      (fun error =>
         consoleError "Error deleting product:" ;;;
         alert "We couldn't delete this product. It may have already been removed or the server may be unavailable.")
      st.

(** *** Cart handlers *)

(** The guard [!product || !product.id]: a value of type [Product] is never
    null, so the guard reduces to the falsiness of the id. *)
Definition handleAddToCart (product' : Product) : Eff unit :=
  tryCatch
    ((if negb (JS.truthy (id product'))
      then throw (MkError "Invalid product passed to handleAddToCart")
      else ret tt) ;;;
     setCartItems (fun prev =>
       let existing :=
         List.find (fun item => JS.strictEq (id (product item)) (id product'))
                   prev in
       match existing with
       | Some _ =>
           List.map
             (fun item =>
                if JS.strictEq (id (product item)) (id product')
                then {| product := product item;
                        quantity := JS.add (quantity item) 1 |}
                else item)
             prev
       | None => prev ++ [ {| product := product'; quantity := 1 |} ]
       end))
    (fun error =>
       consoleError "Error adding item to cart:" ;;;
       alert "We couldn't add this item to your cart because the product data was invalid.").

Definition handleRemoveFromCart (productId : string) : Eff unit :=
  tryCatch
    (setCartItems (fun prev =>
       List.filter
         (fun item => negb (JS.strictEq (id (product item)) productId))
         prev))
    (fun error =>
       consoleError "Error removing item from cart:" ;;;
       alert "We couldn't remove this item from your cart.").

Definition handleUpdateCartQuantity (productId : string) (quantity' : Z)
  : Eff unit :=
  tryCatch
    (if quantity' <=? 0
     then
       setCartItems (fun prev =>
         List.filter
           (fun item => negb (JS.strictEq (id (product item)) productId))
           prev)
     else
       setCartItems (fun prev =>
         List.map
           (fun item =>
              if JS.strictEq (id (product item)) productId
              then {| product := product item; quantity := quantity' |}
              else item)
           prev))
    (fun error =>
       consoleError "Error updating cart quantity:" ;;;
       alert "We couldn't update the quantity for this item. Please try again.").

(** [setCartItems([])]: the new cart does not depend on the current one. *)
Definition handleClearCart : Eff unit :=
  tryCatch
    (setCartItems (fun _ => []))
    (fun error =>
       consoleError "Error clearing cart:" ;;;
       alert "We couldn't clear your cart. Please try again.").

(** *** The effect that loads the catalog when the application starts *)

Definition load (reply : Reply (list Product)) : Eff unit :=
  tryCatchFinally
    (let* data := productsApi.getProducts reply in
     setProducts data)
    (fun error =>
       consoleError "Error loading products:" ;;;
       alert "We couldn't load the product list. Please check your internet connection or try again later.")
    (setLoading false).

End App.

(** The cart after a handler has run on a state. *)
Definition cartAfter (m : Eff unit) (st : AppState) : list CartItem :=
  cartItems (exec m st).

(** The product ids of a cart, as a list and as a set. *)
Definition cartIds (cart : list CartItem) : list string :=
  List.map (fun item => id (product item)) cart.

Definition cartIdSet (cart : list CartItem) : gset string :=
  list_to_set (cartIds cart).

(** ** Lower case of ASCII text

    On a string of ASCII characters [String.prototype.toLowerCase] maps the
    letters [A] to [Z] to [a] to [z], one by one, and leaves every other
    character as it is. *)

Module AsciiCase.

Definition lowerChar (c : ascii) : ascii :=
  let n := nat_of_ascii c in
  if (Nat.leb 65 n && Nat.leb n 90)%bool then ascii_of_nat (n + 32) else c.

Fixpoint lowerCase (s : string) : string :=
  match s with
  | EmptyString => EmptyString
  | String c s' => String (lowerChar c) (lowerCase s')
  end.

(** Every byte is below 128: the string holds ASCII characters only. *)
Fixpoint isAscii (s : string) : bool :=
  match s with
  | EmptyString => true
  | String c s' => Nat.ltb (nat_of_ascii c) 128 && isAscii s'
  end.

End AsciiCase.

(** ** Reference implementations of the host functions

    The pipeline of the products page calls [String.prototype.toLowerCase],
    [Number] and [String.prototype.localeCompare], and the cart initializer
    calls [JSON.parse].  The embedding takes each of them as a parameter; the
    functions below are concrete instances, used to run the embedding. *)

Module Host.

Definition digit (c : ascii) : option Z :=
  let n := nat_of_ascii c in
  if (Nat.leb 48 n && Nat.leb n 57)%bool then Some (Z.of_nat (n - 48)) else None.

(** Reads the longest prefix of decimal digits: its value on top of [acc],
    the number of digits read, and the rest of the input. *)
Fixpoint digits (s : string) (acc : Z) (count : nat) : Z * nat * string :=
  match s with
  | String c s' =>
      match digit c with
      | Some d => digits s' (10 * acc + d) (S count)
      | None => (acc, count, s)
      end
  | EmptyString => (acc, count, s)
  end.

(** [m * 10^e] as a rational. *)
Definition scale (m : Z) (e : Z) : Q :=
  if 0 <=? e then inject_Z (m * 10 ^ e)
  else Qmake m (Z.to_pos (10 ^ (- e))).

(** An optional exponent part [e[+-]digits] that must end the input. *)
Definition exponent (s : string) : option Z :=
  match s with
  | EmptyString => Some 0
  | String c s' =>
      if (Ascii.eqb c "e" || Ascii.eqb c "E")%bool then
        let '(neg, s'') :=
          match s' with
          | String "-" r => (true, r)
          | String "+" r => (false, r)
          | _ => (false, s')
          end in
        match digits s'' 0 0 with
        | (e, S _, EmptyString) => Some (if neg then - e else e)
        | _ => None
        end
      else None
  end.

(** An unsigned decimal literal: [digits[.digits][exponent]] or
    [.digits[exponent]]. *)
Definition unsignedDecimal (s : string) : option Q :=
  let '(ip, ni, r1) := digits s 0 0 in
  let '(fp, nf, r2) :=
    match r1 with
    | String "." r => digits r 0 0
    | _ => (0, 0%nat, r1)
    end in
  match (ni + nf)%nat with
  | O => None
  | S _ =>
      match exponent r2 with
      | Some e => Some (scale (ip * 10 ^ Z.of_nat nf + fp) (e - Z.of_nat nf))
      | None => None
      end
  end.

(** [Number(str)] for the strings a numeric input field can hold: the empty
    string, an optionally signed decimal literal, a signed [Infinity];
    everything else is NaN.  (Surrounding white space and the hexadecimal,
    octal and binary literals that [Number] also accepts are not covered.) *)
Definition Number (s : string) : JS.number :=
  match s with
  | EmptyString => JS.Fin 0
  | String c r =>
      let '(neg, body) :=
        if Ascii.eqb c "-" then (true, r)
        else if Ascii.eqb c "+" then (false, r)
        else (false, s) in
      if String.eqb body "Infinity" then (if neg then JS.NegInf else JS.PosInf)
      else
        match unsignedDecimal body with
        | Some q => JS.Fin (if neg then Qopp q else q)
        | None => JS.NaN
        end
  end.

(** *** [String.prototype.toLowerCase]

    Lower case for ASCII, the Latin-1 letters and the letters of the modern
    Greek alphabet, on UTF-8 bytes.  A capital sigma becomes a final sigma
    when a cased letter precedes it and none follows it, characters that
    case mapping ignores (such as the apostrophe or the full stop) set
    aside; every other letter is mapped by itself.  Archaic Greek letters
    and the characters of other scripts are left as they are. *)

Definition between (lo hi n : nat) : bool := (Nat.leb lo n && Nat.leb n hi)%bool.

Definition asciiCased (n : nat) : bool := (between 65 90 n || between 97 122 n)%bool.

(** ['], [.], [:], [^] and the grave accent. *)
Definition asciiIgnorable (n : nat) : bool :=
  (Nat.eqb n 39 || Nat.eqb n 46 || Nat.eqb n 58 || Nat.eqb n 94 || Nat.eqb n 96)%bool.

(** How a character counts for the context of a sigma. *)
Inductive Context : Type :=
| Cased
| Ignorable
| Uncased.

(** The class of the character that starts with lead byte [lead] and second
    byte [second] (for two-byte characters). *)
Definition classify2 (lead second : nat) : Context :=
  if Nat.eqb lead 194 then
    if (Nat.eqb second 170 || Nat.eqb second 181 || Nat.eqb second 186)%bool
    then Cased
    else if (Nat.eqb second 168 || Nat.eqb second 173 || Nat.eqb second 175
             || Nat.eqb second 180 || Nat.eqb second 183 || Nat.eqb second 184)%bool
    then Ignorable
    else Uncased
  else if Nat.eqb lead 195 then
    if (Nat.eqb second 151 || Nat.eqb second 183)%bool then Uncased else Cased
  else if Nat.eqb lead 206 then
    if (Nat.eqb second 132 || Nat.eqb second 133 || Nat.eqb second 135)%bool
    then Ignorable
    else if (Nat.eqb second 134 || between 136 138 second || Nat.eqb second 140
             || between 142 161 second || between 163 191 second)%bool
    then Cased
    else Uncased
  else if Nat.eqb lead 207 then
    if Nat.eqb second 182 then Uncased else Cased
  else Uncased.

(** Does a cased letter follow, the characters that case mapping ignores set
    aside? *)
Fixpoint casedFollows (s : string) : bool :=
  match s with
  | EmptyString => false
  | String c r =>
      let n := nat_of_ascii c in
      if Nat.ltb n 128 then
        if asciiIgnorable n then casedFollows r else asciiCased n
      else
        match r with
        | String d r' =>
            match classify2 n (nat_of_ascii d) with
            | Cased => true
            | Ignorable => casedFollows r'
            | Uncased => false
            end
        | EmptyString => false
        end
  end.

(** The lower case of the two-byte character [lead second] other than the
    capital sigma. *)
Definition lower2 (lead second : nat) : string :=
  let keep := String (ascii_of_nat lead) (String (ascii_of_nat second) EmptyString) in
  let to l2 s2 := String (ascii_of_nat l2) (String (ascii_of_nat s2) EmptyString) in
  if Nat.eqb lead 195 then
    if (between 128 158 second && negb (Nat.eqb second 151))%bool
    then to 195%nat (second + 32)%nat else keep
  else if Nat.eqb lead 206 then
    if Nat.eqb second 134 then to 206%nat 172%nat
    else if between 136 138 second then to 206%nat (second + 37)%nat
    else if Nat.eqb second 140 then to 207%nat 140%nat
    else if between 142 143 second then to 207%nat (second - 1)%nat
    else if between 145 159 second then to 206%nat (second + 32)%nat
    else if (between 160 161 second || between 164 171 second)%bool
    then to 207%nat (second - 32)%nat
    else keep
  else keep.

(** [precededByCased] tells whether a cased letter precedes the rest [s] of
    the input, ignorable characters set aside. *)
Fixpoint lowerFrom (precededByCased : bool) (s : string) : string :=
  match s with
  | EmptyString => EmptyString
  | String c r =>
      let n := nat_of_ascii c in
      if Nat.ltb n 128 then
        String (AsciiCase.lowerChar c)
          (lowerFrom
             (if asciiIgnorable n then precededByCased else asciiCased n) r)
      else if (Nat.eqb n 194 || Nat.eqb n 195 || Nat.eqb n 206 || Nat.eqb n 207)%bool then
        match r with
        | String d r' =>
            let k := nat_of_ascii d in
            let context :=
              match classify2 n k with
              | Cased => true
              | Ignorable => precededByCased
              | Uncased => false
              end in
            if (Nat.eqb n 206 && Nat.eqb k 163)%bool then
              (if (precededByCased && negb (casedFollows r'))%bool
               then String (ascii_of_nat 207) (String (ascii_of_nat 130) EmptyString)
               else String (ascii_of_nat 207) (String (ascii_of_nat 131) EmptyString))
              +:+ lowerFrom true r'
            else lower2 n k +:+ lowerFrom context r'
        | EmptyString => String c EmptyString
        end
      else String c (lowerFrom false r)
  end.

Definition toLowerCase (s : string) : string := lowerFrom false s.

(** A comparison of strings by code units, standing for [localeCompare]. *)
Definition localeCompare (a b : string) : Z :=
  match String.compare a b with
  | Lt => -1
  | Eq => 0
  | Gt => 1
  end.

(** *** [JSON.parse]

    A recursive-descent reader of JSON texts. *)

Definition quote : ascii := "034".
Definition backslash : ascii := "092".

Definition isSpace (c : ascii) : bool :=
  let n := nat_of_ascii c in
  (Nat.eqb n 32 || Nat.eqb n 9 || Nat.eqb n 10 || Nat.eqb n 13)%bool.

Fixpoint skipSpace (s : string) : string :=
  match s with
  | String c r => if isSpace c then skipSpace r else s
  | EmptyString => s
  end.

(** Removes [lit] from the front of [s]. *)
Fixpoint dropPrefix (lit s : string) : option string :=
  match lit, s with
  | EmptyString, _ => Some s
  | String a l, String b r => if Ascii.eqb a b then dropPrefix l r else None
  | String _ _, EmptyString => None
  end.

Definition hexDigit (c : ascii) : option nat :=
  let n := nat_of_ascii c in
  if (Nat.leb 48 n && Nat.leb n 57)%bool then Some (n - 48)%nat
  else if (Nat.leb 65 n && Nat.leb n 70)%bool then Some (n - 55)%nat
  else if (Nat.leb 97 n && Nat.leb n 102)%bool then Some (n - 87)%nat
  else None.

(** The UTF-8 encoding of the code unit that a [\u] escape denotes.  (The
    escapes of surrogates, which pair up to characters beyond the basic
    plane, are not covered.) *)
Definition hex4 (a b c d : ascii) : option string :=
  match hexDigit a, hexDigit b, hexDigit c, hexDigit d with
  | Some h1, Some h2, Some h3, Some h4 =>
      let cp :=
        4096 * Z.of_nat h1 + 256 * Z.of_nat h2 + 16 * Z.of_nat h3 + Z.of_nat h4 in
      let byte (z : Z) := ascii_of_nat (Z.to_nat z) in
      if cp <? 128 then Some (String (byte cp) EmptyString)
      else if cp <? 2048 then
        Some (String (byte (192 + cp / 64))
                (String (byte (128 + cp mod 64)) EmptyString))
      else if (55296 <=? cp) && (cp <=? 57343) then None
      else
        Some (String (byte (224 + cp / 4096))
                (String (byte (128 + (cp / 64) mod 64))
                   (String (byte (128 + cp mod 64)) EmptyString)))
  | _, _, _, _ => None
  end.

Definition simpleEscape (c : ascii) : option ascii :=
  if Ascii.eqb c quote then Some quote
  else if Ascii.eqb c backslash then Some backslash
  else if Ascii.eqb c "/" then Some "/"%char
  else if Ascii.eqb c "b" then Some "008"%char
  else if Ascii.eqb c "f" then Some "012"%char
  else if Ascii.eqb c "n" then Some "010"%char
  else if Ascii.eqb c "r" then Some "013"%char
  else if Ascii.eqb c "t" then Some "009"%char
  else None.

(** The characters of a string literal after its opening quote, up to and
    without the closing quote, and the rest of the input. *)
Fixpoint stringBody (s : string) : option (string * string) :=
  match s with
  | EmptyString => None
  | String c r =>
      if Ascii.eqb c quote then Some (EmptyString, r)
      else if Ascii.eqb c backslash then
        match r with
        | String e r' =>
            if Ascii.eqb e "u" then
              match r' with
              | String h1 (String h2 (String h3 (String h4 r''))) =>
                  match hex4 h1 h2 h3 h4, stringBody r'' with
                  | Some x, Some (body, rest) => Some (x +:+ body, rest)
                  | _, _ => None
                  end
              | _ => None
              end
            else
              match simpleEscape e, stringBody r' with
              | Some x, Some (body, rest) => Some (String x body, rest)
              | _, _ => None
              end
        | EmptyString => None
        end
      else if Nat.ltb (nat_of_ascii c) 32 then None
      else
        match stringBody r with
        | Some (body, rest) => Some (String c body, rest)
        | None => None
        end
  end.

(** A JSON number: [-? int frac? exp?], without superfluous leading zeros. *)
Definition numberLiteral (s : string) : option (Q * string) :=
  let '(neg, s1) :=
    match s with
    | String "-" r => (true, r)
    | _ => (false, s)
    end in
  let '(ip, ni, r1) := digits s1 0 0 in
  let leadingZero :=
    match s1 with
    | String "0" _ => Nat.ltb 1 ni
    | _ => false
    end in
  if (Nat.eqb ni 0 || leadingZero)%bool then None
  else
    let frac :=
      match r1 with
      | String "." r =>
          match digits r 0 0 with
          | (_, O, _) => None
          | (fp, nf, r2) => Some (fp, nf, r2)
          end
      | _ => Some (0, 0%nat, r1)
      end in
    match frac with
    | None => None
    | Some (fp, nf, r2) =>
        let expo :=
          match r2 with
          | String c r =>
              if (Ascii.eqb c "e" || Ascii.eqb c "E")%bool then
                let '(eneg, r') :=
                  match r with
                  | String "-" t => (true, t)
                  | String "+" t => (false, t)
                  | _ => (false, r)
                  end in
                match digits r' 0 0 with
                | (_, O, _) => None
                | (e, _, r3) => Some (if eneg then - e else e, r3)
                end
              else Some (0, r2)
          | EmptyString => Some (0, r2)
          end in
        match expo with
        | None => None
        | Some (e, r3) =>
            let q := scale (ip * 10 ^ Z.of_nat nf + fp) (e - Z.of_nat nf) in
            Some (if neg then Qopp q else q, r3)
        end
    end.

Fixpoint parseValue (fuel : nat) (s : string) : option (JSON.value * string) :=
  match fuel with
  | O => None
  | S fuel =>
      match skipSpace s with
      | EmptyString => None
      | String c r as s' =>
          if Ascii.eqb c "[" then
            match skipSpace r with
            | String "]" r' => Some (JSON.Arr [], r')
            | _ =>
                match parseElements fuel r with
                | Some (vs, r') => Some (JSON.Arr vs, r')
                | None => None
                end
            end
          else if Ascii.eqb c "{" then
            match skipSpace r with
            | String "}" r' => Some (JSON.Obj [], r')
            | _ =>
                match parseMembers fuel r with
                | Some (ms, r') => Some (JSON.Obj ms, r')
                | None => None
                end
            end
          else if Ascii.eqb c quote then
            match stringBody r with
            | Some (body, r') => Some (JSON.Str body, r')
            | None => None
            end
          else if Ascii.eqb c "n" then
            match dropPrefix "null" s' with
            | Some r' => Some (JSON.Null, r')
            | None => None
            end
          else if Ascii.eqb c "t" then
            match dropPrefix "true" s' with
            | Some r' => Some (JSON.Bool true, r')
            | None => None
            end
          else if Ascii.eqb c "f" then
            match dropPrefix "false" s' with
            | Some r' => Some (JSON.Bool false, r')
            | None => None
            end
          else
            match numberLiteral s' with
            | Some (q, r') => Some (JSON.Num q, r')
            | None => None
            end
      end
  end
with parseElements (fuel : nat) (s : string)
  : option (list JSON.value * string) :=
  match fuel with
  | O => None
  | S fuel =>
      match parseValue fuel s with
      | Some (v, r) =>
          match skipSpace r with
          | String "," r' =>
              match parseElements fuel r' with
              | Some (vs, r'') => Some (v :: vs, r'')
              | None => None
              end
          | String "]" r' => Some ([v], r')
          | _ => None
          end
      | None => None
      end
  end
with parseMembers (fuel : nat) (s : string)
  : option (list (string * JSON.value) * string) :=
  match fuel with
  | O => None
  | S fuel =>
      match skipSpace s with
      | String c r =>
          if Ascii.eqb c quote then
            match stringBody r with
            | Some (key, r1) =>
                match skipSpace r1 with
                | String ":" r2 =>
                    match parseValue fuel r2 with
                    | Some (v, r3) =>
                        match skipSpace r3 with
                        | String "," r4 =>
                            match parseMembers fuel r4 with
                            | Some (ms, r5) => Some ((key, v) :: ms, r5)
                            | None => None
                            end
                        | String "}" r4 => Some ([(key, v)], r4)
                        | _ => None
                        end
                    | None => None
                    end
                | _ => None
                end
            | None => None
            end
          else None
      | EmptyString => None
      end
  end.

(** [JSON.parse(text)]: [None] stands for the [SyntaxError] it throws.  The
    fuel bounds the depth of the recursion and is taken from the length of
    the text. *)
Definition JSON_parse (text : string) : option JSON.value :=
  match parseValue (2 * String.length text + 4) text with
  | Some (v, rest) =>
      match skipSpace rest with
      | EmptyString => Some v
      | String _ _ => None
      end
  | None => None
  end.

End Host.

(** ** The products page: [pages/ProductsPage.tsx] *)

Module ProductsPage.

Section Pipeline.
(** The host's [Number], [String.prototype.toLowerCase] and
    [String.prototype.localeCompare]. *)
Variable Number : string -> JS.number.
Variable toLowerCase : string -> string.
Variable localeCompare : string -> string -> Z.

(** 1. Search filter. *)
Definition searchFilter (products : list Product) (search : string)
  : list Product :=
  List.filter
    (fun p => JS.includes (toLowerCase (name p)) (toLowerCase search))
    products.

(** 2. Price range filter.  Nothing in the body of the [try] can throw, so
    its [catch] branch is unreachable. *)
Definition priceFilter (minPrice maxPrice : string)
    (filteredProducts : list Product) : list Product :=
  List.filter
    (fun p =>
       let meetsMin :=
         JS.strictEq minPrice "" || JS.geNumber (price p) (Number minPrice) in
       let meetsMax :=
         JS.strictEq maxPrice "" || JS.leNumber (price p) (Number maxPrice) in
       meetsMin && meetsMax)
    filteredProducts.

(** The filter stage: steps 1 and 2. *)
Definition filterStage (products : list Product)
    (search minPrice maxPrice : string) : list Product :=
  priceFilter minPrice maxPrice (searchFilter products search).

(** 3. Sorting: four independent tests of [sortOption], each one sorting a
    fresh copy. *)
Definition sortStage (sortOption : string)
    (filteredProducts : list Product) : list Product :=
  let filteredProducts :=
    if JS.strictEq sortOption "price-asc"
    then JS.sort (fun a b => price a - price b)%Q filteredProducts
    else filteredProducts in
  let filteredProducts :=
    if JS.strictEq sortOption "price-desc"
    then JS.sort (fun a b => price b - price a)%Q filteredProducts
    else filteredProducts in
  let filteredProducts :=
    if JS.strictEq sortOption "name-asc"
    then JS.sort (fun a b => inject_Z (localeCompare (name a) (name b)))
                 filteredProducts
    else filteredProducts in
  let filteredProducts :=
    if JS.strictEq sortOption "name-desc"
    then JS.sort (fun a b => inject_Z (localeCompare (name b) (name a)))
                 filteredProducts
    else filteredProducts in
  filteredProducts.

(** The list the page hands to the product list. *)
Definition filteredProducts (products : list Product)
    (search minPrice maxPrice sortOption : string) : list Product :=
  sortStage sortOption (filterStage products search minPrice maxPrice).

End Pipeline.

(** The local state of the page: the search string, the visibility of the
    filter panel, the sort option and the two price bounds as typed. *)
Record PageState : Type := {
  search : string;
  showFilters : bool;
  sortOption : string;
  minPrice : string;
  maxPrice : string
}.

(** The state at the first render: every [useState] starts empty. *)
Definition initialPageState : PageState :=
  {| search := ""; showFilters := false; sortOption := "";
     minPrice := ""; maxPrice := "" |}.

(** The number shown on the badge of the filter button. *)
Definition activeFilters (s : PageState) : Z :=
  (if JS.truthy (sortOption s) then 1 else 0)
  + (if JS.truthy (minPrice s) then 1 else 0)
  + (if JS.truthy (maxPrice s) then 1 else 0).

(** The [Clear Filters] button: the bounds and the sort option are reset, the
    search string is not. *)
Definition clearFilters (s : PageState) : PageState :=
  {| search := search s; showFilters := showFilters s; sortOption := "";
     minPrice := ""; maxPrice := "" |}.

(** The list the page hands to the product list, from its state. *)
Definition rendered (Number : string -> JS.number)
    (toLowerCase : string -> string)
    (localeCompare : string -> string -> Z) (products : list Product)
    (s : PageState) : list Product :=
  filteredProducts Number toLowerCase localeCompare products
    (search s) (minPrice s) (maxPrice s) (sortOption s).

(** What the page shows below the search bar. *)
Inductive Body : Type :=
| Loading
| NoResults
| ProductGrid (shown : list Product).

(** The three conditional blocks: [loading], [!loading && length === 0] and
    [!loading && length > 0]; they exclude one another. *)
Definition body (loading' : bool) (filteredProducts' : list Product) : Body :=
  if loading' then Loading
  else if Nat.eqb (length filteredProducts') 0 then NoResults
  else ProductGrid filteredProducts'.

End ProductsPage.

(** ** The navigation bar: [components/layout/NavBar.tsx] *)

Module NavBar.

(** [cartCount={cartItems.length}]: the number of cart entries. *)
Definition cartCount (st : AppState) : nat := length (cartItems st).

(** The badge is rendered when [cartCount > 0]. *)
Definition badgeShown (st : AppState) : bool := Nat.ltb 0 (cartCount st).

End NavBar.

(** ** The cart page: [pages/CartPage.tsx] *)

Module CartPage.

(** [items.reduce((sum, item) => sum + item.product.price * item.quantity, 0)] *)
Definition total (items : list CartItem) : Q :=
  fold_left
    (fun sum item => (sum + price (product item) * inject_Z (quantity item))%Q)
    items 0%Q.

(** The page shows the message for an empty cart when [items.length === 0]. *)
Definition emptyMessageShown (items : list CartItem) : bool :=
  Nat.eqb (length items) 0.

End CartPage.

(** ** One row of the cart page: [components/cart/CartItem.tsx]

    The handlers of a row close over the [item] the row was rendered with. *)

Module CartItemComponent.

(** The minus button is disabled when [item.quantity <= 1]. *)
Definition minusDisabled (item : CartItem) : bool := quantity item <=? 1.

(** A click on the minus button; a disabled button does not fire. *)
Definition minusClick (item : CartItem) : Eff unit :=
  if minusDisabled item then ret tt
  else App.handleUpdateCartQuantity (id (product item))
         (JS.sub (quantity item) 1).

Definition plusClick (item : CartItem) : Eff unit :=
  App.handleUpdateCartQuantity (id (product item)) (JS.add (quantity item) 1).

Definition removeClick (item : CartItem) : Eff unit :=
  App.handleRemoveFromCart (id (product item)).

End CartItemComponent.

(** ** The product form: [components/products/ProductForm.tsx] *)

(** [value || fallback] for an optional string: the fallback replaces a value
    that is missing or empty. *)
Definition orString (value : option string) (fallback : string) : string :=
  match value with
  | Some text => if JS.truthy text then text else fallback
  | None => fallback
  end.

Module ProductForm.

(** The four controlled fields ([name], [price], [description], [image] in
    the source). *)
Record FormState : Type := {
  nameField : string;
  priceField : Q;
  descriptionField : string;
  imageField : string
}.

(** The initial values of the fields: those of [initialProduct] when the form
    edits a product, and empty ones otherwise.  [price || 0] replaces a price
    of zero by zero. *)
Definition initialFields (initialProduct : option Product) : FormState :=
  {| nameField := orString (option_map name initialProduct) "";
     priceField :=
       match initialProduct with
       | Some p => if Qeq_bool (price p) 0 then 0%Q else price p
       | None => 0%Q
       end;
     descriptionField :=
       orString (match initialProduct with
                 | Some p => description p
                 | None => None
                 end) "";
     imageField :=
       orString (match initialProduct with
                 | Some p => image p
                 | None => None
                 end) "" |}.

(** The product that [handleSubmit] hands to [onSubmit].  [randomUUID] is
    what [crypto.randomUUID()] returns; it is used when there is no id to
    keep. *)
Definition handleSubmit (randomUUID : string) (initialProduct : option Product)
    (fields : FormState) : Product :=
  {| id := orString (option_map id initialProduct) randomUUID;
     name := nameField fields;
     price := priceField fields;
     description := Some (descriptionField fields);
     image := Some (imageField fields) |}.

End ProductForm.

(** ** The edit page: [pages/ProductEditPage.tsx] *)

Module ProductEditPage.

(** [products.find((p) => p.id === id)], where the [id] of the URL may be
    missing; [None] makes the page show [Product not found.] *)
Definition findProduct (products : list Product) (urlId : option string)
  : option Product :=
  List.find
    (fun p =>
       match urlId with
       | Some i => JS.strictEq (id p) i
       | None => false
       end)
    products.

(** [handleUpdate]: the product goes to the handler of the application (the
    navigation that follows is not modelled). *)
Definition handleUpdate (reply : Reply Product) (updatedProduct : Product)
  : Eff unit :=
  App.handleUpdateProduct reply updatedProduct.

(** Saving the form of the edit page: the fields are submitted for the
    product found under the id of the URL; nothing happens when the page shows
    its fallback. *)
Definition save (randomUUID : string) (reply : Reply Product)
    (urlId : option string) (fields : ProductForm.FormState) : Eff unit :=
  fun st =>
    match findProduct (products st) urlId with
    | Some found =>
        handleUpdate reply
          (ProductForm.handleSubmit randomUUID (Some found) fields) st
    | None => ret tt st
    end.

End ProductEditPage.

(** ** The create page: [pages/ProductCreatePage.tsx] *)

Module ProductCreatePage.

(** [handleCreate]: [onCreate?.(product)] with the handler the application
    passes (the navigation that follows is not modelled). *)
Definition handleCreate (reply : Reply Product) (product' : Product)
  : Eff unit :=
  App.handleCreateProduct reply product'.

End ProductCreatePage.

(** ** The details page: [components/products/ProductDetails.tsx] *)

Module ProductDetails.
Local Open Scope eff_scope.

(** The local state of the page ([product] and [loading] in the source). *)
Record DetailsState : Type := {
  shownProduct : option Product;
  stillLoading : bool
}.

Definition initialDetails : DetailsState :=
  {| shownProduct := None; stillLoading := true |}.

Definition setProduct (data : Product) (d : DetailsState) : DetailsState :=
  {| shownProduct := Some data; stillLoading := stillLoading d |}.

Definition setLoading (b : bool) (d : DetailsState) : DetailsState :=
  {| shownProduct := shownProduct d; stillLoading := b |}.

(** The effect that loads the product named by the URL.  The local state of
    the page is threaded beside the state of the application, which carries
    the event trace.  [urlId] is the id found in the URL, if any; [reply] is
    how the request of [getProduct] ends.  The [finally] block lowers the
    loading flag on every path. *)
Definition load (urlId : option string) (reply : Reply Product)
    (d : DetailsState) (st : AppState)
  : Outcome unit * (DetailsState * AppState) :=
  let i := orString urlId "" in
  if negb (JS.truthy i) then
    match (consoleError "ProductDetails: Missing product ID in URL" ;;;
           alert "We couldn't load this product because the product ID was missing.")
            st with
    | (Returns _, st1) => (Returns tt, (setLoading false d, st1))
    | (Throws e, st1) => (Throws e, (d, st1))
    end
  else
    match productsApi.getProduct reply i st with
    | (Returns data, st1) =>
        (Returns tt, (setLoading false (setProduct data d), st1))
    | (Throws error, st1) =>
        match (consoleError ("Error loading product with ID " +:+ i +:+ ":") ;;;
               alert "We couldn't load this product. It may have been deleted or the server may be unavailable.")
                st1 with
        | (Returns _, st2) => (Returns tt, (setLoading false d, st2))
        | (Throws e, st2) => (Throws e, (setLoading false d, st2))
        end
    end.

(** What the page renders: the loading text, the fallback for a missing
    product, or the details of the product. *)
Inductive View : Type :=
| LoadingText
| NotFound
| Details (p : Product).

Definition view (d : DetailsState) : View :=
  if stillLoading d then LoadingText
  else
    match shownProduct d with
    | None => NotFound
    | Some p => Details p
    end.

End ProductDetails.

(** ** Sessions: the cart actions the user interface offers *)

Module CartSession.

(** One click: on [Add to Cart] for a product (a card of the products page or
    the details page), on the plus, minus or remove button of a row of the
    cart page, or on [Remove All Items]. *)
Inductive Action : Type :=
| AddToCart (p : Product)
| Plus (row : nat)
| Minus (row : nat)
| Remove (row : nat)
| ClearCart.

(** A click on a button of the row with the given index: the row is rendered
    from the item the cart holds at that index; there is no such button when
    the cart is shorter. *)
Definition onRow (row : nat) (click : CartItem -> Eff unit) (st : AppState)
  : AppState :=
  match nth_error (cartItems st) row with
  | Some item => exec (click item) st
  | None => st
  end.

Definition perform (a : Action) (st : AppState) : AppState :=
  match a with
  | AddToCart p => exec (App.handleAddToCart p) st
  | Plus row => onRow row CartItemComponent.plusClick st
  | Minus row => onRow row CartItemComponent.minusClick st
  | Remove row => onRow row CartItemComponent.removeClick st
  | ClearCart => exec App.handleClearCart st
  end.

(** The state after a sequence of clicks, each one on the page rendered from
    the state the previous one left. *)
Definition run (actions : list Action) (st : AppState) : AppState :=
  fold_left (fun s a => perform a s) actions st.

End CartSession.

(** ** Sample data *)

Module Sample.

Definition appleWatch : Product :=
  {| id := "1"; name := "Apple Watch"; price := 30;
     description := Some "A watch"; image := None |}.

Definition banana : Product :=
  {| id := "2"; name := "Banana"; price := 10;
     description := None; image := None |}.

Definition pineapple : Product :=
  {| id := "3"; name := "Pineapple"; price := 20;
     description := None; image := None |}.

Definition catalog : list Product := [appleWatch; banana; pineapple].

(** A running application: the catalog is loaded, the cart holds two
    watches and one banana. *)
Definition running : AppState :=
  {| products := catalog;
     loading := false;
     cartItems := [ {| product := appleWatch; quantity := 2 |};
                    {| product := banana; quantity := 1 |} ];
     events := [] |}.

(** The application right after its first render, with an empty cart. *)
Definition fresh : AppState := App.initialState [] [].

(** A product whose name ends in a capital sigma. *)
Definition sigma : Product :=
  {| id := "4"; name := "AΣ"; price := 5;
     description := None; image := None |}.

(** A cart, as a stored cart can bring it in, whose quantity is the largest
    integer up to which every integer is a double. *)
Definition saturated : AppState :=
  {| products := catalog;
     loading := false;
     cartItems := [ {| product := appleWatch; quantity := 2 ^ 53 |} ];
     events := [] |}.

(** A stored cart that was cut short. *)
Definition truncated : string := "[{".

End Sample.

(** ** Vocabulary of the specification *)

(** The stored value is corrupted when [JSON.parse] rejects it. *)
Definition corrupted (JSON_parse : string -> option JSON.value)
    (text : string) : Prop :=
  JSON_parse text = None.

(** Two strings are equal up to the case of their letters: their lower-case
    forms are the same. *)
Definition equalIgnoringCase (lower : string -> string) (a b : string) : Prop :=
  lower a = lower b.

(** [search] occurs in [name'] as a case-insensitive substring: some
    contiguous part of [name'] equals [search] up to case. *)
Definition containsIgnoringCase (lower : string -> string)
    (name' search : string) : Prop :=
  exists pre mid post,
    name' = pre +:+ mid +:+ post /\ equalIgnoringCase lower mid search.

(** The lower-case form of [name'] contains the lower-case form of
    [search]. *)
Definition lowerContains (lower : string -> string)
    (name' search : string) : Prop :=
  exists pre post, lower name' = pre +:+ lower search +:+ post.

(** A price is at least, or at most, a bound. *)
Definition atLeast (x : Q) (bound : JS.number) : Prop :=
  match bound with
  | JS.Fin q => (q <= x)%Q
  | JS.NegInf => True
  | JS.PosInf | JS.NaN => False
  end.

Definition atMost (x : Q) (bound : JS.number) : Prop :=
  match bound with
  | JS.Fin q => (x <= q)%Q
  | JS.PosInf => True
  | JS.NegInf | JS.NaN => False
  end.

(** The price respects each bound that is given (a bound is missing when its
    input field is empty). *)
Definition withinBounds (Number : string -> JS.number)
    (minPrice maxPrice : string) (x : Q) : Prop :=
  (minPrice <> "" -> atLeast x (Number minPrice))
  /\ (maxPrice <> "" -> atMost x (Number maxPrice)).

(** What the filter stage must keep according to the specification: the name
    contains the search string as a case-insensitive substring, and the price
    respects the bounds. *)
Definition keptByFilters (Number : string -> JS.number)
    (lower : string -> string)
    (search minPrice maxPrice : string) (p : Product) : Prop :=
  containsIgnoringCase lower (name p) search
  /\ withinBounds Number minPrice maxPrice (price p).

(** What the filter stage keeps: the lower-case form of the name contains
    the lower-case form of the search string, and the price respects the
    bounds. *)
Definition passesFilters (Number : string -> JS.number)
    (toLowerCase : string -> string)
    (search minPrice maxPrice : string) (p : Product) : Prop :=
  lowerContains toLowerCase (name p) search
  /\ withinBounds Number minPrice maxPrice (price p).

(** The filter stage as the specification words it: it keeps exactly the
    catalog products that [keptByFilters] describes. *)
Definition filterKeepsAsSpecified (Number : string -> JS.number)
    (toLowerCase : string -> string) (products : list Product)
    (search minPrice maxPrice : string) : Prop :=
  forall p,
    In p (ProductsPage.filterStage Number toLowerCase products
            search minPrice maxPrice)
    <-> In p products
        /\ keptByFilters Number toLowerCase search minPrice maxPrice p.

(** The host lower-cases ASCII text letter by letter. *)
Definition lowersAscii (toLowerCase : string -> string) : Prop :=
  forall s, AsciiCase.isAscii s = true -> toLowerCase s = AsciiCase.lowerCase s.

(** [add] as the specification words it, for a product whose id some cart
    item carries: the cart keeps its length, every item with that id has its
    quantity raised by one, and every other item is unchanged. *)
Definition addRaisesByOne (st : AppState) (p : Product) : Prop :=
  let cart := cartItems st in
  let cart' := cartAfter (App.handleAddToCart p) st in
  length cart' = length cart /\
  forall (i : nat) (item : CartItem),
    nth_error cart i = Some item ->
    (id (product item) = id p ->
       nth_error cart' i =
       Some {| product := product item; quantity := quantity item + 1 |}) /\
    (id (product item) <> id p -> nth_error cart' i = Some item).

(** The invariant of the cart: pairwise distinct product ids and quantities
    of at least one. *)
Definition wellFormedCart (cart : list CartItem) : Prop :=
  List.NoDup (cartIds cart) /\ List.Forall (fun item => 1 <= quantity item) cart.

(** * Properties *)

(** ** Strings *)

Lemma strictEq_true (a b : string) : JS.strictEq a b = true <-> a = b.
Proof. unfold JS.strictEq. apply String.eqb_eq. Qed.

Lemma strictEq_false (a b : string) : JS.strictEq a b = false <-> a <> b.
Proof. unfold JS.strictEq. apply String.eqb_neq. Qed.

Lemma truthy_true (s : string) : JS.truthy s = true <-> s <> "".
Proof.
  unfold JS.truthy. rewrite negb_true_iff. apply String.eqb_neq.
Qed.

(** ** Numbers *)

Lemma nearestDouble_exact (z : Z) :
  - 2 ^ 53 <= z <= 2 ^ 53 -> JS.nearestDouble z = z.
Proof.
  intros Hz. unfold JS.nearestDouble.
  destruct (Z.abs z <? 2 ^ 53) eqn:Hlt; [reflexivity|].
  apply Z.ltb_ge in Hlt.
  assert (Habs : Z.abs z = 2 ^ 53) by lia.
  rewrite Habs.
  assert (Hcases : z = 2 ^ 53 \/ z = - 2 ^ 53) by lia.
  destruct Hcases as [-> | ->]; reflexivity.
Qed.

Lemma nearestDouble_pos (z : Z) : 0 < z -> 0 < JS.nearestDouble z.
Proof.
  intros Hz. unfold JS.nearestDouble.
  destruct (Z.abs z <? 2 ^ 53) eqn:Hlt; [exact Hz|].
  apply Z.ltb_ge in Hlt. rewrite (Z.abs_eq z) in * by lia.
  rewrite (Z.sgn_pos z Hz), Z.mul_1_l.
  assert (Hlog : 53 <= Z.log2 z).
  { rewrite <- (Z.log2_pow2 53) by lia. apply Z.log2_le_mono. exact Hlt. }
  set (ulp := 2 ^ (Z.log2 z - 52)).
  assert (Hulp : 0 < ulp) by (apply Z.pow_pos_nonneg; lia).
  assert (Hle : ulp <= z).
  { apply (Z.le_trans _ (2 ^ Z.log2 z)).
    - apply Z.pow_le_mono_r; lia.
    - apply Z.log2_spec. exact Hz. }
  assert (Hm : 0 < z / ulp) by (apply Z.div_str_pos; lia).
  apply Z.mul_pos_pos; [|exact Hulp].
  destruct (2 * (z mod ulp) <? ulp); [exact Hm|].
  destruct (ulp <? 2 * (z mod ulp)); [lia|].
  destruct (Z.even (z / ulp)); lia.
Qed.

Lemma add_one_exact (q : Z) : - 2 ^ 53 <= q < 2 ^ 53 -> JS.add q 1 = q + 1.
Proof. intros Hq. unfold JS.add. apply nearestDouble_exact. lia. Qed.

Lemma sub_one_exact (q : Z) : - 2 ^ 53 < q <= 2 ^ 53 -> JS.sub q 1 = q - 1.
Proof. intros Hq. unfold JS.sub. apply nearestDouble_exact. lia. Qed.

Lemma add_one_pos (q : Z) : 0 <= q -> 1 <= JS.add q 1.
Proof.
  intros Hq. unfold JS.add.
  assert (H : 0 < JS.nearestDouble (q + 1)) by (apply nearestDouble_pos; lia).
  lia.
Qed.

Lemma sub_one_pos (q : Z) : 1 < q -> 1 <= JS.sub q 1.
Proof.
  intros Hq. unfold JS.sub.
  assert (H : 0 < JS.nearestDouble (q - 1)) by (apply nearestDouble_pos; lia).
  lia.
Qed.

(** ** The cart handlers as functions on the cart list *)

Section CartHandlers.
Variable st : AppState.

Lemma cartAfter_add_invalid (p : Product) :
  id p = "" -> cartAfter (App.handleAddToCart p) st = cartItems st.
Proof.
  intros Hid. unfold cartAfter, exec, App.handleAddToCart, tryCatch, bind.
  assert (Ht : JS.truthy (id p) = false).
  { unfold JS.truthy. rewrite Hid. reflexivity. }
  rewrite Ht. reflexivity.
Qed.

Lemma cartAfter_add_present (p : Product) (found : CartItem) :
  id p <> "" ->
  List.find (fun item => JS.strictEq (id (product item)) (id p))
            (cartItems st) = Some found ->
  cartAfter (App.handleAddToCart p) st =
  List.map (fun item =>
              if JS.strictEq (id (product item)) (id p)
              then {| product := product item;
                      quantity := JS.add (quantity item) 1 |}
              else item)
           (cartItems st).
Proof.
  intros Hid Hfind. apply truthy_true in Hid.
  unfold cartAfter, exec, App.handleAddToCart, tryCatch, bind.
  rewrite Hid. simpl. rewrite Hfind. reflexivity.
Qed.

Lemma cartAfter_add_absent (p : Product) :
  id p <> "" ->
  List.find (fun item => JS.strictEq (id (product item)) (id p))
            (cartItems st) = None ->
  cartAfter (App.handleAddToCart p) st =
  cartItems st ++ [ {| product := p; quantity := 1 |} ].
Proof.
  intros Hid Hfind. apply truthy_true in Hid.
  unfold cartAfter, exec, App.handleAddToCart, tryCatch, bind.
  rewrite Hid. simpl. rewrite Hfind. reflexivity.
Qed.

Lemma cartAfter_remove (pid : string) :
  cartAfter (App.handleRemoveFromCart pid) st =
  List.filter (fun item => negb (JS.strictEq (id (product item)) pid))
              (cartItems st).
Proof. reflexivity. Qed.

Lemma cartAfter_setQuantity_nonpos (pid : string) (n : Z) :
  n <= 0 ->
  cartAfter (App.handleUpdateCartQuantity pid n) st =
  List.filter (fun item => negb (JS.strictEq (id (product item)) pid))
              (cartItems st).
Proof.
  intros Hn. unfold cartAfter, exec, App.handleUpdateCartQuantity, tryCatch.
  apply Z.leb_le in Hn. rewrite Hn. reflexivity.
Qed.

Lemma cartAfter_setQuantity_pos (pid : string) (n : Z) :
  0 < n ->
  cartAfter (App.handleUpdateCartQuantity pid n) st =
  List.map (fun item =>
              if JS.strictEq (id (product item)) pid
              then {| product := product item; quantity := n |}
              else item)
           (cartItems st).
Proof.
  intros Hn. unfold cartAfter, exec, App.handleUpdateCartQuantity, tryCatch.
  assert (Hb : (n <=? 0) = false) by (apply Z.leb_gt; exact Hn).
  rewrite Hb. reflexivity.
Qed.

Lemma cartAfter_clear : cartAfter App.handleClearCart st = [].
Proof. reflexivity. Qed.

End CartHandlers.

(** ** Lists: filtering and mapping by product id *)

Lemma find_id_spec (pid : string) (cart : list CartItem) :
  match List.find (fun item => JS.strictEq (id (product item)) pid) cart with
  | Some found => In found cart /\ id (product found) = pid
  | None => ~ In pid (cartIds cart)
  end.
Proof.
  destruct (List.find _ cart) as [found|] eqn:Hfind.
  - apply List.find_some in Hfind. destruct Hfind as [Hin Heq].
    split; [exact Hin | apply strictEq_true; exact Heq].
  - intros Hin. unfold cartIds in Hin. apply List.in_map_iff in Hin.
    destruct Hin as [item [Heq Hin]].
    pose proof (List.find_none _ _ Hfind item Hin) as Hf. simpl in Hf.
    apply strictEq_false in Hf. contradiction.
Qed.

Lemma in_cartIds (pid : string) (cart : list CartItem) :
  In pid (cartIds cart) <-> exists item, In item cart /\ id (product item) = pid.
Proof.
  unfold cartIds. rewrite List.in_map_iff. split; intros [item [H1 H2]]; eauto.
Qed.

Lemma filter_absent_id (pid : string) (cart : list CartItem) :
  ~ In pid (cartIds cart) ->
  List.filter (fun item => negb (JS.strictEq (id (product item)) pid)) cart = cart.
Proof.
  induction cart as [|item cart IH]; simpl; intros Hnot; [reflexivity|].
  destruct (JS.strictEq (id (product item)) pid) eqn:Heq; simpl.
  - apply strictEq_true in Heq. exfalso. apply Hnot. left. exact Heq.
  - f_equal. apply IH. intros Hin. apply Hnot. right. exact Hin.
Qed.

Lemma map_absent_id (pid : string) (f : CartItem -> CartItem)
    (cart : list CartItem) :
  ~ In pid (cartIds cart) ->
  List.map (fun item => if JS.strictEq (id (product item)) pid then f item else item)
           cart = cart.
Proof.
  induction cart as [|item cart IH]; simpl; intros Hnot; [reflexivity|].
  destruct (JS.strictEq (id (product item)) pid) eqn:Heq.
  - apply strictEq_true in Heq. exfalso. apply Hnot. left. exact Heq.
  - f_equal. apply IH. intros Hin. apply Hnot. right. exact Hin.
Qed.

Lemma cartIds_map_keep (pid : string) (f : CartItem -> CartItem)
    (cart : list CartItem) :
  (forall item, id (product (f item)) = id (product item)) ->
  cartIds (List.map (fun item =>
                       if JS.strictEq (id (product item)) pid then f item else item)
                    cart) = cartIds cart.
Proof.
  intros Hf. unfold cartIds. rewrite List.map_map. apply List.map_ext.
  intros item. destruct (JS.strictEq _ pid); [apply Hf | reflexivity].
Qed.

Lemma cartIds_filter (pid : string) (cart : list CartItem) :
  cartIds (List.filter (fun item => negb (JS.strictEq (id (product item)) pid)) cart)
  = List.filter (fun i => negb (JS.strictEq i pid)) (cartIds cart).
Proof.
  induction cart as [|item cart IH]; simpl; [reflexivity|].
  destruct (JS.strictEq (id (product item)) pid); simpl; [exact IH|].
  f_equal. exact IH.
Qed.

Lemma nth_error_map_by_id (pid : string) (f : CartItem -> CartItem)
    (cart : list CartItem) (i : nat) (item : CartItem) :
  nth_error cart i = Some item ->
  nth_error
    (List.map (fun it => if JS.strictEq (id (product it)) pid then f it else it) cart)
    i
  = Some (if JS.strictEq (id (product item)) pid then f item else item).
Proof.
  intros Hi. rewrite List.nth_error_map, Hi. reflexivity.
Qed.

(** ** The cart operations *)

(** C1 (as amended).  Adding a product whose id is not empty: when some cart
    item already carries that id, the cart keeps its length, every item with
    that id keeps its product and has its quantity raised by the addition of
    one, which is an increment by one as long as the quantity is at least
    -2^53 and below 2^53, and every other item is unchanged, position by
    position; when no item carries it, the cart is extended by the single
    item [{product: p, quantity: 1}].  Adding the same product twice to an
    empty cart leaves exactly one item, of quantity 2. *)
Theorem add_increments_or_appends (st : AppState) (p : Product) :
  id p <> "" ->
  let cart := cartItems st in
  let cart' := cartAfter (App.handleAddToCart p) st in
  ((exists item, In item cart /\ id (product item) = id p) ->
     length cart' = length cart /\
     forall (i : nat) (item : CartItem),
       nth_error cart i = Some item ->
       (id (product item) = id p ->
          nth_error cart' i =
          Some {| product := product item;
                  quantity := JS.add (quantity item) 1 |}
          /\ (- 2 ^ 53 <= quantity item < 2 ^ 53 ->
              JS.add (quantity item) 1 = quantity item + 1)) /\
       (id (product item) <> id p -> nth_error cart' i = Some item))
  /\ ((forall item, In item cart -> id (product item) <> id p) ->
        cart' = cart ++ [ {| product := p; quantity := 1 |} ])
  /\ (cart = [] ->
        cartAfter (App.handleAddToCart p) (exec (App.handleAddToCart p) st)
        = [ {| product := p; quantity := 2 |} ]).
Proof.
  intros Hid cart cart'.
  pose proof (find_id_spec (id p) cart) as Hfind.
  destruct (List.find _ cart) as [found|] eqn:Efind.
  - (* some item carries the id *)
    assert (Hc : cart' = List.map
                (fun item =>
                   if JS.strictEq (id (product item)) (id p)
                   then {| product := product item;
                           quantity := JS.add (quantity item) 1 |}
                   else item) cart).
    { apply (cartAfter_add_present st p found Hid Efind). }
    split; [|split].
    + intros _. split.
      * rewrite Hc. apply List.length_map.
      * intros i item Hi. rewrite Hc.
        rewrite (nth_error_map_by_id (id p)
                   (fun it => {| product := product it;
                                 quantity := JS.add (quantity it) 1 |})
                   cart i item Hi).
        split; intros Hcase.
        -- apply strictEq_true in Hcase. rewrite Hcase.
           split; [reflexivity | apply add_one_exact].
        -- apply strictEq_false in Hcase. rewrite Hcase. reflexivity.
    + intros Hnone. destruct Hfind as [Hin Heq].
      exfalso. exact (Hnone found Hin Heq).
    + intros Hempty. rewrite Hempty in Efind. discriminate Efind.
  - (* no item carries the id *)
    assert (Hc : cart' = cart ++ [ {| product := p; quantity := 1 |} ]).
    { apply (cartAfter_add_absent st p Hid Efind). }
    split; [|split].
    + intros [item [Hin Heq]]. exfalso. apply Hfind.
      apply in_cartIds. exists item. split; assumption.
    + intros _. exact Hc.
    + intros Hempty.
      assert (Hfirst : cartItems (exec (App.handleAddToCart p) st)
                       = [ {| product := p; quantity := 1 |} ]).
      { change (cart' = [ {| product := p; quantity := 1 |} ]).
        rewrite Hc, Hempty. reflexivity. }
      assert (Hsame : JS.strictEq (id p) (id p) = true)
        by (apply strictEq_true; reflexivity).
      rewrite (cartAfter_add_present (exec (App.handleAddToCart p) st) p
                 {| product := p; quantity := 1 |} Hid).
      * rewrite Hfirst. simpl. rewrite Hsame. reflexivity.
      * rewrite Hfirst. simpl. rewrite Hsame. reflexivity.
Qed.

(** C1 (as stated) fails where the addition rounds: in a cart whose item has
    quantity 2^53, adding the product of that item leaves the quantity at
    2^53 instead of raising it by one. *)
Lemma add_at_two_to_the_53_counterexample :
  id Sample.appleWatch <> ""
  /\ (exists item,
        In item (cartItems Sample.saturated)
        /\ id (product item) = id Sample.appleWatch)
  /\ cartAfter (App.handleAddToCart Sample.appleWatch) Sample.saturated
     = [ {| product := Sample.appleWatch; quantity := 2 ^ 53 |} ]
  /\ ~ addRaisesByOne Sample.saturated Sample.appleWatch.
Proof.
  split; [vm_compute; discriminate|].
  split.
  { exists {| product := Sample.appleWatch; quantity := 2 ^ 53 |}.
    split; [left; reflexivity | reflexivity]. }
  assert (Hrun : cartAfter (App.handleAddToCart Sample.appleWatch)
                           Sample.saturated
                 = [ {| product := Sample.appleWatch; quantity := 2 ^ 53 |} ])
    by (vm_compute; reflexivity).
  split; [exact Hrun|].
  unfold addRaisesByOne. cbv zeta. rewrite Hrun.
  intros [_ Hall].
  destruct (Hall 0%nat {| product := Sample.appleWatch; quantity := 2 ^ 53 |}
              eq_refl) as [Hraised _].
  specialize (Hraised eq_refl). simpl in Hraised.
  injection Hraised as Hq. vm_compute in Hq. discriminate Hq.
Qed.

(** Under the cart invariant (pairwise distinct ids) the items that carry a
    given id are at most one, so [add] changes exactly one item. *)
Lemma distinct_ids_single_item (cart : list CartItem) (i j : nat)
    (a b : CartItem) :
  List.NoDup (cartIds cart) ->
  nth_error cart i = Some a -> nth_error cart j = Some b ->
  id (product a) = id (product b) -> i = j.
Proof.
  intros Hnd Ha Hb Heq.
  assert (Hi : nth_error (cartIds cart) i = Some (id (product a))).
  { unfold cartIds. rewrite List.nth_error_map, Ha. reflexivity. }
  assert (Hj : nth_error (cartIds cart) j = Some (id (product a))).
  { unfold cartIds. rewrite List.nth_error_map, Hb, Heq. reflexivity. }
  assert (Hlt : (i < length (cartIds cart))%nat).
  { apply List.nth_error_Some. rewrite Hi. discriminate. }
  apply (proj1 (List.NoDup_nth_error (cartIds cart)) Hnd i j Hlt).
  rewrite Hi, Hj. reflexivity.
Qed.

Lemma filter_by_id_spec (pid : string) (cart : list CartItem) :
  List.filter (fun item => negb (JS.strictEq (id (product item)) pid)) cart
  = filter (fun item => id (product item) <> pid) cart.
Proof.
  induction cart as [|item cart IH]; [reflexivity|].
  simpl. destruct (JS.strictEq (id (product item)) pid) eqn:Heq; simpl.
  - apply strictEq_true in Heq.
    rewrite filter_cons_False by (intros Hne; exact (Hne Heq)). exact IH.
  - apply strictEq_false in Heq.
    rewrite filter_cons_True by exact Heq. f_equal. exact IH.
Qed.

Lemma cartIdSet_filter (pid : string) (cart : list CartItem) :
  cartIdSet
    (List.filter (fun item => negb (JS.strictEq (id (product item)) pid)) cart)
  = cartIdSet cart ∖ {[ pid ]}.
Proof.
  unfold cartIdSet. apply set_eq. intros x.
  rewrite elem_of_difference, !elem_of_list_to_set, !list_elem_of_In.
  rewrite cartIds_filter, List.filter_In, elem_of_singleton.
  rewrite negb_true_iff, strictEq_false. reflexivity.
Qed.

Lemma cartIdSet_elem (pid : string) (cart : list CartItem) :
  pid ∈ cartIdSet cart <-> exists item, In item cart /\ id (product item) = pid.
Proof.
  unfold cartIdSet. rewrite elem_of_list_to_set, list_elem_of_In.
  apply in_cartIds.
Qed.

(** C2.  [setQuantity(pid, n)] with [n <= 0] keeps exactly the items whose
    product id differs from [pid], in their order; the set of product ids of
    the cart loses [pid], so when the cart held an item with that id the set
    shrinks by exactly one element.  With [n > 0] the cart keeps its length,
    every item with product id [pid] gets quantity [n] (its product
    untouched) and every other item is unchanged, position by position. *)
Theorem setQuantity_removes_or_overwrites (st : AppState) (pid : string) (n : Z) :
  let cart := cartItems st in
  let cart' := cartAfter (App.handleUpdateCartQuantity pid n) st in
  (n <= 0 ->
     cart' = filter (fun item => id (product item) <> pid) cart /\
     cartIdSet cart' = cartIdSet cart ∖ {[ pid ]} /\
     ((exists item, In item cart /\ id (product item) = pid) ->
        (size (cartIdSet cart') + 1 = size (cartIdSet cart))%nat))
  /\ (0 < n ->
        length cart' = length cart /\
        forall (i : nat) (item : CartItem),
          nth_error cart i = Some item ->
          (id (product item) = pid ->
             nth_error cart' i =
             Some {| product := product item; quantity := n |}) /\
          (id (product item) <> pid -> nth_error cart' i = Some item)).
Proof.
  intros cart cart'. split.
  - intros Hn.
    assert (Hc : cart' = List.filter
                (fun item => negb (JS.strictEq (id (product item)) pid)) cart)
      by (apply cartAfter_setQuantity_nonpos; exact Hn).
    split; [|split].
    + rewrite Hc. apply filter_by_id_spec.
    + rewrite Hc. apply cartIdSet_filter.
    + intros Hex. apply cartIdSet_elem in Hex.
      rewrite Hc, cartIdSet_filter.
      assert (Hsub : ({[ pid ]} : gset string) ⊆ cartIdSet cart).
      { apply singleton_subseteq_l. exact Hex. }
      rewrite (size_difference _ _ Hsub), size_singleton.
      assert (Hpos : (size (cartIdSet cart) <> 0)%nat).
      { apply size_non_empty_iff. intros Hempty.
        rewrite Hempty in Hex. apply not_elem_of_empty in Hex. exact Hex. }
      lia.
  - intros Hn.
    assert (Hc : cart' = List.map
                (fun item =>
                   if JS.strictEq (id (product item)) pid
                   then {| product := product item; quantity := n |}
                   else item) cart)
      by (apply cartAfter_setQuantity_pos; exact Hn).
    split.
    + rewrite Hc. apply List.length_map.
    + intros i item Hi. rewrite Hc.
      rewrite (nth_error_map_by_id pid
                 (fun it => {| product := product it; quantity := n |})
                 cart i item Hi).
      split; intros Hcase.
      * apply strictEq_true in Hcase. rewrite Hcase. reflexivity.
      * apply strictEq_false in Hcase. rewrite Hcase. reflexivity.
Qed.

(** C3.  Pairwise distinct product ids are preserved by [add], [remove],
    [setQuantity] and [clear]. *)
Theorem cart_operations_keep_ids_distinct (st : AppState) :
  List.NoDup (cartIds (cartItems st)) ->
  (forall p, List.NoDup (cartIds (cartAfter (App.handleAddToCart p) st)))
  /\ (forall pid, List.NoDup (cartIds (cartAfter (App.handleRemoveFromCart pid) st)))
  /\ (forall pid n,
        List.NoDup (cartIds (cartAfter (App.handleUpdateCartQuantity pid n) st)))
  /\ List.NoDup (cartIds (cartAfter App.handleClearCart st)).
Proof.
  intros Hnd. split; [|split; [|split]].
  - intros p. destruct (String.eqb_spec (id p) "") as [Hempty|Hid].
    + rewrite cartAfter_add_invalid by exact Hempty. exact Hnd.
    + pose proof (find_id_spec (id p) (cartItems st)) as Hfind.
      destruct (List.find _ (cartItems st)) as [found|] eqn:Efind.
      * rewrite (cartAfter_add_present st p found Hid Efind).
        rewrite cartIds_map_keep by reflexivity. exact Hnd.
      * rewrite (cartAfter_add_absent st p Hid Efind).
        unfold cartIds. rewrite List.map_app. simpl.
        apply List.NoDup_app.
        -- exact Hnd.
        -- constructor; [intros [] | constructor].
        -- intros a Ha [Heq | []]. subst a. exact (Hfind Ha).
  - intros pid. rewrite cartAfter_remove, cartIds_filter.
    apply List.NoDup_filter. exact Hnd.
  - intros pid n. destruct (Z_le_gt_dec n 0) as [Hn|Hn].
    + rewrite cartAfter_setQuantity_nonpos by exact Hn.
      rewrite cartIds_filter. apply List.NoDup_filter. exact Hnd.
    + rewrite cartAfter_setQuantity_pos by lia.
      rewrite cartIds_map_keep by reflexivity. exact Hnd.
  - rewrite cartAfter_clear. constructor.
Qed.

(** C4.  Quantities of at least one are preserved by [add], [remove],
    [setQuantity] and [clear]; a [setQuantity] to a value of zero or less
    stores nothing: no item with that product id is left in the cart. *)
Theorem cart_operations_keep_quantities_positive (st : AppState) :
  List.Forall (fun item => 1 <= quantity item) (cartItems st) ->
  (forall p,
     List.Forall (fun item => 1 <= quantity item)
                 (cartAfter (App.handleAddToCart p) st))
  /\ (forall pid,
        List.Forall (fun item => 1 <= quantity item)
                    (cartAfter (App.handleRemoveFromCart pid) st))
  /\ (forall pid n,
        List.Forall (fun item => 1 <= quantity item)
                    (cartAfter (App.handleUpdateCartQuantity pid n) st))
  /\ List.Forall (fun item => 1 <= quantity item)
                 (cartAfter App.handleClearCart st)
  /\ (forall pid n,
        n <= 0 ->
        forall item,
          In item (cartAfter (App.handleUpdateCartQuantity pid n) st) ->
          id (product item) <> pid /\ In item (cartItems st)).
Proof.
  intros Hq.
  assert (Hfilter : forall f,
             List.Forall (fun item => 1 <= quantity item)
                         (List.filter f (cartItems st))).
  { intros f. apply List.Forall_forall. intros item Hin.
    apply List.filter_In in Hin. destruct Hin as [Hin _].
    exact (proj1 (List.Forall_forall _ _) Hq item Hin). }
  split; [|split; [|split; [|split]]].
  - intros p. destruct (String.eqb_spec (id p) "") as [Hempty|Hid].
    + rewrite cartAfter_add_invalid by exact Hempty. exact Hq.
    + destruct (List.find (fun item => JS.strictEq (id (product item)) (id p))
                          (cartItems st)) as [found|] eqn:Efind.
      * rewrite (cartAfter_add_present st p found Hid Efind).
        apply List.Forall_map.
        apply (List.Forall_impl _ (P := fun item => 1 <= quantity item));
          [|exact Hq].
        intros item Hitem.
        destruct (JS.strictEq (id (product item)) (id p));
          [cbn [quantity]; apply add_one_pos; lia | lia].
      * rewrite (cartAfter_add_absent st p Hid Efind).
        apply List.Forall_app. split; [exact Hq|].
        constructor; [simpl; lia | constructor].
  - intros pid. rewrite cartAfter_remove. apply Hfilter.
  - intros pid n. destruct (Z_le_gt_dec n 0) as [Hn|Hn].
    + rewrite cartAfter_setQuantity_nonpos by exact Hn. apply Hfilter.
    + rewrite cartAfter_setQuantity_pos by lia.
      apply List.Forall_map.
      apply (List.Forall_impl _ (P := fun item => 1 <= quantity item));
        [|exact Hq].
      intros item Hitem.
      destruct (JS.strictEq (id (product item)) pid); simpl; lia.
  - rewrite cartAfter_clear. constructor.
  - intros pid n Hn item Hin.
    rewrite cartAfter_setQuantity_nonpos in Hin by exact Hn.
    apply List.filter_In in Hin. destruct Hin as [Hin Hne].
    apply negb_true_iff, strictEq_false in Hne. split; assumption.
Qed.

(** A handler that leaves the cart as it was leaves the whole state as it
    was, provided it reports nothing. *)
Lemma state_eq (st st' : AppState) :
  products st' = products st -> loading st' = loading st ->
  cartItems st' = cartItems st -> events st' = events st -> st' = st.
Proof.
  destruct st, st'. simpl. intros -> -> -> ->. reflexivity.
Qed.

(** C10.  An operation addressed at a product id that no cart item carries
    is the identity on the cart: [remove(pid)], and [setQuantity(pid, n)] for
    every [n].  Neither of them fails or reports an error: the handler returns
    normally and the whole state, event trace included, is as before. *)
Theorem absent_id_is_noop (st : AppState) (pid : string) :
  (forall item, In item (cartItems st) -> id (product item) <> pid) ->
  (cartAfter (App.handleRemoveFromCart pid) st = cartItems st
   /\ exec (App.handleRemoveFromCart pid) st = st
   /\ outcome (App.handleRemoveFromCart pid) st = Returns tt)
  /\ forall n,
       cartAfter (App.handleUpdateCartQuantity pid n) st = cartItems st
       /\ exec (App.handleUpdateCartQuantity pid n) st = st
       /\ outcome (App.handleUpdateCartQuantity pid n) st = Returns tt.
Proof.
  intros Habsent.
  assert (Hnot : ~ In pid (cartIds (cartItems st))).
  { intros Hin. apply in_cartIds in Hin. destruct Hin as [item [Hin Heq]].
    exact (Habsent item Hin Heq). }
  assert (Hrem : cartAfter (App.handleRemoveFromCart pid) st = cartItems st).
  { rewrite cartAfter_remove. apply filter_absent_id. exact Hnot. }
  split.
  - split; [exact Hrem|]. split; [|reflexivity].
    apply state_eq; try reflexivity. exact Hrem.
  - intros n.
    assert (Hset : cartAfter (App.handleUpdateCartQuantity pid n) st
                   = cartItems st).
    { destruct (Z_le_gt_dec n 0) as [Hn|Hn].
      - rewrite cartAfter_setQuantity_nonpos by exact Hn.
        apply filter_absent_id. exact Hnot.
      - rewrite cartAfter_setQuantity_pos by lia.
        apply map_absent_id. exact Hnot. }
    split; [exact Hset|]. split.
    + apply state_eq; try exact Hset;
        unfold exec, App.handleUpdateCartQuantity, tryCatch;
        destruct (n <=? 0); reflexivity.
    + unfold outcome, App.handleUpdateCartQuantity, tryCatch.
      destruct (n <=? 0); reflexivity.
Qed.

(** ** The catalog handlers and the remote client *)

(** C9.  Updating or deleting a product of the catalog leaves the cart list
    exactly as it was, whatever the remote call answers: a cart item holds
    its own copy of the product, which no catalog write reaches. *)
Theorem catalog_writes_leave_cart_unchanged (st : AppState) :
  (forall (reply : Reply Product) (updated : Product),
     cartItems (exec (App.handleUpdateProduct reply updated) st) = cartItems st)
  /\ (forall (reply : Reply unit) (pid : string),
        cartItems (exec (App.handleDeleteProduct reply pid) st) = cartItems st).
Proof.
  split.
  - intros [saved|e] updated; reflexivity.
  - intros [[]|e] pid; reflexivity.
Qed.

(** C7.  When the request for the product list is rejected, [getProducts]
    returns the empty list and throws nothing; the load effect then stores the
    empty catalog, returns normally, and lowers the loading flag that the
    initial state had raised.  A rejected request of [getProduct],
    [createProduct], [updateProduct] or [deleteProduct] is thrown again to
    the caller, with the error it was rejected with. *)
Theorem list_failure_swallowed_others_rethrown (st : AppState) (e : Error) :
  outcome (productsApi.getProducts (Rejected e)) st = Returns []
  /\ (outcome (App.load (Rejected e)) st = Returns tt
      /\ products (exec (App.load (Rejected e)) st) = []
      /\ loading (exec (App.load (Rejected e)) st) = false
      /\ forall cart evs,
           loading (App.initialState cart evs) = true
           /\ loading (exec (App.load (Rejected e)) (App.initialState cart evs))
              = false
           /\ products (exec (App.load (Rejected e)) (App.initialState cart evs))
              = [])
  /\ (forall pid, outcome (productsApi.getProduct (Rejected e) pid) st = Throws e)
  /\ (forall p, outcome (productsApi.createProduct (Rejected e) p) st = Throws e)
  /\ (forall pid p,
        outcome (productsApi.updateProduct (Rejected e) pid p) st = Throws e)
  /\ (forall pid, outcome (productsApi.deleteProduct (Rejected e) pid) st = Throws e).
Proof.
  repeat split; reflexivity.
Qed.

(** The load effect on a fulfilled request: the catalog is the payload. *)
Lemma load_fulfilled (st : AppState) (data : list Product) :
  products (exec (App.load (Fulfilled data)) st) = data
  /\ loading (exec (App.load (Fulfilled data)) st) = false
  /\ events (exec (App.load (Fulfilled data)) st) = events st.
Proof. repeat split; reflexivity. Qed.

(** ** Cart rehydration *)

(** When the cart key is absent from the storage, or holds a text that
    [JSON.parse] rejects, the cart initializer returns the empty cart and
    throws nothing, whatever [JSON.parse] is. *)
Lemma rehydration_of_absent_or_corrupted
    (JSON_parse : string -> option JSON.value) (st : AppState)
    (saved : option string) :
  (saved = None \/ exists text, saved = Some text /\ corrupted JSON_parse text) ->
  outcome (App.cartInitializer JSON_parse (Fulfilled saved)) st
  = Returns (JSON.Arr []).
Proof.
  intros [Habsent | [text [Hsaved Hbad]]]; subst saved.
  - reflexivity.
  - unfold outcome, App.cartInitializer, tryCatch, bind, await, ret. simpl.
    destruct (JS.truthy text); [|reflexivity].
    unfold corrupted in Hbad. rewrite Hbad. reflexivity.
Qed.

(** The other ways the initializer can end: an empty stored string and a
    storage that cannot be read give the empty cart as well; a text that
    [JSON.parse] accepts gives the parsed value, whatever its shape. *)
Lemma rehydration_other_cases
    (JSON_parse : string -> option JSON.value) (st : AppState) :
  outcome (App.cartInitializer JSON_parse (Fulfilled (Some ""))) st
  = Returns (JSON.Arr [])
  /\ (forall e,
        outcome (App.cartInitializer JSON_parse (Rejected e)) st
        = Returns (JSON.Arr []))
  /\ (forall text v,
        text <> "" -> JSON_parse text = Some v ->
        outcome (App.cartInitializer JSON_parse (Fulfilled (Some text))) st
        = Returns v).
Proof.
  split; [reflexivity|]. split; [reflexivity|].
  intros text v Hne Hparse. apply truthy_true in Hne.
  unfold outcome, App.cartInitializer, tryCatch, bind, await, ret. simpl.
  rewrite Hne, Hparse. reflexivity.
Qed.

(** C8 (divergence).  A stored value that [JSON.parse] accepts but that is
    no cart is not treated as an empty cart.  With the text [null] under the
    cart key, the initializer returns [null] as the cart, without the alert
    that announces a reset, and the first render, which reads
    [cartItems.length], throws.  With the text [42] the cart is the number
    42.  The handler of the [try] is reached only by a text that
    [JSON.parse] rejects. *)
Theorem rehydration_of_parseable_corruption (st : AppState) :
  (outcome (App.cartInitializer Host.JSON_parse (Fulfilled (Some "null"))) st
   = Returns JSON.Null
   /\ events (exec (App.cartInitializer Host.JSON_parse
                      (Fulfilled (Some "null"))) st)
      = events st
   /\ App.cartCountReadThrows JSON.Null = true)
  /\ outcome (App.cartInitializer Host.JSON_parse (Fulfilled (Some "42"))) st
     = Returns (JSON.Num 42)
  /\ (forall text,
        outcome (App.cartInitializer Host.JSON_parse (Fulfilled (Some text))) st
        = Returns (JSON.Arr []) ->
        text = "" \/ Host.JSON_parse text = None
        \/ Host.JSON_parse text = Some (JSON.Arr [])).
Proof.
  split; [repeat split; reflexivity|]. split; [reflexivity|].
  intros text Hempty.
  destruct (String.eqb_spec text "") as [Heq|Hne]; [left; exact Heq|].
  right. destruct (Host.JSON_parse text) as [v|] eqn:Hparse; [|left; reflexivity].
  right. f_equal.
  destruct (rehydration_other_cases Host.JSON_parse st) as [_ [_ Hparsed]].
  rewrite (Hparsed text v Hne Hparse) in Hempty.
  injection Hempty as Hv. exact Hv.
Qed.

(** ** Strings: lower case and substrings *)

Lemma prefix_spec (sub s : string) :
  String.prefix sub s = true <-> exists post, s = sub +:+ post.
Proof.
  revert s. induction sub as [|a sub IH]; intros s; simpl.
  - split; [intros _; exists s; reflexivity | intros _; destruct s; reflexivity].
  - destruct s as [|b s]; simpl.
    + split; [discriminate | intros [post Hpost]; discriminate Hpost].
    + destruct (ascii_dec a b) as [Heq|Hne].
      * subst b. rewrite IH. split; intros [post Hpost]; exists post.
        -- rewrite Hpost. reflexivity.
        -- injection Hpost as Hpost. exact Hpost.
      * split; [discriminate|].
        intros [post Hpost]. injection Hpost as Hab _. congruence.
Qed.

Lemma includes_nil (sub : string) :
  JS.includes EmptyString sub = (String.prefix sub EmptyString || false).
Proof. reflexivity. Qed.

Lemma includes_cons (c : ascii) (s sub : string) :
  JS.includes (String c s) sub
  = (String.prefix sub (String c s) || JS.includes s sub).
Proof. reflexivity. Qed.

Lemma includes_spec (s sub : string) :
  JS.includes s sub = true <-> exists pre post, s = pre +:+ sub +:+ post.
Proof.
  induction s as [|c s IH].
  - rewrite includes_nil, orb_false_r, prefix_spec. split.
    + intros [post Hpost]. exists EmptyString, post. exact Hpost.
    + intros [pre [post Hs]]. destruct pre; [|discriminate Hs].
      exists post. exact Hs.
  - rewrite includes_cons, orb_true_iff, prefix_spec, IH. split.
    + intros [[post Hpost] | [pre [post Hs]]].
      * exists EmptyString, post. exact Hpost.
      * exists (String c pre), post. simpl. rewrite Hs. reflexivity.
    + intros [pre [post Hs]]. destruct pre as [|d pre]; simpl in Hs.
      * left. exists post. exact Hs.
      * right. injection Hs as _ Hs. exists pre, post. exact Hs.
Qed.

Lemma lowerCase_app (a b : string) :
  AsciiCase.lowerCase (a +:+ b)
  = AsciiCase.lowerCase a +:+ AsciiCase.lowerCase b.
Proof.
  induction a as [|c a IH]; simpl; [reflexivity|]. rewrite IH. reflexivity.
Qed.

Lemma lowerCase_split (s a' b' : string) :
  AsciiCase.lowerCase s = a' +:+ b' ->
  exists a b,
    s = a +:+ b /\ AsciiCase.lowerCase a = a' /\ AsciiCase.lowerCase b = b'.
Proof.
  revert s. induction a' as [|c a' IH]; intros s Hs; simpl in Hs.
  - exists EmptyString, s. repeat split. exact Hs.
  - destruct s as [|d s]; simpl in Hs; [discriminate Hs|].
    injection Hs as Hc Hs. destruct (IH s Hs) as [a [b [Hsplit [Ha Hb]]]].
    exists (String d a), b. simpl. rewrite Hsplit, Ha, Hc. repeat split.
    exact Hb.
Qed.

Lemma includes_lower_spec (name' search : string) :
  JS.includes (AsciiCase.lowerCase name') (AsciiCase.lowerCase search) = true
  <-> containsIgnoringCase AsciiCase.lowerCase name' search.
Proof.
  unfold containsIgnoringCase, equalIgnoringCase. rewrite includes_spec. split.
  - intros [pre' [post' Hs]].
    destruct (lowerCase_split _ _ _ Hs) as [pre [rest [Hname [_ Hrest]]]].
    destruct (lowerCase_split _ _ _ Hrest) as [mid [post [Hrest' [Hmid _]]]].
    exists pre, mid, post. split; [|exact Hmid].
    rewrite Hname, Hrest'. reflexivity.
  - intros [pre [mid [post [Hname Hmid]]]].
    exists (AsciiCase.lowerCase pre), (AsciiCase.lowerCase post).
    rewrite Hname, !lowerCase_app, Hmid. reflexivity.
Qed.

(** The reference [toLowerCase] lower-cases ASCII text letter by letter. *)
Lemma lowerFrom_ascii (precededByCased : bool) (s : string) :
  AsciiCase.isAscii s = true ->
  Host.lowerFrom precededByCased s = AsciiCase.lowerCase s.
Proof.
  revert precededByCased.
  induction s as [|c s IH]; intros b Hs; [reflexivity|].
  change (Nat.ltb (nat_of_ascii c) 128 && AsciiCase.isAscii s = true) in Hs.
  apply andb_true_iff in Hs. destruct Hs as [Hc Hs].
  change (Host.lowerFrom b (String c s))
    with (if Nat.ltb (nat_of_ascii c) 128
          then String (AsciiCase.lowerChar c)
                 (Host.lowerFrom
                    (if Host.asciiIgnorable (nat_of_ascii c) then b
                     else Host.asciiCased (nat_of_ascii c)) s)
          else if (Nat.eqb (nat_of_ascii c) 194 || Nat.eqb (nat_of_ascii c) 195
                   || Nat.eqb (nat_of_ascii c) 206
                   || Nat.eqb (nat_of_ascii c) 207)%bool
          then
            match s with
            | String d r' =>
                let k := nat_of_ascii d in
                let context :=
                  match Host.classify2 (nat_of_ascii c) k with
                  | Host.Cased => true
                  | Host.Ignorable => b
                  | Host.Uncased => false
                  end in
                if (Nat.eqb (nat_of_ascii c) 206 && Nat.eqb k 163)%bool then
                  (if (b && negb (Host.casedFollows r'))%bool
                   then String (ascii_of_nat 207)
                          (String (ascii_of_nat 130) EmptyString)
                   else String (ascii_of_nat 207)
                          (String (ascii_of_nat 131) EmptyString))
                  +:+ Host.lowerFrom true r'
                else Host.lower2 (nat_of_ascii c) k +:+ Host.lowerFrom context r'
            | EmptyString => String c EmptyString
            end
          else String c (Host.lowerFrom false s)).
  rewrite Hc, (IH _ Hs). reflexivity.
Qed.

Lemma host_lowers_ascii : lowersAscii Host.toLowerCase.
Proof. intros s Hs. apply lowerFrom_ascii. exact Hs. Qed.

(** ** The filter stage of the products page *)

Lemma geNumber_spec (x : Q) (n : JS.number) :
  JS.geNumber x n = true <-> atLeast x n.
Proof.
  destruct n; simpl; try (split; [discriminate | contradiction]);
    try (split; [intros _; exact I | reflexivity]).
  apply Qle_bool_iff.
Qed.

Lemma leNumber_spec (x : Q) (n : JS.number) :
  JS.leNumber x n = true <-> atMost x n.
Proof.
  destruct n; simpl; try (split; [discriminate | contradiction]);
    try (split; [intros _; exact I | reflexivity]).
  apply Qle_bool_iff.
Qed.

Lemma filter_filter_andb {A : Type} (f g : A -> bool) (l : list A) :
  List.filter g (List.filter f l) = List.filter (fun x => f x && g x) l.
Proof.
  induction l as [|x l IH]; simpl; [reflexivity|].
  destruct (f x); simpl; [|exact IH].
  destruct (g x); [f_equal|]; exact IH.
Qed.

Lemma bound_spec (text : string) (b : bool) (P : Prop) :
  (b = true <-> P) ->
  (JS.strictEq text "" || b = true) <-> (text <> "" -> P).
Proof.
  intros Hb. rewrite orb_true_iff, strictEq_true, Hb.
  destruct (String.eqb_spec text "") as [Heq|Hne].
  - split; [intros _ Hne; contradiction | intros _; left; exact Heq].
  - split; [intros [Heq|HP] _; [contradiction | exact HP] | intros HP; right; exact (HP Hne)].
Qed.

Lemma filterStage_filter (Number : string -> JS.number)
    (toLowerCase : string -> string)
    (products : list Product) (search minPrice maxPrice : string) :
  ProductsPage.filterStage Number toLowerCase products search minPrice maxPrice
  = List.filter
      (fun p =>
         JS.includes (toLowerCase (name p)) (toLowerCase search)
         && ((JS.strictEq minPrice "" || JS.geNumber (price p) (Number minPrice))
             && (JS.strictEq maxPrice "" || JS.leNumber (price p) (Number maxPrice))))
      products.
Proof.
  unfold ProductsPage.filterStage, ProductsPage.priceFilter,
    ProductsPage.searchFilter.
  apply filter_filter_andb.
Qed.

Lemma withinBounds_spec (Number : string -> JS.number)
    (minPrice maxPrice : string) (x : Q) :
  (JS.strictEq minPrice "" || JS.geNumber x (Number minPrice))
  && (JS.strictEq maxPrice "" || JS.leNumber x (Number maxPrice)) = true
  <-> withinBounds Number minPrice maxPrice x.
Proof.
  unfold withinBounds. rewrite andb_true_iff.
  rewrite (bound_spec minPrice _ _ (geNumber_spec x (Number minPrice))).
  rewrite (bound_spec maxPrice _ _ (leNumber_spec x (Number maxPrice))).
  reflexivity.
Qed.

Lemma passesFilters_spec (Number : string -> JS.number)
    (toLowerCase : string -> string) (search minPrice maxPrice : string)
    (p : Product) :
  JS.includes (toLowerCase (name p)) (toLowerCase search)
  && ((JS.strictEq minPrice "" || JS.geNumber (price p) (Number minPrice))
      && (JS.strictEq maxPrice "" || JS.leNumber (price p) (Number maxPrice)))
  = true
  <-> passesFilters Number toLowerCase search minPrice maxPrice p.
Proof.
  unfold passesFilters, lowerContains.
  rewrite andb_true_iff, includes_spec, withinBounds_spec. reflexivity.
Qed.

Lemma filterStage_In (Number : string -> JS.number)
    (toLowerCase : string -> string) (products : list Product)
    (search minPrice maxPrice : string) (p : Product) :
  In p (ProductsPage.filterStage Number toLowerCase products
          search minPrice maxPrice)
  <-> In p products
      /\ passesFilters Number toLowerCase search minPrice maxPrice p.
Proof.
  rewrite filterStage_filter, List.filter_In, passesFilters_spec. reflexivity.
Qed.

Lemma passes_ascii (Number : string -> JS.number)
    (toLowerCase : string -> string) (search minPrice maxPrice : string)
    (p : Product) :
  lowersAscii toLowerCase ->
  AsciiCase.isAscii search = true -> AsciiCase.isAscii (name p) = true ->
  passesFilters Number toLowerCase search minPrice maxPrice p
  <-> keptByFilters Number AsciiCase.lowerCase search minPrice maxPrice p.
Proof.
  intros Hlower Hsearch Hname. unfold passesFilters, keptByFilters, lowerContains.
  rewrite (Hlower _ Hsearch), (Hlower _ Hname).
  rewrite <- includes_spec, includes_lower_spec. reflexivity.
Qed.

(** C5 (as amended).  The filter stage keeps exactly the products for which
    the lower-case form of the name, as [toLowerCase] returns it for the
    whole name, contains the lower-case form of the search string, and whose
    price is at least the minimum bound, when one is given, and at most the
    maximum bound, when one is given: the result is the input list restricted
    to those products, in their order.  For a name and a search string of
    ASCII characters, which [toLowerCase] lower-cases letter by letter, these
    are the products whose name contains the search string as a
    case-insensitive substring.  With the search string [app], a product
    named [Apple Watch] is kept when no bound is given, and a product named
    [Banana] is dropped. *)
Theorem filter_stage_keeps_exactly (Number : string -> JS.number)
    (toLowerCase : string -> string)
    (products : list Product) (search minPrice maxPrice : string) :
  (exists keep : Product -> bool,
     (forall p, keep p = true
                <-> passesFilters Number toLowerCase search minPrice maxPrice p)
     /\ ProductsPage.filterStage Number toLowerCase products
          search minPrice maxPrice
        = List.filter keep products)
  /\ (forall p,
        In p (ProductsPage.filterStage Number toLowerCase products
                search minPrice maxPrice)
        <-> In p products
            /\ passesFilters Number toLowerCase search minPrice maxPrice p)
  /\ (lowersAscii toLowerCase ->
      (AsciiCase.isAscii search = true ->
       forall p,
         AsciiCase.isAscii (name p) = true ->
         (In p (ProductsPage.filterStage Number toLowerCase products
                  search minPrice maxPrice)
          <-> In p products
              /\ keptByFilters Number AsciiCase.lowerCase
                   search minPrice maxPrice p))
      /\ (forall p,
            In p products -> name p = "Apple Watch" ->
            In p (ProductsPage.filterStage Number toLowerCase products
                    "app" "" ""))
      /\ (forall p,
            name p = "Banana" ->
            ~ In p (ProductsPage.filterStage Number toLowerCase products
                      "app" minPrice maxPrice))).
Proof.
  split; [|split].
  - eexists. split; [apply (passesFilters_spec Number toLowerCase)|].
    apply filterStage_filter.
  - apply filterStage_In.
  - intros Hlower. split; [|split].
    + intros Hsearch p Hname. rewrite filterStage_In.
      rewrite (passes_ascii Number toLowerCase search minPrice maxPrice p
                 Hlower Hsearch Hname).
      reflexivity.
    + intros p Hp Hname. apply filterStage_In. split; [exact Hp|].
      apply (passes_ascii Number toLowerCase "app" "" "" p Hlower);
        [reflexivity | rewrite Hname; reflexivity |].
      unfold keptByFilters. rewrite Hname. split.
      * apply includes_lower_spec. reflexivity.
      * split; intros Hne; exfalso; apply Hne; reflexivity.
    + intros p Hname Hp. apply filterStage_In in Hp. destruct Hp as [_ Hpass].
      apply (passes_ascii Number toLowerCase "app" minPrice maxPrice p Hlower)
        in Hpass; [|reflexivity | rewrite Hname; reflexivity].
      destruct Hpass as [Hcontains _]. rewrite Hname in Hcontains.
      apply includes_lower_spec in Hcontains. discriminate Hcontains.
Qed.

(** C5 (as stated) fails where lower-casing depends on the context: the
    capital sigma that ends the name [AΣ] becomes a final sigma, which the
    lower-case form of the search string [Σ] does not contain, so the product
    is dropped although its name contains the search string as it is. *)
Lemma final_sigma_counterexample :
  keptByFilters Host.Number Host.toLowerCase "Σ" "" "" Sample.sigma
  /\ ProductsPage.filterStage Host.Number Host.toLowerCase [Sample.sigma]
       "Σ" "" ""
     = []
  /\ ~ filterKeepsAsSpecified Host.Number Host.toLowerCase [Sample.sigma]
         "Σ" "" "".
Proof.
  assert (Hkept : keptByFilters Host.Number Host.toLowerCase "Σ" "" ""
                    Sample.sigma).
  { split.
    - exists "A", "Σ", "". split; reflexivity.
    - split; intros Hne; exfalso; apply Hne; reflexivity. }
  assert (Hrun : ProductsPage.filterStage Host.Number Host.toLowerCase
                   [Sample.sigma] "Σ" "" "" = [])
    by (vm_compute; reflexivity).
  split; [exact Hkept|]. split; [exact Hrun|].
  intros Hspec. destruct (Hspec Sample.sigma) as [_ Hback].
  rewrite Hrun in Hback. apply Hback. split; [left; reflexivity | exact Hkept].
Qed.

(** ** Sorting *)

Section SortFacts.
Context {A : Type} (comparefn : A -> A -> Q) (R : A -> A -> Prop).

Lemma insert_permutation (x : A) (l : list A) :
  Permutation (x :: l) (JS.insert comparefn x l).
Proof.
  induction l as [|y l IH]; simpl; [apply Permutation_refl|].
  destruct (Qle_bool (comparefn x y) 0); [apply Permutation_refl|].
  eapply Permutation_trans; [apply perm_swap|].
  apply perm_skip. exact IH.
Qed.

Lemma sort_permutation (l : list A) : Permutation l (JS.sort comparefn l).
Proof.
  induction l as [|x l IH]; simpl; [apply perm_nil|].
  eapply Permutation_trans; [apply perm_skip; exact IH|].
  apply insert_permutation.
Qed.

(** The comparator decides a total preorder [R]. *)
Hypothesis before : forall a b, Qle_bool (comparefn a b) 0 = true -> R a b.
Hypothesis after : forall a b, Qle_bool (comparefn a b) 0 = false -> R b a.
Hypothesis R_trans : forall a b c, R a b -> R b c -> R a c.

Lemma insert_sorted (x : A) (l : list A) :
  StronglySorted R l -> StronglySorted R (JS.insert comparefn x l).
Proof.
  induction l as [|y l IH]; intros Hs; simpl.
  - constructor; constructor.
  - inversion Hs as [|y' l' Hl Hy]; subst.
    destruct (Qle_bool (comparefn x y) 0) eqn:Hcmp.
    + constructor; [exact Hs|].
      constructor; [apply before; exact Hcmp|].
      apply (List.Forall_impl (P := R y)); [|exact Hy].
      intros z Hz. apply (R_trans x y z); [apply before; exact Hcmp | exact Hz].
    + constructor; [apply IH; exact Hl|].
      apply (Permutation_Forall (insert_permutation x l)).
      constructor; [apply after; exact Hcmp | exact Hy].
Qed.

Lemma sort_sorted (l : list A) : StronglySorted R (JS.sort comparefn l).
Proof.
  induction l as [|x l IH]; simpl; [constructor|].
  apply insert_sorted. exact IH.
Qed.
End SortFacts.

Lemma StronglySorted_map_price (R : Q -> Q -> Prop) (l : list Product) :
  StronglySorted (fun a b => R (price a) (price b)) l ->
  StronglySorted R (List.map price l).
Proof.
  induction 1 as [|a l Hl IH Ha]; simpl; constructor; [exact IH|].
  apply List.Forall_map. exact Ha.
Qed.

Lemma Qle_bool_minus (x y : Q) :
  Qle_bool (x - y) 0 = true <-> (x <= y)%Q.
Proof.
  rewrite Qle_bool_iff. destruct x as [a b], y as [c d].
  unfold Qle, Qminus, Qplus, Qopp. simpl. lia.
Qed.

Lemma Qle_bool_minus_false (x y : Q) :
  Qle_bool (x - y) 0 = false -> (y <= x)%Q.
Proof.
  intros H. apply Qlt_le_weak. apply Qnot_le_lt. intros Hle.
  apply Qle_bool_minus in Hle. rewrite Hle in H. discriminate H.
Qed.

Lemma sortStage_price_asc (localeCompare : string -> string -> Z)
    (l : list Product) :
  ProductsPage.sortStage localeCompare "price-asc" l
  = JS.sort (fun a b => price a - price b)%Q l.
Proof. reflexivity. Qed.

Lemma sortStage_price_desc (localeCompare : string -> string -> Z)
    (l : list Product) :
  ProductsPage.sortStage localeCompare "price-desc" l
  = JS.sort (fun a b => price b - price a)%Q l.
Proof. reflexivity. Qed.

(** C6.  Sorting by ascending price returns a permutation of its input in
    which the prices never decrease; sorting by descending price returns a
    permutation in which they never increase.  On three products priced 30,
    10 and 20, in this order, the ascending sort lists the prices 10, 20, 30
    and the descending sort lists them in the reverse order, 30, 20, 10. *)
Theorem price_sort_orders_a_permutation
    (localeCompare : string -> string -> Z) (products : list Product) :
  let asc := ProductsPage.sortStage localeCompare "price-asc" products in
  let desc := ProductsPage.sortStage localeCompare "price-desc" products in
  (Permutation products asc
   /\ StronglySorted (fun x y => x <= y)%Q (List.map price asc))
  /\ (Permutation products desc
      /\ StronglySorted (fun x y => y <= x)%Q (List.map price desc))
  /\ (forall a b c : Product,
        price a = 30%Q -> price b = 10%Q -> price c = 20%Q ->
        ProductsPage.sortStage localeCompare "price-asc" [a; b; c] = [b; c; a]
        /\ ProductsPage.sortStage localeCompare "price-desc" [a; b; c] = [a; c; b]
        /\ List.map price
             (ProductsPage.sortStage localeCompare "price-asc" [a; b; c])
           = [10; 20; 30]%Q
        /\ List.map price
             (ProductsPage.sortStage localeCompare "price-desc" [a; b; c])
           = rev [10; 20; 30]%Q).
Proof.
  intros asc desc. subst asc desc.
  rewrite sortStage_price_asc, sortStage_price_desc.
  split; [|split].
  - split; [apply sort_permutation|].
    apply StronglySorted_map_price.
    apply (sort_sorted (fun a b => price a - price b)%Q
                       (fun a b => price a <= price b)%Q).
    + intros a b H. apply Qle_bool_minus. exact H.
    + intros a b H. apply Qle_bool_minus_false. exact H.
    + intros a b c Hab Hbc. exact (Qle_trans _ _ _ Hab Hbc).
  - split; [apply sort_permutation|].
    apply StronglySorted_map_price.
    apply (sort_sorted (fun a b => price b - price a)%Q
                       (fun a b => price b <= price a)%Q).
    + intros a b H. apply Qle_bool_minus. exact H.
    + intros a b H. apply Qle_bool_minus_false. exact H.
    + intros a b c Hab Hbc. exact (Qle_trans _ _ _ Hbc Hab).
  - intros a b c Ha Hb Hc.
    rewrite sortStage_price_asc, sortStage_price_desc.
    destruct a as [ia na pa da ma], b as [ib nb pb db mb],
      c as [ic nc pc dc mc].
    simpl in Ha, Hb, Hc. subst pa pb pc.
    repeat split; reflexivity.
Qed.

(** ** The theorems at work on the sample data *)

Lemma add_increments_or_appends_witness :
  id Sample.appleWatch <> ""
  /\ cartAfter (App.handleAddToCart Sample.appleWatch)
               (exec (App.handleAddToCart Sample.appleWatch) Sample.fresh)
     = [ {| product := Sample.appleWatch; quantity := 2 |} ].
Proof.
  assert (Hid : id Sample.appleWatch <> "") by (vm_compute; discriminate).
  split; [exact Hid|].
  destruct (add_increments_or_appends Sample.fresh Sample.appleWatch Hid)
    as [_ [_ Htwice]].
  apply Htwice. reflexivity.
Defined.

Lemma cart_operations_keep_ids_distinct_witness :
  List.NoDup (cartIds (cartItems Sample.running))
  /\ List.NoDup
       (cartIds (cartAfter (App.handleAddToCart Sample.pineapple) Sample.running)).
Proof.
  assert (Hnd : List.NoDup (cartIds (cartItems Sample.running))).
  { vm_compute. repeat constructor; simpl; intuition discriminate. }
  split; [exact Hnd|].
  destruct (cart_operations_keep_ids_distinct Sample.running Hnd) as [Hadd _].
  apply Hadd.
Defined.

Lemma cart_operations_keep_quantities_positive_witness :
  List.Forall (fun item => 1 <= quantity item) (cartItems Sample.running)
  /\ List.Forall (fun item => 1 <= quantity item)
       (cartAfter (App.handleUpdateCartQuantity "1" 0) Sample.running).
Proof.
  assert (Hq : List.Forall (fun item => 1 <= quantity item)
                           (cartItems Sample.running)).
  { repeat constructor; simpl; lia. }
  split; [exact Hq|].
  destruct (cart_operations_keep_quantities_positive Sample.running Hq)
    as [_ [_ [Hset _]]].
  apply Hset.
Defined.

Lemma absent_id_is_noop_witness :
  (forall item, In item (cartItems Sample.running) -> id (product item) <> "3")
  /\ cartAfter (App.handleRemoveFromCart "3") Sample.running
     = cartItems Sample.running.
Proof.
  assert (Habsent : forall item,
             In item (cartItems Sample.running) -> id (product item) <> "3").
  { simpl. intros item [H | [H | []]]; subst item; simpl; discriminate. }
  split; [exact Habsent|].
  destruct (absent_id_is_noop Sample.running "3" Habsent) as [[Hrem _] _].
  exact Hrem.
Defined.

Lemma rehydration_of_absent_or_corrupted_witness :
  (Some Sample.truncated = None
   \/ exists text, Some Sample.truncated = Some text
                   /\ corrupted Host.JSON_parse text)
  /\ outcome (App.cartInitializer Host.JSON_parse
                (Fulfilled (Some Sample.truncated))) Sample.fresh
     = Returns (JSON.Arr []).
Proof.
  assert (Hbad : Some Sample.truncated = None
                 \/ exists text, Some Sample.truncated = Some text
                                 /\ corrupted Host.JSON_parse text).
  { right. exists Sample.truncated. split; reflexivity. }
  split; [exact Hbad|].
  apply (rehydration_of_absent_or_corrupted Host.JSON_parse Sample.fresh
           (Some Sample.truncated) Hbad).
Defined.

Lemma filter_stage_keeps_exactly_witness :
  lowersAscii Host.toLowerCase
  /\ AsciiCase.isAscii "APP" = true
  /\ AsciiCase.isAscii (name Sample.appleWatch) = true
  /\ (In Sample.appleWatch
        (ProductsPage.filterStage Host.Number Host.toLowerCase Sample.catalog
           "APP" "" "20")
      <-> In Sample.appleWatch Sample.catalog
          /\ keptByFilters Host.Number AsciiCase.lowerCase "APP" "" "20"
               Sample.appleWatch).
Proof.
  split; [exact host_lowers_ascii|].
  split; [reflexivity|]. split; [reflexivity|].
  destruct (filter_stage_keeps_exactly Host.Number Host.toLowerCase
              Sample.catalog "APP" "" "20") as [_ [_ Hascii]].
  destruct (Hascii host_lowers_ascii) as [Hkept _].
  apply Hkept; reflexivity.
Defined.

(** ** The embedding at work on the sample data *)

Example lower_case_samples :
  Host.toLowerCase "Apple Watch" = "apple watch"
  /\ Host.toLowerCase "CAFÉ" = "café"
  /\ Host.toLowerCase "Σ" = "σ"
  /\ Host.toLowerCase "AΣ" = "aς"
  /\ Host.toLowerCase "AΣB" = "aσb".
Proof. repeat split; reflexivity. Qed.

Example number_of_decimal_text :
  Host.Number "12.50" = JS.Fin (1250 # 100)
  /\ Host.Number "-3" = JS.Fin (-3)
  /\ Host.Number "1e3" = JS.Fin 1000
  /\ Host.Number "abc" = JS.NaN.
Proof. repeat split; reflexivity. Qed.

Example products_page_sample :
  List.map name
    (ProductsPage.filteredProducts Host.Number Host.toLowerCase
       Host.localeCompare Sample.catalog "APP" "15" "" "price-asc")
  = ["Pineapple"; "Apple Watch"]
  /\ List.map name
       (ProductsPage.filteredProducts Host.Number Host.toLowerCase
          Host.localeCompare Sample.catalog "" "" "20" "name-desc")
     = ["Pineapple"; "Banana"].
Proof. split; reflexivity. Qed.

Example cart_session_sample :
  cartAfter (App.handleUpdateCartQuantity "1" 0)
    (exec (App.handleAddToCart Sample.banana) Sample.running)
  = [ {| product := Sample.banana; quantity := 2 |} ]
  /\ events (exec (App.handleAddToCart
                     {| id := ""; name := "No id"; price := 1;
                        description := None; image := None |})
                  Sample.running)
     = [ ConsoleError "Error adding item to cart:";
         Alert "We couldn't add this item to your cart because the product data was invalid." ].
Proof. split; reflexivity. Qed.

Example rehydration_samples :
  outcome (App.cartInitializer Host.JSON_parse (Fulfilled (Some "[]")))
          Sample.fresh
  = Returns (JSON.Arr [])
  /\ outcome (App.cartInitializer Host.JSON_parse (Fulfilled (Some "[1, 2")))
             Sample.fresh
     = Returns (JSON.Arr [])
  /\ outcome (App.cartInitializer Host.JSON_parse (Fulfilled (Some "42")))
             Sample.fresh
     = Returns (JSON.Num 42).
Proof. repeat split; reflexivity. Qed.

(** * Further properties *)

(** ** Cart handlers composed *)

Lemma cartItems_exec (m : Eff unit) (st : AppState) :
  cartItems (exec m st) = cartAfter m st.
Proof. reflexivity. Qed.

Lemma filter_map_by_id (pid : string) (f : CartItem -> CartItem)
    (cart : list CartItem) :
  (forall item, id (product (f item)) = id (product item)) ->
  List.filter (fun item => negb (JS.strictEq (id (product item)) pid))
    (List.map (fun item => if JS.strictEq (id (product item)) pid then f item else item)
              cart)
  = List.filter (fun item => negb (JS.strictEq (id (product item)) pid)) cart.
Proof.
  intros Hf. induction cart as [|item cart IH]; simpl; [reflexivity|].
  destruct (JS.strictEq (id (product item)) pid) eqn:Heq; simpl.
  - rewrite Hf, Heq. simpl. exact IH.
  - rewrite Heq. simpl. f_equal. exact IH.
Qed.

Lemma filter_filter_by_id (pid : string) (cart : list CartItem) :
  List.filter (fun item => negb (JS.strictEq (id (product item)) pid))
    (List.filter (fun item => negb (JS.strictEq (id (product item)) pid)) cart)
  = List.filter (fun item => negb (JS.strictEq (id (product item)) pid)) cart.
Proof.
  induction cart as [|item cart IH]; simpl; [reflexivity|].
  destruct (negb (JS.strictEq (id (product item)) pid)) eqn:Heq; simpl.
  - rewrite Heq. f_equal. exact IH.
  - exact IH.
Qed.

(** X1.  [remove(pid)] keeps exactly the items whose product id differs from
    [pid], in their order, and the set of product ids loses [pid]; removing a
    second time changes nothing more; and [setQuantity(pid, n)] with
    [n <= 0] is the same operation. *)
Theorem remove_keeps_the_other_items (st : AppState) (pid : string) :
  let cart' := cartAfter (App.handleRemoveFromCart pid) st in
  cart' = filter (fun item => id (product item) <> pid) (cartItems st)
  /\ cartIdSet cart' = cartIdSet (cartItems st) ∖ {[ pid ]}
  /\ cartAfter (App.handleRemoveFromCart pid)
       (exec (App.handleRemoveFromCart pid) st) = cart'
  /\ (forall n, n <= 0 ->
        cartAfter (App.handleUpdateCartQuantity pid n) st = cart').
Proof.
  intros cart'. subst cart'. rewrite cartAfter_remove.
  split; [apply filter_by_id_spec|].
  split; [apply cartIdSet_filter|].
  split.
  - rewrite cartAfter_remove, cartItems_exec, cartAfter_remove.
    apply filter_filter_by_id.
  - intros n Hn. apply cartAfter_setQuantity_nonpos. exact Hn.
Qed.

(** X2.  Removing a product right after adding it gives the cart that
    removing it alone gives, whatever the cart held; when no item carried the
    id of the product, the cart is back to what it was before the add. *)
Theorem add_then_remove (st : AppState) (p : Product) :
  cartAfter (App.handleRemoveFromCart (id p)) (exec (App.handleAddToCart p) st)
  = cartAfter (App.handleRemoveFromCart (id p)) st
  /\ ((forall item, In item (cartItems st) -> id (product item) <> id p) ->
      cartAfter (App.handleRemoveFromCart (id p))
                (exec (App.handleAddToCart p) st)
      = cartItems st).
Proof.
  assert (Hmain : cartAfter (App.handleRemoveFromCart (id p))
                            (exec (App.handleAddToCart p) st)
                  = cartAfter (App.handleRemoveFromCart (id p)) st).
  { rewrite !cartAfter_remove, cartItems_exec.
    destruct (String.eqb_spec (id p) "") as [Hempty|Hid].
    - rewrite cartAfter_add_invalid by exact Hempty. reflexivity.
    - destruct (List.find (fun item => JS.strictEq (id (product item)) (id p))
                          (cartItems st)) as [found|] eqn:Efind.
      + rewrite (cartAfter_add_present st p found Hid Efind).
        apply filter_map_by_id. reflexivity.
      + rewrite (cartAfter_add_absent st p Hid Efind).
        rewrite List.filter_app. simpl.
        assert (Hsame : JS.strictEq (id p) (id p) = true)
          by (apply strictEq_true; reflexivity).
        rewrite Hsame. simpl. apply List.app_nil_r. }
  split; [exact Hmain|].
  intros Habsent. rewrite Hmain, cartAfter_remove.
  apply filter_absent_id. intros Hin. apply in_cartIds in Hin.
  destruct Hin as [item [Hin Heq]]. exact (Habsent item Hin Heq).
Qed.

Lemma map_map_by_id (pid : string) (n m : Z) (cart : list CartItem) :
  List.map (fun item =>
              if JS.strictEq (id (product item)) pid
              then {| product := product item; quantity := m |}
              else item)
    (List.map (fun item =>
                 if JS.strictEq (id (product item)) pid
                 then {| product := product item; quantity := n |}
                 else item) cart)
  = List.map (fun item =>
                if JS.strictEq (id (product item)) pid
                then {| product := product item; quantity := m |}
                else item) cart.
Proof.
  rewrite List.map_map. apply List.map_ext. intros item.
  destruct (JS.strictEq (id (product item)) pid) eqn:Heq; simpl;
    rewrite Heq; reflexivity.
Qed.

Lemma setQuantity_twice (st : AppState) (pid : string) (n m : Z) :
  0 < n ->
  cartAfter (App.handleUpdateCartQuantity pid m)
            (exec (App.handleUpdateCartQuantity pid n) st)
  = cartAfter (App.handleUpdateCartQuantity pid m) st.
Proof.
  intros Hn. destruct (Z_le_gt_dec m 0) as [Hm|Hm].
  - rewrite !cartAfter_setQuantity_nonpos by exact Hm.
    rewrite cartItems_exec, cartAfter_setQuantity_pos by exact Hn.
    apply filter_map_by_id. reflexivity.
  - rewrite !cartAfter_setQuantity_pos by lia.
    rewrite cartItems_exec, cartAfter_setQuantity_pos by exact Hn.
    apply map_map_by_id.
Qed.

(** X3.  The last quantity set wins: after [setQuantity(pid, n)] with
    [n > 0], a second [setQuantity(pid, m)] gives the cart that
    [setQuantity(pid, m)] alone gives, for every [m]: the new quantity when
    [m > 0], the cart without the product when [m <= 0]. *)
Theorem setQuantity_last_write_wins (st : AppState) (pid : string) (n m : Z) :
  0 < n ->
  cartAfter (App.handleUpdateCartQuantity pid m)
            (exec (App.handleUpdateCartQuantity pid n) st)
  = cartAfter (App.handleUpdateCartQuantity pid m) st
  /\ (0 < m ->
      forall item,
        In item (cartAfter (App.handleUpdateCartQuantity pid m)
                   (exec (App.handleUpdateCartQuantity pid n) st)) ->
        id (product item) = pid -> quantity item = m).
Proof.
  intros Hn. split; [apply setQuantity_twice; exact Hn|].
  intros Hm item Hin Hid.
  rewrite setQuantity_twice in Hin by exact Hn.
  rewrite cartAfter_setQuantity_pos in Hin by exact Hm.
  apply List.in_map_iff in Hin. destruct Hin as [it [Hit _]].
  destruct (JS.strictEq (id (product it)) pid) eqn:Heq.
  - subst item. reflexivity.
  - subst item. apply strictEq_false in Heq. contradiction.
Qed.

Lemma setQuantity_last_write_wins_witness :
  0 < 5
  /\ cartAfter (App.handleUpdateCartQuantity "1" 3)
       (exec (App.handleUpdateCartQuantity "1" 5) Sample.running)
     = cartAfter (App.handleUpdateCartQuantity "1" 3) Sample.running.
Proof.
  split; [lia|].
  assert (Hpos : 0 < 5) by lia.
  destruct (setQuantity_last_write_wins Sample.running "1" 5 3 Hpos) as [Hwin _].
  exact Hwin.
Defined.

Lemma add_to_last_item (st : AppState) (p : Product) (cart : list CartItem)
    (q : Z) :
  id p <> "" ->
  ~ In (id p) (cartIds cart) ->
  cartItems st = cart ++ [ {| product := p; quantity := q |} ] ->
  cartAfter (App.handleAddToCart p) st
  = cart ++ [ {| product := p; quantity := JS.add q 1 |} ].
Proof.
  intros Hid Habsent Hcart.
  pose proof (find_id_spec (id p) (cartItems st)) as Hfind.
  destruct (List.find _ (cartItems st)) as [found|] eqn:Efind.
  - rewrite (cartAfter_add_present st p found Hid Efind), Hcart.
    rewrite List.map_app, (map_absent_id (id p) _ cart Habsent). simpl.
    assert (Hsame : JS.strictEq (id p) (id p) = true)
      by (apply strictEq_true; reflexivity).
    rewrite Hsame. reflexivity.
  - exfalso. apply Hfind. rewrite Hcart. unfold cartIds.
    rewrite List.map_app. apply List.in_or_app. right. left. reflexivity.
Qed.

(** X4.  Adding a product [k] times, [1 <= k <= 2^53], to a cart that has
    no item with its id appends one item whose quantity is [k]: the cart
    grows by one entry however often the product is added. *)
Theorem add_repeatedly (st : AppState) (p : Product) (k : nat) :
  id p <> "" ->
  (forall item, In item (cartItems st) -> id (product item) <> id p) ->
  Z.of_nat (S k) <= 2 ^ 53 ->
  cartItems (Nat.iter (S k) (exec (App.handleAddToCart p)) st)
  = cartItems st ++ [ {| product := p; quantity := Z.of_nat (S k) |} ].
Proof.
  intros Hid Habsent.
  assert (Hnot : ~ In (id p) (cartIds (cartItems st))).
  { intros Hin. apply in_cartIds in Hin. destruct Hin as [item [Hin Heq]].
    exact (Habsent item Hin Heq). }
  induction k as [|k IH]; intros Hbound.
  - simpl Nat.iter. rewrite cartItems_exec.
    pose proof (find_id_spec (id p) (cartItems st)) as Hfind.
    destruct (List.find _ (cartItems st)) as [found|] eqn:Efind.
    + destruct Hfind as [Hin Heq]. exfalso. exact (Habsent found Hin Heq).
    + apply (cartAfter_add_absent st p Hid Efind).
  - change (Nat.iter (S (S k)) (exec (App.handleAddToCart p)) st)
      with (exec (App.handleAddToCart p)
                 (Nat.iter (S k) (exec (App.handleAddToCart p)) st)).
    rewrite cartItems_exec.
    assert (Hk : Z.of_nat (S k) <= 2 ^ 53) by lia.
    rewrite (add_to_last_item _ p (cartItems st) (Z.of_nat (S k)) Hid Hnot
               (IH Hk)).
    rewrite add_one_exact by lia.
    f_equal. f_equal. f_equal. lia.
Qed.

Lemma add_repeatedly_witness :
  id Sample.pineapple <> ""
  /\ (forall item, In item (cartItems Sample.running) ->
                   id (product item) <> id Sample.pineapple)
  /\ Z.of_nat 3 <= 2 ^ 53
  /\ cartItems (Nat.iter 3 (exec (App.handleAddToCart Sample.pineapple))
                         Sample.running)
     = cartItems Sample.running
       ++ [ {| product := Sample.pineapple; quantity := 3 |} ].
Proof.
  assert (Hid : id Sample.pineapple <> "") by (vm_compute; discriminate).
  assert (Habsent : forall item, In item (cartItems Sample.running) ->
                                 id (product item) <> id Sample.pineapple).
  { simpl. intros item [H | [H | []]]; subst item; simpl; discriminate. }
  assert (Hbound : Z.of_nat 3 <= 2 ^ 53) by (vm_compute; discriminate).
  split; [exact Hid|]. split; [exact Habsent|]. split; [exact Hbound|].
  apply (add_repeatedly Sample.running Sample.pineapple 2 Hid Habsent Hbound).
Defined.

(** X5.  The count on the navigation bar is the number of cart entries, not
    of units: adding a product leaves it unchanged when the id of the product
    is empty or already in the cart, and raises it by one otherwise;
    [setQuantity] with a positive quantity leaves it unchanged; removing never
    raises it; clearing makes it zero and hides the badge.  The badge is hidden
    exactly when the cart page shows its message for an empty cart. *)
Theorem cart_count_counts_entries (st : AppState) :
  (forall p,
     (id p = "" \/ In (id p) (cartIds (cartItems st))) ->
     NavBar.cartCount (exec (App.handleAddToCart p) st) = NavBar.cartCount st)
  /\ (forall p,
        id p <> "" -> ~ In (id p) (cartIds (cartItems st)) ->
        NavBar.cartCount (exec (App.handleAddToCart p) st)
        = S (NavBar.cartCount st))
  /\ (forall pid n,
        0 < n ->
        NavBar.cartCount (exec (App.handleUpdateCartQuantity pid n) st)
        = NavBar.cartCount st)
  /\ (forall pid,
        (NavBar.cartCount (exec (App.handleRemoveFromCart pid) st)
         <= NavBar.cartCount st)%nat)
  /\ NavBar.cartCount (exec App.handleClearCart st) = 0%nat
  /\ NavBar.badgeShown (exec App.handleClearCart st) = false
  /\ NavBar.badgeShown st = negb (CartPage.emptyMessageShown (cartItems st)).
Proof.
  unfold NavBar.badgeShown, CartPage.emptyMessageShown, NavBar.cartCount.
  split; [|split; [|split; [|split; [|split; [|split]]]]].
  - intros p [Hempty | Hin]; rewrite cartItems_exec.
    + rewrite cartAfter_add_invalid by exact Hempty. reflexivity.
    + destruct (String.eqb_spec (id p) "") as [Hempty|Hid].
      * rewrite cartAfter_add_invalid by exact Hempty. reflexivity.
      * pose proof (find_id_spec (id p) (cartItems st)) as Hfind.
        destruct (List.find _ (cartItems st)) as [found|] eqn:Efind.
        -- rewrite (cartAfter_add_present st p found Hid Efind).
           apply List.length_map.
        -- contradiction.
  - intros p Hid Hnot. rewrite cartItems_exec.
    pose proof (find_id_spec (id p) (cartItems st)) as Hfind.
    destruct (List.find _ (cartItems st)) as [found|] eqn:Efind.
    + destruct Hfind as [Hin Heq]. exfalso. apply Hnot.
      apply in_cartIds. exists found. split; assumption.
    + rewrite (cartAfter_add_absent st p Hid Efind).
      rewrite List.length_app. simpl. lia.
  - intros pid n Hn. rewrite cartItems_exec.
    rewrite cartAfter_setQuantity_pos by exact Hn. apply List.length_map.
  - intros pid. rewrite cartItems_exec, cartAfter_remove.
    apply List.filter_length_le.
  - reflexivity.
  - reflexivity.
  - destruct (cartItems st); reflexivity.
Qed.

(** X6.  No cart handler throws, and none touches the catalog or the loading
    flag.  The only call that reports anything is [add] of a product whose id
    is empty: it logs one error, shows one alert and leaves the cart as it
    was; every other call adds nothing to the event trace. *)
Theorem cart_handlers_never_throw (st : AppState) :
  (forall p,
     outcome (App.handleAddToCart p) st = Returns tt
     /\ products (exec (App.handleAddToCart p) st) = products st
     /\ loading (exec (App.handleAddToCart p) st) = loading st
     /\ (id p <> "" -> events (exec (App.handleAddToCart p) st) = events st)
     /\ (id p = "" ->
         cartItems (exec (App.handleAddToCart p) st) = cartItems st
         /\ events (exec (App.handleAddToCart p) st)
            = events st
              ++ [ ConsoleError "Error adding item to cart:";
                   Alert "We couldn't add this item to your cart because the product data was invalid." ]))
  /\ (forall pid,
        outcome (App.handleRemoveFromCart pid) st = Returns tt
        /\ products (exec (App.handleRemoveFromCart pid) st) = products st
        /\ loading (exec (App.handleRemoveFromCart pid) st) = loading st
        /\ events (exec (App.handleRemoveFromCart pid) st) = events st)
  /\ (forall pid n,
        outcome (App.handleUpdateCartQuantity pid n) st = Returns tt
        /\ products (exec (App.handleUpdateCartQuantity pid n) st) = products st
        /\ loading (exec (App.handleUpdateCartQuantity pid n) st) = loading st
        /\ events (exec (App.handleUpdateCartQuantity pid n) st) = events st)
  /\ (outcome App.handleClearCart st = Returns tt
      /\ products (exec App.handleClearCart st) = products st
      /\ loading (exec App.handleClearCart st) = loading st
      /\ events (exec App.handleClearCart st) = events st).
Proof.
  split; [|split; [|split]].
  - intros p.
    unfold outcome, exec, App.handleAddToCart, tryCatch, bind.
    destruct (JS.truthy (id p)) eqn:Ht; simpl.
    + split; [reflexivity|]. split; [reflexivity|]. split; [reflexivity|].
      split; [reflexivity|].
      intros Hempty. apply truthy_true in Ht. contradiction.
    + split; [reflexivity|]. split; [reflexivity|]. split; [reflexivity|].
      split; [|intros _; split; [reflexivity|];
               rewrite <- List.app_assoc; reflexivity].
      intros Hid. apply truthy_true in Hid. rewrite Hid in Ht. discriminate Ht.
  - intros pid. repeat split; reflexivity.
  - intros pid n.
    unfold outcome, exec, App.handleUpdateCartQuantity, tryCatch.
    destruct (n <=? 0); repeat split; reflexivity.
  - repeat split; reflexivity.
Qed.

Lemma setQuantity_as_list (st : AppState) (pid : string) (n : Z) :
  cartAfter (App.handleUpdateCartQuantity pid n) st
  = if n <=? 0
    then List.filter (fun item => negb (JS.strictEq (id (product item)) pid))
                     (cartItems st)
    else List.map (fun item =>
                     if JS.strictEq (id (product item)) pid
                     then {| product := product item; quantity := n |}
                     else item)
                  (cartItems st).
Proof.
  unfold cartAfter, exec, App.handleUpdateCartQuantity, tryCatch.
  destruct (n <=? 0); reflexivity.
Qed.

(** X7.  Quantity updates of two different products commute: the cart after
    [setQuantity(a, n)] and [setQuantity(b, m)] does not depend on which of
    the two ran first, whether they overwrite or remove. *)
Theorem setQuantity_commutes (st : AppState) (a b : string) (n m : Z) :
  a <> b ->
  cartAfter (App.handleUpdateCartQuantity a n)
            (exec (App.handleUpdateCartQuantity b m) st)
  = cartAfter (App.handleUpdateCartQuantity b m)
              (exec (App.handleUpdateCartQuantity a n) st).
Proof.
  intros Hab.
  rewrite (setQuantity_as_list (exec (App.handleUpdateCartQuantity b m) st)).
  rewrite (setQuantity_as_list (exec (App.handleUpdateCartQuantity a n) st)).
  rewrite !cartItems_exec, !setQuantity_as_list.
  generalize (cartItems st) as cart. intros cart.
  destruct (n <=? 0), (m <=? 0);
    induction cart as [|item cart IH]; simpl; try reflexivity;
    destruct (JS.strictEq (id (product item)) a) eqn:Ha;
    destruct (JS.strictEq (id (product item)) b) eqn:Hb;
    simpl; rewrite ?Ha, ?Hb; simpl; rewrite ?IH; try reflexivity;
    apply strictEq_true in Ha; apply strictEq_true in Hb; congruence.
Qed.

Lemma setQuantity_commutes_witness :
  "1" <> "2"
  /\ cartAfter (App.handleUpdateCartQuantity "1" 0)
       (exec (App.handleUpdateCartQuantity "2" 4) Sample.running)
     = cartAfter (App.handleUpdateCartQuantity "2" 4)
         (exec (App.handleUpdateCartQuantity "1" 0) Sample.running).
Proof.
  assert (Hne : "1" <> "2") by (intros H; vm_compute in H; discriminate H).
  split; [exact Hne|].
  apply (setQuantity_commutes Sample.running "1" "2" 0 4 Hne).
Defined.

(** ** The total of the cart page *)

(** The cost of one cart entry: the price of its product snapshot times its
    quantity. *)
Lemma total_from (items : list CartItem) (acc : Q) :
  (fold_left
     (fun sum item => sum + price (product item) * inject_Z (quantity item))
     items acc
   == acc + CartPage.total items)%Q.
Proof.
  unfold CartPage.total. revert acc.
  induction items as [|item items IH]; intros acc; simpl.
  - ring.
  - rewrite (IH (acc + _)%Q), (IH (0 + _)%Q). ring.
Qed.

Lemma total_cons (item : CartItem) (items : list CartItem) :
  (CartPage.total (item :: items)
   == price (product item) * inject_Z (quantity item) + CartPage.total items)%Q.
Proof.
  unfold CartPage.total at 1. simpl. rewrite total_from. ring.
Qed.

Lemma total_app (l1 l2 : list CartItem) :
  (CartPage.total (l1 ++ l2) == CartPage.total l1 + CartPage.total l2)%Q.
Proof.
  induction l1 as [|item l1 IH]; simpl.
  - unfold CartPage.total at 2. simpl. ring.
  - rewrite !total_cons, IH. ring.
Qed.

Lemma total_map_by_id (pid : string) (f : CartItem -> CartItem)
    (cart : list CartItem) (item : CartItem) :
  List.NoDup (cartIds cart) -> In item cart -> id (product item) = pid ->
  (CartPage.total
     (List.map (fun it => if JS.strictEq (id (product it)) pid then f it else it)
               cart)
   == CartPage.total cart
      - price (product item) * inject_Z (quantity item)
      + price (product (f item)) * inject_Z (quantity (f item)))%Q.
Proof.
  intros Hnd Hin Hid. subst pid.
  induction cart as [|x cart IH]; [destruct Hin|].
  simpl in Hnd. apply List.NoDup_cons_iff in Hnd. destruct Hnd as [Hx Hnd].
  simpl. destruct Hin as [Heq | Hin].
  - subst x.
    assert (Ht : JS.strictEq (id (product item)) (id (product item)) = true)
      by (apply strictEq_true; reflexivity).
    rewrite Ht.
    rewrite (map_absent_id (id (product item)) f cart Hx).
    rewrite !total_cons. ring.
  - assert (Hne : JS.strictEq (id (product x)) (id (product item)) = false).
    { apply strictEq_false. intros Heq. apply Hx. apply in_cartIds.
      exists item. split; [exact Hin | congruence]. }
    rewrite Hne, !total_cons, (IH Hnd Hin). ring.
Qed.

Lemma total_filter_by_id (cart : list CartItem) (item : CartItem) :
  List.NoDup (cartIds cart) -> In item cart ->
  (CartPage.total
     (List.filter
        (fun it => negb (JS.strictEq (id (product it)) (id (product item))))
        cart)
   == CartPage.total cart
      - price (product item) * inject_Z (quantity item))%Q.
Proof.
  intros Hnd Hin. induction cart as [|x cart IH]; [destruct Hin|].
  simpl in Hnd. apply List.NoDup_cons_iff in Hnd. destruct Hnd as [Hx Hnd].
  simpl. destruct Hin as [Heq | Hin].
  - subst x. assert (Ht : JS.strictEq (id (product item)) (id (product item)) = true)
      by (apply strictEq_true; reflexivity).
    rewrite Ht. simpl. rewrite (filter_absent_id _ cart Hx), total_cons. ring.
  - assert (Hne : JS.strictEq (id (product x)) (id (product item)) = false).
    { apply strictEq_false. intros Heq. apply Hx. apply in_cartIds.
      exists item. split; [exact Hin | congruence]. }
    rewrite Hne. simpl. rewrite !total_cons, (IH Hnd Hin). ring.
Qed.

(** X8.  With prices and quantities that are not negative, the total of the
    cart page is not negative; the total of the empty cart is zero. *)
Theorem total_is_not_negative (items : list CartItem) :
  List.Forall (fun item => (0 <= price (product item))%Q /\ 0 <= quantity item)
              items ->
  (0 <= CartPage.total items)%Q /\ CartPage.total [] = 0%Q.
Proof.
  intros Hall. split; [|reflexivity].
  induction Hall as [|item items [Hp Hq] _ IH].
  - unfold CartPage.total. simpl. apply Qle_refl.
  - rewrite total_cons.
    assert (Hcost : (0 <= price (product item) * inject_Z (quantity item))%Q).
    { apply Qmult_le_0_compat; [exact Hp|].
      change 0%Q with (inject_Z 0). rewrite <- Zle_Qle. exact Hq. }
    apply (Qplus_le_compat 0 _ 0 _ Hcost) in IH.
    rewrite Qplus_0_l in IH. exact IH.
Qed.

Lemma total_is_not_negative_witness :
  List.Forall (fun item => (0 <= price (product item))%Q /\ 0 <= quantity item)
              (cartItems Sample.running)
  /\ (0 <= CartPage.total (cartItems Sample.running))%Q.
Proof.
  assert (Hall : List.Forall
                   (fun item => (0 <= price (product item))%Q /\ 0 <= quantity item)
                   (cartItems Sample.running)).
  { repeat constructor; simpl; try lia; vm_compute; discriminate. }
  split; [exact Hall|].
  apply (total_is_not_negative (cartItems Sample.running) Hall).
Defined.

(** X9.  In a cart with pairwise distinct product ids, with prices and
    totals in exact arithmetic: adding a product that the cart already holds
    raises the total by the price recorded in the cart item, which is the
    price of the product when it was first added, whatever price the product
    passed to [add] carries, times the amount by which the quantity of the
    item goes up; that amount is one for every quantity from [-2^53] to
    [2^53 - 1], where the addition of one is exact.  Adding a product that
    the cart does not hold raises the total by the price of that product. *)
Theorem total_after_add (st : AppState) (p : Product) :
  id p <> "" ->
  List.NoDup (cartIds (cartItems st)) ->
  (forall item,
     In item (cartItems st) -> id (product item) = id p ->
     (CartPage.total (cartAfter (App.handleAddToCart p) st)
      == CartPage.total (cartItems st)
         + price (product item)
           * inject_Z (JS.add (quantity item) 1 - quantity item))%Q
     /\ (- 2 ^ 53 <= quantity item < 2 ^ 53 ->
         (CartPage.total (cartAfter (App.handleAddToCart p) st)
          == CartPage.total (cartItems st) + price (product item))%Q))
  /\ ((forall item, In item (cartItems st) -> id (product item) <> id p) ->
      (CartPage.total (cartAfter (App.handleAddToCart p) st)
       == CartPage.total (cartItems st) + price p)%Q).
Proof.
  intros Hid Hnd.
  pose proof (find_id_spec (id p) (cartItems st)) as Hfind.
  destruct (List.find _ (cartItems st)) as [found|] eqn:Efind.
  - rewrite (cartAfter_add_present st p found Hid Efind). split.
    + intros item Hin Heq.
      assert (Hraise :
                (CartPage.total
                   (List.map
                      (fun it =>
                         if JS.strictEq (id (product it)) (id p)
                         then {| product := product it;
                                 quantity := JS.add (quantity it) 1 |}
                         else it) (cartItems st))
                 == CartPage.total (cartItems st)
                    + price (product item)
                      * inject_Z (JS.add (quantity item) 1 - quantity item))%Q).
      { rewrite (total_map_by_id (id p)
                   (fun it => {| product := product it;
                                 quantity := JS.add (quantity it) 1 |})
                   (cartItems st) item Hnd Hin Heq).
        cbn [product quantity]. unfold Z.sub.
        rewrite inject_Z_plus, inject_Z_opp. ring. }
      split; [exact Hraise|].
      intros Hbound. rewrite Hraise, add_one_exact by exact Hbound.
      replace (quantity item + 1 - quantity item) with 1 by lia.
      change (inject_Z 1) with 1%Q. ring.
    + intros Habsent. destruct Hfind as [Hin Heq].
      exfalso. exact (Habsent found Hin Heq).
  - rewrite (cartAfter_add_absent st p Hid Efind). split.
    + intros item Hin Heq. exfalso. apply Hfind. apply in_cartIds.
      exists item. split; assumption.
    + intros _. rewrite total_app, total_cons. cbn [product quantity].
      change (CartPage.total []) with 0%Q. change (inject_Z 1) with 1%Q. ring.
Qed.

Lemma total_after_add_witness :
  id Sample.banana <> ""
  /\ List.NoDup (cartIds (cartItems Sample.running))
  /\ - 2 ^ 53 <= 1 < 2 ^ 53
  /\ (CartPage.total (cartAfter (App.handleAddToCart Sample.banana) Sample.running)
      == CartPage.total (cartItems Sample.running) + 10)%Q.
Proof.
  assert (Hid : id Sample.banana <> "") by (vm_compute; discriminate).
  assert (Hnd : List.NoDup (cartIds (cartItems Sample.running))).
  { vm_compute. repeat constructor; simpl; intuition discriminate. }
  assert (Hbound : - 2 ^ 53 <= 1 < 2 ^ 53) by lia.
  split; [exact Hid|]. split; [exact Hnd|]. split; [exact Hbound|].
  destruct (total_after_add Sample.running Sample.banana Hid Hnd) as [Hpresent _].
  apply (Hpresent {| product := Sample.banana; quantity := 1 |}).
  - right. left. reflexivity.
  - reflexivity.
  - exact Hbound.
Defined.

(** X10.  In a cart with pairwise distinct product ids, in exact arithmetic,
    removing an item lowers the total by the price of that item times its
    quantity. *)
Theorem total_after_remove (st : AppState) (item : CartItem) :
  List.NoDup (cartIds (cartItems st)) ->
  In item (cartItems st) ->
  (CartPage.total (cartAfter (App.handleRemoveFromCart (id (product item))) st)
   == CartPage.total (cartItems st)
      - price (product item) * inject_Z (quantity item))%Q.
Proof.
  intros Hnd Hin. rewrite cartAfter_remove.
  apply total_filter_by_id; assumption.
Qed.

Lemma total_after_remove_witness :
  List.NoDup (cartIds (cartItems Sample.running))
  /\ In {| product := Sample.appleWatch; quantity := 2 |}
        (cartItems Sample.running)
  /\ (CartPage.total (cartAfter (App.handleRemoveFromCart "1") Sample.running)
      == CartPage.total (cartItems Sample.running) - 30 * 2)%Q.
Proof.
  assert (Hnd : List.NoDup (cartIds (cartItems Sample.running))).
  { vm_compute. repeat constructor; simpl; intuition discriminate. }
  assert (Hin : In {| product := Sample.appleWatch; quantity := 2 |}
                   (cartItems Sample.running)) by (left; reflexivity).
  split; [exact Hnd|]. split; [exact Hin|].
  apply (total_after_remove Sample.running
           {| product := Sample.appleWatch; quantity := 2 |} Hnd Hin).
Defined.

(** ** The quantity stepper of a cart row *)

Lemma same_id_same_item (cart : list CartItem) (a b : CartItem) :
  List.NoDup (cartIds cart) -> In a cart -> In b cart ->
  id (product a) = id (product b) -> a = b.
Proof.
  intros Hnd Ha Hb Heq.
  apply List.In_nth_error in Ha. destruct Ha as [i Hi].
  apply List.In_nth_error in Hb. destruct Hb as [j Hj].
  assert (Hij : i = j) by exact (distinct_ids_single_item cart i j a b Hnd Hi Hj Heq).
  subst j. rewrite Hi in Hj. injection Hj as Hj. exact Hj.
Qed.

Lemma map_set_own_quantity (cart : list CartItem) (item : CartItem) :
  List.NoDup (cartIds cart) -> In item cart ->
  List.map (fun it =>
              if JS.strictEq (id (product it)) (id (product item))
              then {| product := product it; quantity := quantity item |}
              else it) cart
  = cart.
Proof.
  intros Hnd Hin. rewrite <- (List.map_id cart) at 2.
  apply List.map_ext_in. intros it Hit.
  destruct (JS.strictEq (id (product it)) (id (product item))) eqn:Heq;
    [|reflexivity].
  apply strictEq_true in Heq.
  rewrite (same_id_same_item cart it item Hnd Hit Hin Heq).
  destruct item. reflexivity.
Qed.

(** X11.  The minus button never removes an entry: a click on it, for any
    row, returns normally and leaves the list of product ids of the cart as it
    was, because the button is disabled as soon as the quantity of its row is
    one or less; the quantities of the cart stay at least one.  The plus
    button leaves the list of product ids as it was for every row whose
    quantity is not negative. *)
Theorem stepper_never_removes (st : AppState) (item : CartItem) :
  outcome (CartItemComponent.minusClick item) st = Returns tt
  /\ cartIds (cartAfter (CartItemComponent.minusClick item) st)
     = cartIds (cartItems st)
  /\ (CartItemComponent.minusDisabled item = true ->
      exec (CartItemComponent.minusClick item) st = st)
  /\ (List.Forall (fun it => 1 <= quantity it) (cartItems st) ->
      List.Forall (fun it => 1 <= quantity it)
                  (cartAfter (CartItemComponent.minusClick item) st))
  /\ (0 <= quantity item ->
      cartIds (cartAfter (CartItemComponent.plusClick item) st)
      = cartIds (cartItems st)).
Proof.
  unfold CartItemComponent.minusClick, CartItemComponent.minusDisabled,
    CartItemComponent.plusClick.
  destruct (quantity item <=? 1) eqn:Hq.
  - split; [reflexivity|]. split; [reflexivity|]. split; [reflexivity|].
    split; [intros H; exact H|].
    intros Hpos. pose proof (add_one_pos (quantity item) Hpos) as Hup.
    rewrite cartAfter_setQuantity_pos by lia.
    apply cartIds_map_keep. reflexivity.
  - apply Z.leb_gt in Hq.
    pose proof (sub_one_pos (quantity item) Hq) as Hdown.
    split.
    { unfold outcome, App.handleUpdateCartQuantity, tryCatch.
      destruct (JS.sub (quantity item) 1 <=? 0); reflexivity. }
    split.
    { rewrite cartAfter_setQuantity_pos by lia.
      apply cartIds_map_keep. reflexivity. }
    split; [discriminate|].
    split.
    { intros Hall. rewrite cartAfter_setQuantity_pos by lia.
      apply List.Forall_map.
      apply (List.Forall_impl _ (P := fun it => 1 <= quantity it));
        [|exact Hall].
      intros it Hit.
      destruct (JS.strictEq (id (product it)) (id (product item)));
        cbn [quantity]; lia. }
    intros Hpos. pose proof (add_one_pos (quantity item) Hpos) as Hup.
    rewrite cartAfter_setQuantity_pos by lia.
    apply cartIds_map_keep. reflexivity.
Qed.

(** X12.  In a cart with pairwise distinct product ids, a click on the plus
    button of a row followed by a click on the minus button of the same row,
    as rendered again with the raised quantity, gives back the cart as it
    was, provided the quantity of the row was at least one and below
    [2^53], so that adding one to it is exact. *)
Theorem plus_then_minus (st : AppState) (item : CartItem) :
  List.NoDup (cartIds (cartItems st)) ->
  In item (cartItems st) ->
  1 <= quantity item < 2 ^ 53 ->
  let raised := {| product := product item; quantity := quantity item + 1 |} in
  In raised (cartAfter (CartItemComponent.plusClick item) st)
  /\ cartAfter (CartItemComponent.minusClick raised)
       (exec (CartItemComponent.plusClick item) st)
     = cartItems st.
Proof.
  intros Hnd Hin Hq raised.
  unfold CartItemComponent.plusClick, CartItemComponent.minusClick,
    CartItemComponent.minusDisabled.
  rewrite (add_one_exact (quantity item)) by lia.
  split.
  - rewrite cartAfter_setQuantity_pos by lia.
    apply List.in_map_iff. exists item. split; [|exact Hin].
    assert (Hsame : JS.strictEq (id (product item)) (id (product item)) = true)
      by (apply strictEq_true; reflexivity).
    rewrite Hsame. reflexivity.
  - assert (Hen : (quantity raised <=? 1) = false)
      by (apply Z.leb_gt; simpl; lia).
    rewrite Hen. cbn [raised product quantity].
    rewrite (sub_one_exact (quantity item + 1)) by lia.
    replace (quantity item + 1 - 1) with (quantity item) by lia.
    rewrite setQuantity_twice by lia.
    rewrite cartAfter_setQuantity_pos by lia.
    apply map_set_own_quantity; assumption.
Qed.

Lemma plus_then_minus_witness :
  List.NoDup (cartIds (cartItems Sample.running))
  /\ In {| product := Sample.banana; quantity := 1 |} (cartItems Sample.running)
  /\ 1 <= quantity {| product := Sample.banana; quantity := 1 |} < 2 ^ 53
  /\ cartAfter
       (CartItemComponent.minusClick {| product := Sample.banana; quantity := 2 |})
       (exec (CartItemComponent.plusClick
                {| product := Sample.banana; quantity := 1 |}) Sample.running)
     = cartItems Sample.running.
Proof.
  assert (Hnd : List.NoDup (cartIds (cartItems Sample.running))).
  { vm_compute. repeat constructor; simpl; intuition discriminate. }
  assert (Hin : In {| product := Sample.banana; quantity := 1 |}
                   (cartItems Sample.running)) by (right; left; reflexivity).
  assert (Hq : 1 <= quantity {| product := Sample.banana; quantity := 1 |}
               < 2 ^ 53)
    by (simpl; lia).
  split; [exact Hnd|]. split; [exact Hin|]. split; [exact Hq|].
  destruct (plus_then_minus Sample.running
              {| product := Sample.banana; quantity := 1 |} Hnd Hin Hq)
    as [_ Hback].
  exact Hback.
Defined.

(** ** The pipeline of the products page *)

Lemma sortStage_permutation (localeCompare : string -> string -> Z)
    (sortOption : string) (l : list Product) :
  Permutation l (ProductsPage.sortStage localeCompare sortOption l).
Proof.
  unfold ProductsPage.sortStage. cbv zeta.
  destruct (JS.strictEq sortOption "price-asc"),
    (JS.strictEq sortOption "price-desc"),
    (JS.strictEq sortOption "name-asc"),
    (JS.strictEq sortOption "name-desc");
    repeat first [ apply Permutation_refl
                 | eapply Permutation_trans; [|apply sort_permutation] ].
Qed.

Lemma rendered_In (Number : string -> JS.number)
    (toLowerCase : string -> string)
    (localeCompare : string -> string -> Z) (products : list Product)
    (s : ProductsPage.PageState) (p : Product) :
  In p (ProductsPage.rendered Number toLowerCase localeCompare products s)
  <-> In p products
      /\ passesFilters Number toLowerCase (ProductsPage.search s)
           (ProductsPage.minPrice s) (ProductsPage.maxPrice s) p.
Proof.
  unfold ProductsPage.rendered, ProductsPage.filteredProducts.
  rewrite <- filterStage_In. split; intros Hin.
  - apply (Permutation_in p (Permutation_sym (sortStage_permutation _ _ _)) Hin).
  - apply (Permutation_in p (sortStage_permutation _ _ _) Hin).
Qed.

Lemma sortStage_other_option (localeCompare : string -> string -> Z)
    (sortOption : string) (l : list Product) :
  sortOption <> "price-asc" -> sortOption <> "price-desc" ->
  sortOption <> "name-asc" -> sortOption <> "name-desc" ->
  ProductsPage.sortStage localeCompare sortOption l = l.
Proof.
  intros H1 H2 H3 H4. unfold ProductsPage.sortStage. cbv zeta.
  apply strictEq_false in H1, H2, H3, H4.
  rewrite H1, H2, H3, H4. reflexivity.
Qed.

(** X13.  Whatever the sort option and whatever [Number], [toLowerCase] and
    [localeCompare] do, the list the page hands to the product list is a
    rearrangement of the output of the filter stage: it holds exactly the
    catalog products that pass the filters, that is, those for which the
    lower-case form of the name contains the lower-case form of the search
    string and whose price meets the bounds given, each as often as the
    filter stage kept it, and never more products than the catalog has.  With
    a sort option other than the four the page knows, the empty option of the
    selector among them, it is the output of the filter stage itself, in
    catalog order. *)
Theorem rendered_rearranges_the_filtered (Number : string -> JS.number)
    (toLowerCase : string -> string)
    (localeCompare : string -> string -> Z) (products : list Product)
    (s : ProductsPage.PageState) :
  Permutation
    (ProductsPage.filterStage Number toLowerCase products
       (ProductsPage.search s) (ProductsPage.minPrice s)
       (ProductsPage.maxPrice s))
    (ProductsPage.rendered Number toLowerCase localeCompare products s)
  /\ (forall p,
        In p (ProductsPage.rendered Number toLowerCase localeCompare products s)
        <-> In p products
            /\ passesFilters Number toLowerCase (ProductsPage.search s)
                 (ProductsPage.minPrice s) (ProductsPage.maxPrice s) p)
  /\ (length (ProductsPage.rendered Number toLowerCase localeCompare products s)
      <= length products)%nat
  /\ (ProductsPage.sortOption s <> "price-asc" ->
      ProductsPage.sortOption s <> "price-desc" ->
      ProductsPage.sortOption s <> "name-asc" ->
      ProductsPage.sortOption s <> "name-desc" ->
      ProductsPage.rendered Number toLowerCase localeCompare products s
      = ProductsPage.filterStage Number toLowerCase products
          (ProductsPage.search s) (ProductsPage.minPrice s)
          (ProductsPage.maxPrice s)).
Proof.
  split; [apply sortStage_permutation|]. split; [apply rendered_In|].
  split.
  - unfold ProductsPage.rendered, ProductsPage.filteredProducts.
    rewrite <- (Permutation_length (sortStage_permutation _ _ _)).
    rewrite filterStage_filter. apply List.filter_length_le.
  - intros H1 H2 H3 H4.
    unfold ProductsPage.rendered, ProductsPage.filteredProducts.
    apply sortStage_other_option; assumption.
Qed.

Lemma includes_empty (s : string) : JS.includes s "" = true.
Proof. apply includes_spec. exists EmptyString, s. reflexivity. Qed.

Lemma filter_all {A : Type} (f : A -> bool) (l : list A) :
  (forall x, In x l -> f x = true) -> List.filter f l = l.
Proof.
  induction l as [|x l IH]; intros Hall; simpl; [reflexivity|].
  rewrite (Hall x (or_introl eq_refl)). f_equal.
  apply IH. intros y Hy. apply Hall. right. exact Hy.
Qed.

Lemma searchFilter_empty (toLowerCase : string -> string)
    (products : list Product) :
  toLowerCase "" = "" ->
  ProductsPage.searchFilter toLowerCase products "" = products.
Proof.
  intros Hempty. unfold ProductsPage.searchFilter. apply filter_all.
  intros p _. rewrite Hempty. apply includes_empty.
Qed.

Lemma priceFilter_no_bounds (Number : string -> JS.number) (l : list Product) :
  ProductsPage.priceFilter Number "" "" l = l.
Proof.
  unfold ProductsPage.priceFilter. apply filter_all. intros p _. reflexivity.
Qed.

Lemma truthy_false (s : string) : JS.truthy s = false <-> s = "".
Proof.
  unfold JS.truthy. rewrite negb_false_iff. apply String.eqb_eq.
Qed.

(** X14.  The badge of the filter button counts between zero and three active
    filters, and shows zero exactly when the sort option and both bounds are
    empty.  In that case the list the page hands to the product list is the
    output of the search filter, in catalog order, and with an empty search
    string, whose lower-case form is empty, it is the whole catalog.  The
    button [Clear Filters] leads to that case: it empties the sort option and
    the bounds and keeps the search string. *)
Theorem no_active_filter_shows_search_matches (Number : string -> JS.number)
    (toLowerCase : string -> string)
    (localeCompare : string -> string -> Z) (products : list Product)
    (s : ProductsPage.PageState) :
  (0 <= ProductsPage.activeFilters s <= 3)
  /\ (ProductsPage.activeFilters s = 0
      <-> ProductsPage.sortOption s = "" /\ ProductsPage.minPrice s = ""
          /\ ProductsPage.maxPrice s = "")
  /\ (ProductsPage.activeFilters s = 0 ->
      ProductsPage.rendered Number toLowerCase localeCompare products s
      = ProductsPage.searchFilter toLowerCase products (ProductsPage.search s)
      /\ (ProductsPage.search s = "" -> toLowerCase "" = "" ->
          ProductsPage.rendered Number toLowerCase localeCompare products s
          = products))
  /\ ProductsPage.activeFilters (ProductsPage.clearFilters s) = 0
  /\ ProductsPage.rendered Number toLowerCase localeCompare products
       (ProductsPage.clearFilters s)
     = ProductsPage.searchFilter toLowerCase products (ProductsPage.search s).
Proof.
  assert (Hzero : ProductsPage.activeFilters s = 0
                  <-> ProductsPage.sortOption s = ""
                      /\ ProductsPage.minPrice s = ""
                      /\ ProductsPage.maxPrice s = "").
  { unfold ProductsPage.activeFilters. rewrite <- !truthy_false.
    destruct (JS.truthy (ProductsPage.sortOption s)),
      (JS.truthy (ProductsPage.minPrice s)),
      (JS.truthy (ProductsPage.maxPrice s));
      split; try lia; try (intros [H1 [H2 H3]]; discriminate); auto. }
  assert (Hplain : forall search,
             ProductsPage.filteredProducts Number toLowerCase localeCompare
               products search "" "" ""
             = ProductsPage.searchFilter toLowerCase products search).
  { intros search. unfold ProductsPage.filteredProducts, ProductsPage.filterStage.
    rewrite priceFilter_no_bounds. reflexivity. }
  split.
  { unfold ProductsPage.activeFilters.
    destruct (JS.truthy (ProductsPage.sortOption s)),
      (JS.truthy (ProductsPage.minPrice s)),
      (JS.truthy (ProductsPage.maxPrice s)); lia. }
  split; [exact Hzero|]. split.
  { intros H0. apply Hzero in H0. destruct H0 as [Hs [Hlo Hhi]].
    assert (Hr : ProductsPage.rendered Number toLowerCase localeCompare
                   products s
                 = ProductsPage.searchFilter toLowerCase products
                     (ProductsPage.search s)).
    { unfold ProductsPage.rendered. rewrite Hs, Hlo, Hhi. apply Hplain. }
    split; [exact Hr|].
    intros Hsearch Hempty. rewrite Hr, Hsearch.
    apply searchFilter_empty. exact Hempty. }
  split; [reflexivity|].
  unfold ProductsPage.rendered. simpl. apply Hplain.
Qed.

Lemma no_active_filter_shows_search_matches_witness :
  ProductsPage.activeFilters ProductsPage.initialPageState = 0
  /\ ProductsPage.search ProductsPage.initialPageState = ""
  /\ Host.toLowerCase "" = ""
  /\ ProductsPage.rendered Host.Number Host.toLowerCase Host.localeCompare
       Sample.catalog ProductsPage.initialPageState
     = Sample.catalog.
Proof.
  split; [reflexivity|]. split; [reflexivity|]. split; [reflexivity|].
  destruct (no_active_filter_shows_search_matches Host.Number Host.toLowerCase
              Host.localeCompare Sample.catalog ProductsPage.initialPageState)
    as [_ [_ [Hplain _]]].
  destruct (Hplain eq_refl) as [_ Hall].
  apply Hall; reflexivity.
Defined.

Lemma no_element_nil {A : Type} (l : list A) :
  (forall x, ~ In x l) -> l = [].
Proof.
  destruct l as [|x l]; [reflexivity|].
  intros Hnone. exfalso. apply (Hnone x). left. reflexivity.
Qed.

(** X15.  Bounds that no price can meet hide every product: a bound that is
    given but is not a number, and a minimum above the maximum.  The filter
    stage then returns the empty list, and the page, once loaded, shows its
    message for an empty result. *)
Theorem unsatisfiable_bounds_hide_everything (Number : string -> JS.number)
    (toLowerCase : string -> string)
    (products : list Product) (search minPrice maxPrice : string) :
  ((minPrice <> "" /\ Number minPrice = JS.NaN)
   \/ (maxPrice <> "" /\ Number maxPrice = JS.NaN)
   \/ (exists lo hi,
         minPrice <> "" /\ maxPrice <> ""
         /\ Number minPrice = JS.Fin lo /\ Number maxPrice = JS.Fin hi
         /\ (hi < lo)%Q)) ->
  ProductsPage.filterStage Number toLowerCase products
    search minPrice maxPrice = []
  /\ forall localeCompare sortOption,
       ProductsPage.body false
         (ProductsPage.filteredProducts Number toLowerCase localeCompare
            products search minPrice maxPrice sortOption)
       = ProductsPage.NoResults.
Proof.
  intros Hbad.
  assert (Hnil : ProductsPage.filterStage Number toLowerCase products
                   search minPrice maxPrice
                 = []).
  { apply no_element_nil. intros p Hin. apply filterStage_In in Hin.
    destruct Hin as [_ [_ [Hlo Hhi]]].
    destruct Hbad as [[Hne Hnan] | [[Hne Hnan] | [lo [hi [Hn1 [Hn2 [Hl [Hh Hlt]]]]]]]].
    - specialize (Hlo Hne). rewrite Hnan in Hlo. exact Hlo.
    - specialize (Hhi Hne). rewrite Hnan in Hhi. exact Hhi.
    - specialize (Hlo Hn1). specialize (Hhi Hn2).
      rewrite Hl in Hlo. rewrite Hh in Hhi. simpl in Hlo, Hhi.
      apply (Qlt_irrefl lo).
      apply (Qle_lt_trans _ hi); [|exact Hlt].
      apply (Qle_trans _ (price p)); assumption. }
  split; [exact Hnil|].
  intros localeCompare sortOption.
  unfold ProductsPage.filteredProducts. rewrite Hnil.
  assert (Hsorted : ProductsPage.sortStage localeCompare sortOption [] = []).
  { apply Permutation_nil. apply sortStage_permutation. }
  rewrite Hsorted. reflexivity.
Qed.

Lemma unsatisfiable_bounds_hide_everything_witness :
  (("20" <> "" /\ Host.Number "20" = JS.NaN)
   \/ ("10" <> "" /\ Host.Number "10" = JS.NaN)
   \/ (exists lo hi,
         "20" <> "" /\ "10" <> ""
         /\ Host.Number "20" = JS.Fin lo /\ Host.Number "10" = JS.Fin hi
         /\ (hi < lo)%Q))
  /\ ProductsPage.filterStage Host.Number Host.toLowerCase Sample.catalog
       "" "20" "10"
     = [].
Proof.
  assert (Hbad : ("20" <> "" /\ Host.Number "20" = JS.NaN)
                 \/ ("10" <> "" /\ Host.Number "10" = JS.NaN)
                 \/ (exists lo hi,
                       "20" <> "" /\ "10" <> ""
                       /\ Host.Number "20" = JS.Fin lo
                       /\ Host.Number "10" = JS.Fin hi
                       /\ (hi < lo)%Q)).
  { right. right. exists 20%Q, 10%Q.
    split; [intros H; vm_compute in H; discriminate H|].
    split; [intros H; vm_compute in H; discriminate H|].
    split; [reflexivity|]. split; [reflexivity|]. reflexivity. }
  split; [exact Hbad|].
  destruct (unsatisfiable_bounds_hide_everything Host.Number Host.toLowerCase
              Sample.catalog "" "20" "10" Hbad) as [Hnil _].
  exact Hnil.
Defined.

Lemma sort_of_sorted {A : Type} (comparefn : A -> A -> Q)
    (R : A -> A -> Prop) (l : list A) :
  (forall a b, R a b -> Qle_bool (comparefn a b) 0 = true) ->
  StronglySorted R l -> JS.sort comparefn l = l.
Proof.
  intros HR Hs. induction Hs as [|x l Hl IH Hx]; [reflexivity|].
  simpl. rewrite IH. destruct l as [|y l']; [reflexivity|].
  simpl. inversion Hx as [|y' l'' Hxy _]; subst.
  rewrite (HR x y Hxy). reflexivity.
Qed.

Lemma price_asc_sorted (l : list Product) :
  StronglySorted (fun a b => price a <= price b)%Q
                 (JS.sort (fun a b => price a - price b)%Q l).
Proof.
  apply (sort_sorted (fun a b => price a - price b)%Q
                     (fun a b => price a <= price b)%Q).
  - intros a b H. apply Qle_bool_minus. exact H.
  - intros a b H. apply Qle_bool_minus_false. exact H.
  - intros a b c Hab Hbc. exact (Qle_trans _ _ _ Hab Hbc).
Qed.

Lemma price_desc_sorted (l : list Product) :
  StronglySorted (fun a b => price b <= price a)%Q
                 (JS.sort (fun a b => price b - price a)%Q l).
Proof.
  apply (sort_sorted (fun a b => price b - price a)%Q
                     (fun a b => price b <= price a)%Q).
  - intros a b H. apply Qle_bool_minus. exact H.
  - intros a b H. apply Qle_bool_minus_false. exact H.
  - intros a b c Hab Hbc. exact (Qle_trans _ _ _ Hbc Hab).
Qed.

(** X16.  A list whose prices already never decrease is returned unchanged by
    the ascending price sort, products of equal price included; in
    particular sorting twice gives what sorting once gives.  The same holds
    for the descending sort and lists whose prices never increase. *)
Theorem price_sort_is_idempotent (localeCompare : string -> string -> Z)
    (l : list Product) :
  (StronglySorted (fun a b => price a <= price b)%Q l ->
   ProductsPage.sortStage localeCompare "price-asc" l = l)
  /\ (StronglySorted (fun a b => price b <= price a)%Q l ->
      ProductsPage.sortStage localeCompare "price-desc" l = l)
  /\ ProductsPage.sortStage localeCompare "price-asc"
       (ProductsPage.sortStage localeCompare "price-asc" l)
     = ProductsPage.sortStage localeCompare "price-asc" l
  /\ ProductsPage.sortStage localeCompare "price-desc"
       (ProductsPage.sortStage localeCompare "price-desc" l)
     = ProductsPage.sortStage localeCompare "price-desc" l.
Proof.
  assert (Hasc : forall l',
             StronglySorted (fun a b => price a <= price b)%Q l' ->
             ProductsPage.sortStage localeCompare "price-asc" l' = l').
  { intros l' Hs. rewrite sortStage_price_asc.
    apply (sort_of_sorted _ (fun a b => price a <= price b)%Q); [|exact Hs].
    intros a b H. apply Qle_bool_minus. exact H. }
  assert (Hdesc : forall l',
             StronglySorted (fun a b => price b <= price a)%Q l' ->
             ProductsPage.sortStage localeCompare "price-desc" l' = l').
  { intros l' Hs. rewrite sortStage_price_desc.
    apply (sort_of_sorted _ (fun a b => price b <= price a)%Q); [|exact Hs].
    intros a b H. apply Qle_bool_minus. exact H. }
  split; [apply Hasc|]. split; [apply Hdesc|]. split.
  - apply Hasc. rewrite sortStage_price_asc. apply price_asc_sorted.
  - apply Hdesc. rewrite sortStage_price_desc. apply price_desc_sorted.
Qed.

Lemma Qle_bool_inject_Z (z : Z) :
  Qle_bool (inject_Z z) 0 = true <-> z <= 0.
Proof.
  rewrite Qle_bool_iff. change 0%Q with (inject_Z 0). rewrite <- Zle_Qle.
  reflexivity.
Qed.

(** X17.  When [localeCompare] orders strings consistently (a string that
    comes after another is preceded by it, and the order is transitive), the
    sort by ascending name returns a rearrangement of its input in which no
    name comes after a later one, and the sort by descending name one in
    which no name comes before a later one. *)
Theorem name_sort_orders_a_permutation (localeCompare : string -> string -> Z)
    (l : list Product) :
  (forall a b, 0 < localeCompare a b -> localeCompare b a <= 0) ->
  (forall a b c,
     localeCompare a b <= 0 -> localeCompare b c <= 0 ->
     localeCompare a c <= 0) ->
  (Permutation l (ProductsPage.sortStage localeCompare "name-asc" l)
   /\ StronglySorted
        (fun a b => localeCompare (name a) (name b) <= 0)
        (ProductsPage.sortStage localeCompare "name-asc" l))
  /\ (Permutation l (ProductsPage.sortStage localeCompare "name-desc" l)
      /\ StronglySorted
           (fun a b => localeCompare (name b) (name a) <= 0)
           (ProductsPage.sortStage localeCompare "name-desc" l)).
Proof.
  intros Hanti Htrans.
  assert (Hgt : forall z, Qle_bool (inject_Z z) 0 = false -> 0 < z).
  { intros z Hz. destruct (Z_le_gt_dec z 0) as [Hle|Hgt]; [|lia].
    apply Qle_bool_inject_Z in Hle. rewrite Hle in Hz. discriminate Hz. }
  split; (split; [apply sortStage_permutation|]).
  - change (ProductsPage.sortStage localeCompare "name-asc" l)
      with (JS.sort (fun a b => inject_Z (localeCompare (name a) (name b))) l).
    apply (sort_sorted _ (fun a b => localeCompare (name a) (name b) <= 0)).
    + intros a b H. apply Qle_bool_inject_Z. exact H.
    + intros a b H. apply Hanti. apply Hgt. exact H.
    + intros a b c Hab Hbc. exact (Htrans _ _ _ Hab Hbc).
  - change (ProductsPage.sortStage localeCompare "name-desc" l)
      with (JS.sort (fun a b => inject_Z (localeCompare (name b) (name a))) l).
    apply (sort_sorted _ (fun a b => localeCompare (name b) (name a) <= 0)).
    + intros a b H. apply Qle_bool_inject_Z. exact H.
    + intros a b H. apply Hanti. apply Hgt. exact H.
    + intros a b c Hab Hbc. exact (Htrans _ _ _ Hbc Hab).
Qed.

Lemma code_unit_order_antisym (a b : string) :
  0 < Host.localeCompare a b -> Host.localeCompare b a <= 0.
Proof.
  unfold Host.localeCompare. rewrite (String.compare_antisym b a).
  destruct (String.compare a b); simpl; lia.
Qed.

Lemma code_unit_order_trans (a b c : string) :
  Host.localeCompare a b <= 0 -> Host.localeCompare b c <= 0 ->
  Host.localeCompare a c <= 0.
Proof.
  unfold Host.localeCompare.
  destruct (String.compare a b) eqn:Hab; try lia;
    destruct (String.compare b c) eqn:Hbc; try lia; intros _ _.
  - apply String.compare_eq_iff in Hab, Hbc. subst.
    pose proof (proj2 (OrderedTypeEx.String_as_OT.cmp_eq c c) eq_refl) as Hcc.
    change (String.compare c c = Eq) in Hcc. rewrite Hcc. lia.
  - apply String.compare_eq_iff in Hab. subst. rewrite Hbc. lia.
  - apply String.compare_eq_iff in Hbc. subst. rewrite Hab. lia.
  - apply OrderedTypeEx.String_as_OT.cmp_lt in Hab, Hbc.
    pose proof (OrderedTypeEx.String_as_OT.lt_trans _ _ _ Hab Hbc) as Hac.
    apply OrderedTypeEx.String_as_OT.cmp_lt in Hac.
    change (String.compare a c = Lt) in Hac. rewrite Hac. lia.
Qed.

Lemma name_sort_orders_a_permutation_witness :
  (forall a b, 0 < Host.localeCompare a b -> Host.localeCompare b a <= 0)
  /\ (forall a b c,
        Host.localeCompare a b <= 0 -> Host.localeCompare b c <= 0 ->
        Host.localeCompare a c <= 0)
  /\ StronglySorted
       (fun a b => Host.localeCompare (name a) (name b) <= 0)
       (ProductsPage.sortStage Host.localeCompare "name-asc" Sample.catalog).
Proof.
  split; [exact code_unit_order_antisym|].
  split; [exact code_unit_order_trans|].
  destruct (name_sort_orders_a_permutation Host.localeCompare Sample.catalog
              code_unit_order_antisym code_unit_order_trans)
    as [[_ Hsorted] _].
  exact Hsorted.
Defined.

(** ** The catalog handlers *)

(** X18.  No catalog handler throws, whatever the remote call answers, and
    none touches the cart or the loading flag.  When the call is rejected the
    catalog stays as it was, and the user is alerted twice, once by the
    remote client and once by the handler, each after an entry on the
    console. *)
Theorem catalog_handlers_never_throw (st : AppState) :
  (forall reply p,
     outcome (App.handleCreateProduct reply p) st = Returns tt
     /\ cartItems (exec (App.handleCreateProduct reply p) st) = cartItems st
     /\ loading (exec (App.handleCreateProduct reply p) st) = loading st)
  /\ (forall reply p,
        outcome (App.handleUpdateProduct reply p) st = Returns tt
        /\ loading (exec (App.handleUpdateProduct reply p) st) = loading st)
  /\ (forall reply pid,
        outcome (App.handleDeleteProduct reply pid) st = Returns tt
        /\ loading (exec (App.handleDeleteProduct reply pid) st) = loading st)
  /\ (forall e p,
        products (exec (App.handleCreateProduct (Rejected e) p) st) = products st
        /\ exists log1 alert1 log2 alert2,
             events (exec (App.handleCreateProduct (Rejected e) p) st)
             = events st ++ [ConsoleError log1; Alert alert1;
                             ConsoleError log2; Alert alert2])
  /\ (forall e p,
        products (exec (App.handleUpdateProduct (Rejected e) p) st) = products st
        /\ exists log1 alert1 log2 alert2,
             events (exec (App.handleUpdateProduct (Rejected e) p) st)
             = events st ++ [ConsoleError log1; Alert alert1;
                             ConsoleError log2; Alert alert2])
  /\ (forall e pid,
        products (exec (App.handleDeleteProduct (Rejected e) pid) st) = products st
        /\ exists log1 alert1 log2 alert2,
             events (exec (App.handleDeleteProduct (Rejected e) pid) st)
             = events st ++ [ConsoleError log1; Alert alert1;
                             ConsoleError log2; Alert alert2]).
Proof.
  split; [|split; [|split; [|split; [|split]]]].
  - intros [data|e] p; repeat split; reflexivity.
  - intros [data|e] p; repeat split; reflexivity.
  - intros [[]|e] pid; repeat split; reflexivity.
  - intros e p. split; [reflexivity|]. do 4 eexists.
    unfold exec, App.handleCreateProduct, productsApi.createProduct.
    simpl. rewrite <- !List.app_assoc. reflexivity.
  - intros e p. split; [reflexivity|]. do 4 eexists.
    unfold exec, App.handleUpdateProduct, productsApi.updateProduct.
    simpl. rewrite <- !List.app_assoc. reflexivity.
  - intros e pid. split; [reflexivity|]. do 4 eexists.
    unfold exec, App.handleDeleteProduct, productsApi.deleteProduct.
    simpl. rewrite <- !List.app_assoc. reflexivity.
Qed.

Lemma products_after_update (st : AppState) (updated saved : Product) :
  products (exec (App.handleUpdateProduct (Fulfilled saved) updated) st)
  = List.map (fun p => if JS.strictEq (id p) (id saved) then saved else p)
             (products st).
Proof. reflexivity. Qed.

Lemma products_after_delete (st : AppState) (pid : string) :
  products (exec (App.handleDeleteProduct (Fulfilled tt) pid) st)
  = List.filter (fun p => negb (JS.strictEq (id p) pid)) (products st).
Proof. reflexivity. Qed.

Lemma products_after_create (st : AppState) (p newProduct : Product) :
  products (exec (App.handleCreateProduct (Fulfilled newProduct) p) st)
  = products st ++ [newProduct].
Proof. reflexivity. Qed.

Lemma filter_products_absent (pid : string) (l : list Product) :
  (forall p, In p l -> id p <> pid) ->
  List.filter (fun p => negb (JS.strictEq (id p) pid)) l = l.
Proof.
  intros Habsent. apply filter_all. intros p Hp.
  apply negb_true_iff, strictEq_false. exact (Habsent p Hp).
Qed.

(** X19.  A fulfilled update stores the product the server answered with in
    place of every catalog product that carries the id of that answer, and
    leaves every other product, the order and the list of ids of the catalog
    as they were; it reports nothing.  The id that decides is the one of the
    answer, not the one of the product that was submitted: when no catalog
    product carries it, the catalog is unchanged. *)
Theorem update_replaces_by_id (st : AppState) (updated saved : Product) :
  let products' :=
    products (exec (App.handleUpdateProduct (Fulfilled saved) updated) st) in
  List.map id products' = List.map id (products st)
  /\ (forall (i : nat) (p : Product),
        nth_error (products st) i = Some p ->
        (id p = id saved -> nth_error products' i = Some saved)
        /\ (id p <> id saved -> nth_error products' i = Some p))
  /\ ((forall p, In p (products st) -> id p <> id saved) ->
      products' = products st)
  /\ events (exec (App.handleUpdateProduct (Fulfilled saved) updated) st)
     = events st.
Proof.
  intros products'. subst products'. rewrite products_after_update.
  split; [|split; [|split]].
  - rewrite List.map_map. apply List.map_ext. intros p.
    destruct (JS.strictEq (id p) (id saved)) eqn:Heq; [|reflexivity].
    apply strictEq_true in Heq. symmetry. exact Heq.
  - intros i p Hi. rewrite List.nth_error_map, Hi. simpl.
    split; intros Hcase.
    + apply strictEq_true in Hcase. rewrite Hcase. reflexivity.
    + apply strictEq_false in Hcase. rewrite Hcase. reflexivity.
  - intros Habsent. rewrite <- (List.map_id (products st)) at 2.
    apply List.map_ext_in. intros p Hp.
    pose proof (Habsent p Hp) as Hne. apply strictEq_false in Hne.
    rewrite Hne. reflexivity.
  - reflexivity.
Qed.

(** X20.  A fulfilled delete keeps exactly the catalog products whose id
    differs from the deleted one, in their order.  Afterwards the edit page
    for that id shows its fallback, the products page renders no product with
    that id whatever its filters are, and deleting again changes nothing;
    deleting an id that no catalog product carries changes nothing. *)
Theorem delete_removes_by_id (st : AppState) (pid : string) :
  let st' := exec (App.handleDeleteProduct (Fulfilled tt) pid) st in
  products st' = filter (fun p => id p <> pid) (products st)
  /\ ProductEditPage.findProduct (products st') (Some pid) = None
  /\ (forall Number toLowerCase localeCompare s p,
        In p (ProductsPage.rendered Number toLowerCase localeCompare
                (products st') s) ->
        id p <> pid)
  /\ products (exec (App.handleDeleteProduct (Fulfilled tt) pid) st')
     = products st'
  /\ ((forall p, In p (products st) -> id p <> pid) ->
      products st' = products st).
Proof.
  intros st'. subst st'.
  assert (Hgone : forall p,
             In p (products (exec (App.handleDeleteProduct (Fulfilled tt) pid) st)) ->
             id p <> pid).
  { intros p Hp. rewrite products_after_delete in Hp.
    apply List.filter_In in Hp. destruct Hp as [_ Hne].
    apply negb_true_iff, strictEq_false in Hne. exact Hne. }
  split; [|split; [|split; [|split]]].
  - rewrite products_after_delete.
    induction (products st) as [|p l IH]; [reflexivity|].
    simpl. destruct (JS.strictEq (id p) pid) eqn:Heq; simpl.
    + apply strictEq_true in Heq.
      rewrite filter_cons_False by (intros Hne; exact (Hne Heq)). exact IH.
    + apply strictEq_false in Heq.
      rewrite filter_cons_True by exact Heq. f_equal. exact IH.
  - unfold ProductEditPage.findProduct.
    destruct (List.find _ _) as [found|] eqn:Efind; [|reflexivity].
    apply List.find_some in Efind. destruct Efind as [Hin Heq].
    apply strictEq_true in Heq. exfalso. exact (Hgone found Hin Heq).
  - intros Number toLowerCase localeCompare s p Hp. apply rendered_In in Hp.
    destruct Hp as [Hp _]. exact (Hgone p Hp).
  - rewrite products_after_delete. apply filter_products_absent. exact Hgone.
  - intros Habsent. rewrite products_after_delete.
    apply filter_products_absent. exact Habsent.
Qed.

(** X21.  A fulfilled create appends the product the server answered with to
    the catalog; when no catalog product carried the id of that answer,
    deleting that id right afterwards gives back the catalog as it was. *)
Theorem create_then_delete (st : AppState) (p newProduct : Product) :
  (forall q, In q (products st) -> id q <> id newProduct) ->
  products (exec (App.handleCreateProduct (Fulfilled newProduct) p) st)
  = products st ++ [newProduct]
  /\ products
       (exec (App.handleDeleteProduct (Fulfilled tt) (id newProduct))
             (exec (App.handleCreateProduct (Fulfilled newProduct) p) st))
     = products st.
Proof.
  intros Hfresh. split; [reflexivity|].
  rewrite products_after_delete, products_after_create.
  rewrite List.filter_app. simpl.
  assert (Hsame : JS.strictEq (id newProduct) (id newProduct) = true)
    by (apply strictEq_true; reflexivity).
  rewrite Hsame. simpl. rewrite List.app_nil_r.
  apply filter_products_absent. exact Hfresh.
Qed.

Lemma create_then_delete_witness :
  (forall q, In q (products Sample.running) -> id q <> id Sample.sigma)
  /\ products Sample.running = Sample.catalog
  /\ products
       (exec (App.handleCreateProduct (Fulfilled Sample.sigma) Sample.sigma)
             Sample.running)
     = Sample.catalog ++ [Sample.sigma]
  /\ products
       (exec (App.handleDeleteProduct (Fulfilled tt) (id Sample.sigma))
             (exec (App.handleCreateProduct (Fulfilled Sample.sigma)
                      Sample.sigma) Sample.running))
     = Sample.catalog.
Proof.
  assert (Hfresh : forall q, In q (products Sample.running) ->
                             id q <> id Sample.sigma).
  { simpl. intros q [H | [H | [H | []]]]; subst q; simpl; discriminate. }
  split; [exact Hfresh|]. split; [reflexivity|].
  exact (create_then_delete Sample.running Sample.sigma Sample.sigma Hfresh).
Defined.

(** X22.  The load effect never throws and always lowers the loading flag,
    whatever the request answers, and it never touches the cart.  A fulfilled
    request stores its payload and reports nothing.  A rejected one is
    reported once, by the remote client: the handler of the load effect for a
    failed load never runs.  After a rejected request the products page shows
    its message for an empty result, whatever the state of its filters. *)
Theorem load_always_completes (st : AppState) (reply : Reply (list Product)) :
  outcome (App.load reply) st = Returns tt
  /\ loading (exec (App.load reply) st) = false
  /\ cartItems (exec (App.load reply) st) = cartItems st
  /\ (forall data,
        reply = Fulfilled data ->
        products (exec (App.load reply) st) = data
        /\ events (exec (App.load reply) st) = events st)
  /\ (forall e,
        reply = Rejected e ->
        events (exec (App.load reply) st)
        = events st
          ++ [ ConsoleError "API Error: Failed to fetch product list:";
               Alert ("We couldn't load the product list from the server. " +:+
                      "This may be due to a network issue or the API being unavailable.") ]
        /\ forall Number toLowerCase localeCompare s,
             ProductsPage.body (loading (exec (App.load reply) st))
               (ProductsPage.rendered Number toLowerCase localeCompare
                  (products (exec (App.load reply) st)) s)
             = ProductsPage.NoResults).
Proof.
  destruct reply as [data|e].
  - split; [reflexivity|]. split; [reflexivity|]. split; [reflexivity|].
    split.
    + intros data' Hd. injection Hd as Hd. subst data'. split; reflexivity.
    + intros e He. discriminate He.
  - split; [reflexivity|]. split; [reflexivity|]. split; [reflexivity|].
    split.
    + intros data Hd. discriminate Hd.
    + intros e' He. split.
      * unfold exec, App.load, productsApi.getProducts. simpl.
        rewrite <- !List.app_assoc. reflexivity.
      * intros Number toLowerCase localeCompare s.
        change (loading (exec (App.load (Rejected e)) st)) with false.
        change (products (exec (App.load (Rejected e)) st)) with (@nil Product).
        unfold ProductsPage.rendered, ProductsPage.filteredProducts.
        assert (Hnil : ProductsPage.sortStage localeCompare
                         (ProductsPage.sortOption s)
                         (ProductsPage.filterStage Number toLowerCase []
                            (ProductsPage.search s) (ProductsPage.minPrice s)
                            (ProductsPage.maxPrice s)) = []).
        { apply Permutation_nil. apply sortStage_permutation. }
        rewrite Hnil. reflexivity.
Qed.

(** ** The product form, the edit page and the create page *)

Lemma orString_id (text fallback : string) :
  text <> "" -> orString (Some text) fallback = text.
Proof.
  intros Hne. apply truthy_true in Hne. unfold orString. rewrite Hne.
  reflexivity.
Qed.

Lemma orString_self (text : string) : orString (Some text) "" = text.
Proof.
  unfold orString. destruct (JS.truthy text) eqn:Ht; [reflexivity|].
  apply truthy_false in Ht. symmetry. exact Ht.
Qed.

(** X23.  Submitting the form of a product keeps the id of that product,
    whatever was typed and whatever the random id would have been, as long as
    that id is not empty; a product whose id is empty, and a form opened
    without a product, get the random id.  A form submitted as it was opened
    gives back the name and the price of the product, and turns a missing
    description or image into an empty one. *)
Theorem form_submit_keeps_the_id (randomUUID : string) (p : Product) :
  (id p <> "" ->
   forall fields,
     id (ProductForm.handleSubmit randomUUID (Some p) fields) = id p)
  /\ (id p = "" ->
      forall fields,
        id (ProductForm.handleSubmit randomUUID (Some p) fields) = randomUUID)
  /\ (forall fields,
        id (ProductForm.handleSubmit randomUUID None fields) = randomUUID)
  /\ (let unedited :=
        ProductForm.handleSubmit randomUUID (Some p)
          (ProductForm.initialFields (Some p)) in
      name unedited = name p
      /\ (price unedited == price p)%Q
      /\ description unedited = Some (orString (description p) "")
      /\ image unedited = Some (orString (image p) "")).
Proof.
  split; [|split; [|split]].
  - intros Hid fields.
    change (orString (Some (id p)) randomUUID = id p).
    apply orString_id. exact Hid.
  - intros Hid fields. simpl. rewrite Hid. reflexivity.
  - intros fields. reflexivity.
  - simpl. split; [apply orString_self|]. split; [|split; reflexivity].
    destruct (Qeq_bool (price p) 0) eqn:Hz; [|reflexivity].
    apply Qeq_bool_eq in Hz. symmetry. exact Hz.
Qed.

Lemma findProduct_some (products : list Product) (i : string) (found : Product) :
  ProductEditPage.findProduct products (Some i) = Some found ->
  In found products /\ id found = i.
Proof.
  unfold ProductEditPage.findProduct. intros Hfind.
  apply List.find_some in Hfind. destruct Hfind as [Hin Heq].
  split; [exact Hin | apply strictEq_true; exact Heq].
Qed.

(** X24.  The edit page looks the product up by the id of the URL: without
    an id in the URL it finds nothing; with one it finds a product exactly
    when the catalog holds a product with that id, and the product found is a
    catalog product with that id.  When it finds nothing, saving does
    nothing.  When it finds a product under a non-empty id, the product it
    submits carries that id, and if the server answers with the submitted
    product, the catalog keeps its list of ids, holds the submitted product
    wherever that id occurs, and keeps every other product. *)
Theorem edit_page_saves_under_the_url_id (st : AppState) (randomUUID : string)
    (fields : ProductForm.FormState) :
  ProductEditPage.findProduct (products st) None = None
  /\ (forall i,
        (exists p, In p (products st) /\ id p = i)
        <-> exists found,
              ProductEditPage.findProduct (products st) (Some i) = Some found)
  /\ (forall urlId reply,
        ProductEditPage.findProduct (products st) urlId = None ->
        exec (ProductEditPage.save randomUUID reply urlId fields) st = st
        /\ outcome (ProductEditPage.save randomUUID reply urlId fields) st
           = Returns tt)
  /\ (forall i found,
        i <> "" ->
        ProductEditPage.findProduct (products st) (Some i) = Some found ->
        let submitted :=
          ProductForm.handleSubmit randomUUID (Some found) fields in
        let products' :=
          products (exec (ProductEditPage.save randomUUID (Fulfilled submitted)
                            (Some i) fields) st) in
        In found (products st) /\ id found = i /\ id submitted = i
        /\ List.map id products' = List.map id (products st)
        /\ (forall p, In p products' -> id p = i -> p = submitted)
        /\ (forall p, In p products' -> id p <> i -> In p (products st))).
Proof.
  split; [|split; [|split]].
  - unfold ProductEditPage.findProduct.
    induction (products st) as [|p l IH]; [reflexivity | exact IH].
  - intros i. unfold ProductEditPage.findProduct. split.
    + intros [p [Hin Hid]].
      destruct (List.find (fun p0 => JS.strictEq (id p0) i) (products st))
        as [found|] eqn:Efind; [exists found; reflexivity|].
      pose proof (List.find_none _ _ Efind p Hin) as Hf. simpl in Hf.
      apply strictEq_false in Hf. contradiction.
    + intros [found Hfind]. exists found.
      apply (findProduct_some _ _ _ Hfind).
  - intros urlId reply Hnone. unfold exec, outcome, ProductEditPage.save.
    rewrite Hnone. split; reflexivity.
  - intros i found Hi Hfind submitted products'.
    destruct (findProduct_some _ _ _ Hfind) as [Hin Hid].
    assert (Hsub : id submitted = i).
    { subst submitted.
      change (orString (Some (id found)) randomUUID = i).
      rewrite orString_id by congruence. exact Hid. }
    assert (Hp : products'
                 = List.map (fun p => if JS.strictEq (id p) i then submitted else p)
                            (products st)).
    { subst products'. unfold exec, ProductEditPage.save. rewrite Hfind.
      fold submitted. unfold ProductEditPage.handleUpdate.
      change (products (exec (App.handleUpdateProduct (Fulfilled submitted)
                                submitted) st)
              = List.map (fun p => if JS.strictEq (id p) i then submitted else p)
                         (products st)).
      rewrite products_after_update, Hsub. reflexivity. }
    split; [exact Hin|]. split; [exact Hid|]. split; [exact Hsub|].
    rewrite Hp. split; [|split].
    + rewrite List.map_map. apply List.map_ext. intros p.
      destruct (JS.strictEq (id p) i) eqn:Heq; [|reflexivity].
      apply strictEq_true in Heq. congruence.
    + intros p Hp' Hpid. apply List.in_map_iff in Hp'.
      destruct Hp' as [q [Hq _]].
      destruct (JS.strictEq (id q) i) eqn:Heq; [symmetry; exact Hq|].
      subst p. apply strictEq_false in Heq. contradiction.
    + intros p Hp' Hpid. apply List.in_map_iff in Hp'.
      destruct Hp' as [q [Hq Hqin]].
      destruct (JS.strictEq (id q) i) eqn:Heq; [|subst p; exact Hqin].
      subst p. contradiction.
Qed.

(** X25.  Creating a product through the form of the create page: the
    product submitted carries the random id; when the server answers with
    the submitted product, the catalog is extended by it, and if the random
    id is not empty and was not in the catalog, the edit page for that id
    finds the new product. *)
Theorem create_page_adds_an_editable_product (st : AppState)
    (randomUUID : string) (fields : ProductForm.FormState) :
  randomUUID <> "" ->
  (forall p, In p (products st) -> id p <> randomUUID) ->
  let submitted := ProductForm.handleSubmit randomUUID None fields in
  let st' :=
    exec (ProductCreatePage.handleCreate (Fulfilled submitted) submitted) st in
  id submitted = randomUUID
  /\ products st' = products st ++ [submitted]
  /\ ProductEditPage.findProduct (products st') (Some randomUUID)
     = Some submitted.
Proof.
  intros Hne Hfresh submitted st'.
  split; [reflexivity|]. split; [reflexivity|].
  change (products st') with (products st ++ [submitted]).
  unfold ProductEditPage.findProduct.
  induction (products st) as [|p l IH]; simpl.
  - assert (Hsame : JS.strictEq randomUUID randomUUID = true)
      by (apply strictEq_true; reflexivity).
    rewrite Hsame. reflexivity.
  - assert (Hp : JS.strictEq (id p) randomUUID = false).
    { apply strictEq_false. apply Hfresh. left. reflexivity. }
    rewrite Hp. apply IH. intros q Hq. apply Hfresh. right. exact Hq.
Qed.

Lemma create_page_adds_an_editable_product_witness :
  "new-id" <> ""
  /\ (forall p, In p (products Sample.running) -> id p <> "new-id")
  /\ ProductEditPage.findProduct
       (products
          (exec (ProductCreatePage.handleCreate
                   (Fulfilled (ProductForm.handleSubmit "new-id" None
                                 (ProductForm.initialFields None)))
                   (ProductForm.handleSubmit "new-id" None
                      (ProductForm.initialFields None)))
                Sample.running))
       (Some "new-id")
     = Some (ProductForm.handleSubmit "new-id" None
               (ProductForm.initialFields None)).
Proof.
  assert (Hne : "new-id" <> "") by (intros H; vm_compute in H; discriminate H).
  assert (Hfresh : forall p, In p (products Sample.running) -> id p <> "new-id").
  { simpl. intros p [H | [H | [H | []]]]; subst p; simpl;
      intros E; vm_compute in E; discriminate E. }
  split; [exact Hne|]. split; [exact Hfresh|].
  destruct (create_page_adds_an_editable_product Sample.running "new-id"
              (ProductForm.initialFields None) Hne Hfresh) as [_ [_ Hfound]].
  exact Hfound.
Defined.

(** ** The details page *)

(** X26.  The load effect of the details page never throws and always lowers
    the loading flag of the page, and it leaves the catalog and the cart of
    the application alone.  Without an id in the URL, or with an empty one,
    the product of the page stays as it was and the user is alerted once.
    With an id, a fulfilled request makes its payload the product of the page
    and reports nothing; a rejected request leaves the product as it was and
    alerts the user twice, once from the remote client and once from the
    page.  Started from the initial state, the page ends on the details of the
    payload in the fulfilled case and on its fallback in every other case,
    never on the loading text. *)
Theorem details_load_always_completes (urlId : option string)
    (reply : Reply Product) (d : ProductDetails.DetailsState) (st : AppState) :
  let result := ProductDetails.load urlId reply d st in
  let d' := fst (snd result) in
  let st' := snd (snd result) in
  fst result = Returns tt
  /\ ProductDetails.stillLoading d' = false
  /\ products st' = products st /\ cartItems st' = cartItems st
  /\ ((urlId = None \/ urlId = Some "") ->
      ProductDetails.shownProduct d' = ProductDetails.shownProduct d
      /\ events st'
         = events st
           ++ [ ConsoleError "ProductDetails: Missing product ID in URL";
                Alert "We couldn't load this product because the product ID was missing." ])
  /\ (forall i data,
        urlId = Some i -> i <> "" -> reply = Fulfilled data ->
        ProductDetails.shownProduct d' = Some data /\ events st' = events st)
  /\ (forall i e,
        urlId = Some i -> i <> "" -> reply = Rejected e ->
        ProductDetails.shownProduct d' = ProductDetails.shownProduct d
        /\ exists log1 alert1 log2 alert2,
             events st'
             = events st ++ [ConsoleError log1; Alert alert1;
                             ConsoleError log2; Alert alert2])
  /\ (d = ProductDetails.initialDetails ->
      ProductDetails.view d' <> ProductDetails.LoadingText
      /\ (forall p,
            ProductDetails.view d' = ProductDetails.Details p
            <-> exists i, urlId = Some i /\ i <> "" /\ reply = Fulfilled p)).
Proof.
  intros result d' st'. subst d' st' result.
  unfold ProductDetails.load.
  destruct urlId as [i|]; [destruct (String.eqb_spec i "") as [Hempty|Hi]|].
  - (* an empty id *)
    subst i. simpl.
    split; [reflexivity|]. split; [reflexivity|]. split; [reflexivity|].
    split; [reflexivity|]. split.
    { intros _. split; [reflexivity|].
      rewrite <- List.app_assoc. reflexivity. }
    split; [intros i data Hu Hne; injection Hu as Hu; congruence|].
    split; [intros i e Hu Hne; injection Hu as Hu; congruence|].
    intros Hd. subst d. simpl. split; [discriminate|].
    intros p. split; [discriminate|].
    intros [i [Hu [Hne _]]]. injection Hu as Hu. congruence.
  - (* an id *)
    assert (Hor : orString (Some i) "" = i) by (apply orString_id; exact Hi).
    rewrite Hor. apply truthy_true in Hi. rewrite Hi. simpl.
    apply truthy_true in Hi.
    destruct reply as [data|e]; simpl.
    + split; [reflexivity|]. split; [reflexivity|]. split; [reflexivity|].
      split; [reflexivity|]. split.
      { intros [Hu|Hu]; [discriminate Hu | injection Hu as Hu; contradiction]. }
      split.
      { intros i' data' _ _ Hr. injection Hr as Hr. subst data'.
        split; reflexivity. }
      split; [intros i' e _ _ Hr; discriminate Hr|].
      intros Hd. subst d. simpl. split; [discriminate|].
      intros p. split.
      * intros Hv. injection Hv as Hv. subst p. exists i.
        split; [reflexivity|]. split; [exact Hi | reflexivity].
      * intros [i' [_ [_ Hr]]]. injection Hr as Hr. subst p. reflexivity.
    + split; [reflexivity|]. split; [reflexivity|]. split; [reflexivity|].
      split; [reflexivity|]. split.
      { intros [Hu|Hu]; [discriminate Hu | injection Hu as Hu; contradiction]. }
      split; [intros i' data _ _ Hr; discriminate Hr|].
      split.
      { intros i' e' _ _ _. split; [reflexivity|]. do 4 eexists.
        rewrite <- !List.app_assoc. reflexivity. }
      intros Hd. subst d. simpl. split; [discriminate|].
      intros p. split; [discriminate|].
      intros [i' [_ [_ Hr]]]. discriminate Hr.
  - (* no id *)
    simpl.
    split; [reflexivity|]. split; [reflexivity|]. split; [reflexivity|].
    split; [reflexivity|]. split.
    { intros _. split; [reflexivity|].
      rewrite <- List.app_assoc. reflexivity. }
    split; [intros i data Hu; discriminate Hu|].
    split; [intros i e Hu; discriminate Hu|].
    intros Hd. subst d. simpl. split; [discriminate|].
    intros p. split; [discriminate|].
    intros [i [Hu _]]. discriminate Hu.
Qed.

(** ** Typing into the search box *)

Lemma append_assoc (a b c : string) : (a +:+ b) +:+ c = a +:+ (b +:+ c).
Proof.
  induction a as [|x a IH]; [reflexivity|].
  change (String x ((a +:+ b) +:+ c) = String x (a +:+ (b +:+ c))).
  f_equal. exact IH.
Qed.

Lemma includes_longer (s a b c : string) :
  JS.includes s (a +:+ b +:+ c) = true -> JS.includes s b = true.
Proof.
  rewrite !includes_spec. intros [pre [post Hs]].
  exists (pre +:+ a), (c +:+ post).
  rewrite Hs, !append_assoc. reflexivity.
Qed.

Lemma includes_trans (s t u : string) :
  JS.includes s t = true -> JS.includes t u = true -> JS.includes s u = true.
Proof.
  rewrite !includes_spec. intros [pre [post Hs]] [pre' [post' Ht]].
  exists (pre +:+ pre'), (post' +:+ post).
  rewrite Hs, Ht, !append_assoc. reflexivity.
Qed.

Lemma isAscii_app (a b : string) :
  AsciiCase.isAscii (a +:+ b) = AsciiCase.isAscii a && AsciiCase.isAscii b.
Proof.
  induction a as [|c a IH]; [reflexivity|].
  change (Nat.ltb (nat_of_ascii c) 128 && AsciiCase.isAscii (a +:+ b)
          = Nat.ltb (nat_of_ascii c) 128 && AsciiCase.isAscii a
            && AsciiCase.isAscii b).
  rewrite IH. apply andb_assoc.
Qed.

(** X27.  Extending the search string, at its end or at its front, does not
    bring a product into the output of the filter stage when the lower-case
    form of the longer string contains the lower-case form of the shorter
    one: every product kept for the longer string is then kept for the
    shorter one.  This is the case for every search string of ASCII
    characters, which [toLowerCase] lower-cases letter by letter, so the list
    can only shrink while the user types further such characters. *)
Theorem longer_search_keeps_fewer (Number : string -> JS.number)
    (toLowerCase : string -> string)
    (products : list Product) (before search after minPrice maxPrice : string)
    (p : Product) :
  ((exists pre post,
      toLowerCase (before +:+ search +:+ after)
      = pre +:+ toLowerCase search +:+ post) ->
   In p (ProductsPage.filterStage Number toLowerCase products
           (before +:+ search +:+ after) minPrice maxPrice) ->
   In p (ProductsPage.filterStage Number toLowerCase products
           search minPrice maxPrice))
  /\ (lowersAscii toLowerCase ->
      AsciiCase.isAscii (before +:+ search +:+ after) = true ->
      In p (ProductsPage.filterStage Number toLowerCase products
              (before +:+ search +:+ after) minPrice maxPrice) ->
      In p (ProductsPage.filterStage Number toLowerCase products
              search minPrice maxPrice)).
Proof.
  assert (Hmain :
            JS.includes (toLowerCase (before +:+ search +:+ after))
              (toLowerCase search) = true ->
            In p (ProductsPage.filterStage Number toLowerCase products
                    (before +:+ search +:+ after) minPrice maxPrice) ->
            In p (ProductsPage.filterStage Number toLowerCase products
                    search minPrice maxPrice)).
  { intros Hsub. rewrite !filterStage_filter, !List.filter_In, !andb_true_iff.
    intros [Hin [Hsearch Hprice]]. split; [exact Hin|]. split; [|exact Hprice].
    exact (includes_trans _ _ _ Hsearch Hsub). }
  split.
  - intros Hsub. apply Hmain. apply includes_spec. exact Hsub.
  - intros Hlower Hascii. apply Hmain.
    pose proof Hascii as Hparts. rewrite !isAscii_app in Hparts.
    apply andb_true_iff in Hparts. destruct Hparts as [_ Hparts].
    apply andb_true_iff in Hparts. destruct Hparts as [Hsearch _].
    rewrite (Hlower _ Hascii), (Hlower _ Hsearch), !lowerCase_app.
    apply includes_spec.
    exists (AsciiCase.lowerCase before), (AsciiCase.lowerCase after).
    reflexivity.
Qed.

Lemma longer_search_keeps_fewer_witness :
  (exists pre post,
     Host.toLowerCase ("" +:+ "App" +:+ "le W")
     = pre +:+ Host.toLowerCase "App" +:+ post)
  /\ lowersAscii Host.toLowerCase
  /\ AsciiCase.isAscii ("" +:+ "App" +:+ "le W") = true
  /\ In Sample.appleWatch
       (ProductsPage.filterStage Host.Number Host.toLowerCase Sample.catalog
          ("" +:+ "App" +:+ "le W") "" "")
  /\ In Sample.appleWatch
        (ProductsPage.filterStage Host.Number Host.toLowerCase Sample.catalog
           "App" "" "").
Proof.
  assert (Hsub : exists pre post,
             Host.toLowerCase ("" +:+ "App" +:+ "le W")
             = pre +:+ Host.toLowerCase "App" +:+ post).
  { exists "", "le w". reflexivity. }
  assert (Hlong : In Sample.appleWatch
                     (ProductsPage.filterStage Host.Number Host.toLowerCase
                        Sample.catalog ("" +:+ "App" +:+ "le W") "" "")).
  { vm_compute. left. reflexivity. }
  split; [exact Hsub|]. split; [exact host_lowers_ascii|].
  split; [reflexivity|]. split; [exact Hlong|].
  destruct (longer_search_keeps_fewer Host.Number Host.toLowerCase
              Sample.catalog "" "App" "le W" "" "" Sample.appleWatch)
    as [Hgeneral _].
  exact (Hgeneral Hsub Hlong).
Defined.

(** Where the lower-case form of a letter depends on what follows it, a
    longer search string can match a name that its own beginning does not
    match: a product named [aσb] is kept for the search string [AΣB] and
    dropped for [AΣ], whose capital sigma is the last letter. *)
Example longer_search_final_sigma :
  let p := {| id := "5"; name := "aσb"; price := 1;
              description := None; image := None |} in
  ProductsPage.filterStage Host.Number Host.toLowerCase [p]
    ("" +:+ "AΣ" +:+ "B") "" ""
  = [p]
  /\ ProductsPage.filterStage Host.Number Host.toLowerCase [p] "AΣ" "" "" = [].
Proof. split; reflexivity. Qed.

(** ** Ascending against descending *)

Section UniqueOrder.
Context {A : Type} (R : A -> A -> Prop).
Hypothesis R_asym : forall a b, R a b -> R b a -> False.

Lemma sorted_permutation_unique (l1 l2 : list A) :
  StronglySorted R l1 -> StronglySorted R l2 -> Permutation l1 l2 ->
  l1 = l2.
Proof.
  revert l2. induction l1 as [|x l1 IH]; intros l2 H1 H2 Hp.
  - apply Permutation_nil in Hp. symmetry. exact Hp.
  - destruct l2 as [|y l2].
    + apply Permutation_sym, Permutation_nil in Hp. discriminate Hp.
    + apply StronglySorted_inv in H1. destruct H1 as [H1 Hx].
      apply StronglySorted_inv in H2. destruct H2 as [H2 Hy].
      assert (Hxy : x = y).
      { assert (Hxin : In x (y :: l2))
          by (apply (Permutation_in x Hp); left; reflexivity).
        assert (Hyin : In y (x :: l1))
          by (apply (Permutation_in y (Permutation_sym Hp)); left; reflexivity).
        destruct Hxin as [Heq | Hxin]; [symmetry; exact Heq|].
        destruct Hyin as [Heq | Hyin]; [exact Heq|].
        exfalso. apply (R_asym x y).
        - exact (proj1 (List.Forall_forall _ _) Hx y Hyin).
        - exact (proj1 (List.Forall_forall _ _) Hy x Hxin). }
      subst y. f_equal. apply IH; [exact H1 | exact H2|].
      apply (Permutation_cons_inv Hp).
Qed.
End UniqueOrder.

Lemma StronglySorted_snoc {A : Type} (R : A -> A -> Prop) (l : list A) (x : A) :
  StronglySorted R l -> List.Forall (fun y => R y x) l ->
  StronglySorted R (l ++ [x]).
Proof.
  induction 1 as [|y l Hl IH Hy]; intros Hall; simpl.
  - constructor; constructor.
  - apply List.Forall_cons_iff in Hall. destruct Hall as [Hyx Hall].
    constructor; [apply IH; exact Hall|].
    apply List.Forall_app. split; [exact Hy|].
    constructor; [exact Hyx | constructor].
Qed.

Lemma StronglySorted_rev {A : Type} (R : A -> A -> Prop) (l : list A) :
  StronglySorted R l -> StronglySorted (fun a b => R b a) (rev l).
Proof.
  induction 1 as [|x l Hl IH Hx]; simpl; [constructor|].
  apply StronglySorted_snoc; [exact IH|].
  apply List.Forall_rev. exact Hx.
Qed.

Lemma strict_of_distinct (R S : Product -> Product -> Prop) (l : list Product) :
  (forall a b, In a l -> In b l -> R a b -> a <> b -> S a b) ->
  List.NoDup l -> StronglySorted R l -> StronglySorted S l.
Proof.
  intros HRS Hnd Hs. induction Hs as [|x l Hl IH Hx]; [constructor|].
  apply List.NoDup_cons_iff in Hnd. destruct Hnd as [Hnotin Hnd].
  constructor.
  - apply IH; [|exact Hnd].
    intros a b Ha Hb. apply HRS; right; assumption.
  - apply List.Forall_forall. intros y Hy.
    apply HRS; [left; reflexivity | right; exact Hy | |].
    + exact (proj1 (List.Forall_forall _ _) Hx y Hy).
    + intros Heq. subst y. contradiction.
Qed.

(** X28.  When the list holds no product twice and no two of its products
    have the same price, the descending price sort returns the reverse of
    what the ascending price sort returns.  With equal prices it does not:
    two products of the same price come out in their input order under both
    sorts. *)
Theorem descending_reverses_ascending (localeCompare : string -> string -> Z)
    (l : list Product) :
  (List.NoDup l ->
   (forall a b, In a l -> In b l -> (price a == price b)%Q -> a = b) ->
   ProductsPage.sortStage localeCompare "price-desc" l
   = rev (ProductsPage.sortStage localeCompare "price-asc" l))
  /\ (forall a b,
        (price a == price b)%Q ->
        ProductsPage.sortStage localeCompare "price-asc" [a; b] = [a; b]
        /\ ProductsPage.sortStage localeCompare "price-desc" [a; b] = [a; b]).
Proof.
  split.
  - intros Hnd Hdistinct.
    rewrite sortStage_price_asc, sortStage_price_desc.
    set (asc := JS.sort (fun a b => price a - price b)%Q l).
    set (desc := JS.sort (fun a b => price b - price a)%Q l).
    assert (Hpa : Permutation l asc) by apply sort_permutation.
    assert (Hpd : Permutation l desc) by apply sort_permutation.
    apply (sorted_permutation_unique (fun a b => price b < price a)%Q).
    + intros a b Hab Hba. apply (Qlt_irrefl (price a)).
      exact (Qlt_trans _ _ _ Hba Hab).
    + apply (strict_of_distinct (fun a b => price b <= price a)%Q).
      * intros a b Ha Hb Hle Hne. apply Qle_lt_or_eq in Hle.
        destruct Hle as [Hlt | Heq]; [exact Hlt|].
        exfalso. apply Hne. symmetry.
        apply Hdistinct;
          [ apply (Permutation_in b (Permutation_sym Hpd) Hb)
          | apply (Permutation_in a (Permutation_sym Hpd) Ha)
          | exact Heq ].
      * apply (Permutation_NoDup Hpd Hnd).
      * apply price_desc_sorted.
    + apply (StronglySorted_rev (fun a b => price a < price b)%Q).
      apply (strict_of_distinct (fun a b => price a <= price b)%Q).
      * intros a b Ha Hb Hle Hne. apply Qle_lt_or_eq in Hle.
        destruct Hle as [Hlt | Heq]; [exact Hlt|].
        exfalso. apply Hne.
        apply Hdistinct;
          [ apply (Permutation_in a (Permutation_sym Hpa) Ha)
          | apply (Permutation_in b (Permutation_sym Hpa) Hb)
          | exact Heq ].
      * apply (Permutation_NoDup Hpa Hnd).
      * apply price_asc_sorted.
    + apply (Permutation_trans (Permutation_sym Hpd)).
      apply (Permutation_trans Hpa). apply Permutation_rev.
  - intros a b Heq.
    rewrite sortStage_price_asc, sortStage_price_desc.
    unfold JS.sort. simpl.
    assert (Hab : Qle_bool (price a - price b) 0 = true).
    { apply Qle_bool_minus. rewrite Heq. apply Qle_refl. }
    assert (Hba : Qle_bool (price b - price a) 0 = true).
    { apply Qle_bool_minus. rewrite Heq. apply Qle_refl. }
    rewrite Hab, Hba. split; reflexivity.
Qed.

Lemma descending_reverses_ascending_witness :
  List.NoDup Sample.catalog
  /\ (forall a b, In a Sample.catalog -> In b Sample.catalog ->
                  (price a == price b)%Q -> a = b)
  /\ ProductsPage.sortStage Host.localeCompare "price-desc" Sample.catalog
     = rev (ProductsPage.sortStage Host.localeCompare "price-asc" Sample.catalog).
Proof.
  assert (Hnd : List.NoDup Sample.catalog).
  { repeat constructor; simpl; intuition discriminate. }
  assert (Hdistinct : forall a b, In a Sample.catalog -> In b Sample.catalog ->
                                  (price a == price b)%Q -> a = b).
  { simpl. intros a b [Ha | [Ha | [Ha | []]]] [Hb | [Hb | [Hb | []]]] Heq;
      subst a b; try reflexivity; vm_compute in Heq; discriminate Heq. }
  split; [exact Hnd|]. split; [exact Hdistinct|].
  destruct (descending_reverses_ascending Host.localeCompare Sample.catalog)
    as [Hrev _].
  exact (Hrev Hnd Hdistinct).
Defined.

(** ** Sessions of cart actions *)

Lemma wellFormed_filter (pid : string) (cart : list CartItem) :
  wellFormedCart cart ->
  wellFormedCart
    (List.filter (fun item => negb (JS.strictEq (id (product item)) pid)) cart).
Proof.
  intros [Hnd Hq]. split.
  - rewrite cartIds_filter. apply List.NoDup_filter. exact Hnd.
  - apply List.Forall_forall. intros item Hin.
    apply List.filter_In in Hin. destruct Hin as [Hin _].
    exact (proj1 (List.Forall_forall _ _) Hq item Hin).
Qed.

Lemma wellFormed_map (pid : string) (f : CartItem -> CartItem)
    (cart : list CartItem) :
  (forall item, id (product (f item)) = id (product item)) ->
  (forall item, 1 <= quantity item -> 1 <= quantity (f item)) ->
  wellFormedCart cart ->
  wellFormedCart
    (List.map (fun item => if JS.strictEq (id (product item)) pid then f item else item)
              cart).
Proof.
  intros Hid Hf [Hnd Hq]. split.
  - rewrite cartIds_map_keep by exact Hid. exact Hnd.
  - apply List.Forall_map.
    apply (List.Forall_impl _ (P := fun item => 1 <= quantity item)); [|exact Hq].
    intros item Hitem.
    destruct (JS.strictEq (id (product item)) pid); [apply Hf|]; exact Hitem.
Qed.

Lemma wellFormed_add (st : AppState) (p : Product) :
  wellFormedCart (cartItems st) ->
  wellFormedCart (cartAfter (App.handleAddToCart p) st).
Proof.
  intros Hwf. destruct (String.eqb_spec (id p) "") as [Hempty|Hid].
  - rewrite cartAfter_add_invalid by exact Hempty. exact Hwf.
  - pose proof (find_id_spec (id p) (cartItems st)) as Hfind.
    destruct (List.find _ (cartItems st)) as [found|] eqn:Efind.
    + rewrite (cartAfter_add_present st p found Hid Efind).
      apply (wellFormed_map (id p)
               (fun item => {| product := product item;
                               quantity := JS.add (quantity item) 1 |}));
        [reflexivity
        | intros item Hq; cbn [quantity]; apply add_one_pos; lia
        | exact Hwf].
    + rewrite (cartAfter_add_absent st p Hid Efind).
      destruct Hwf as [Hnd Hq]. split.
      * unfold cartIds. rewrite List.map_app. simpl.
        apply List.NoDup_app; [exact Hnd | |].
        -- constructor; [intros [] | constructor].
        -- intros a Ha [Heq | []]. subst a. exact (Hfind Ha).
      * apply List.Forall_app. split; [exact Hq|].
        constructor; [simpl; lia | constructor].
Qed.

Lemma wellFormed_setQuantity (st : AppState) (pid : string) (n : Z) :
  wellFormedCart (cartItems st) ->
  wellFormedCart (cartAfter (App.handleUpdateCartQuantity pid n) st).
Proof.
  intros Hwf. destruct (Z_le_gt_dec n 0) as [Hn|Hn].
  - rewrite cartAfter_setQuantity_nonpos by exact Hn.
    apply wellFormed_filter. exact Hwf.
  - rewrite cartAfter_setQuantity_pos by lia.
    apply (wellFormed_map pid
             (fun item => {| product := product item; quantity := n |}));
      [reflexivity | intros item _; simpl; lia | exact Hwf].
Qed.

Lemma wellFormed_perform (a : CartSession.Action) (st : AppState) :
  wellFormedCart (cartItems st) ->
  wellFormedCart (cartItems (CartSession.perform a st)).
Proof.
  intros Hwf. destruct a as [p|row|row|row|]; simpl.
  - apply wellFormed_add. exact Hwf.
  - unfold CartSession.onRow.
    destruct (nth_error (cartItems st) row) as [item|]; [|exact Hwf].
    apply wellFormed_setQuantity. exact Hwf.
  - unfold CartSession.onRow.
    destruct (nth_error (cartItems st) row) as [item|]; [|exact Hwf].
    unfold CartItemComponent.minusClick.
    destruct (CartItemComponent.minusDisabled item); [exact Hwf|].
    apply wellFormed_setQuantity. exact Hwf.
  - unfold CartSession.onRow.
    destruct (nth_error (cartItems st) row) as [item|]; [|exact Hwf].
    apply wellFormed_filter. exact Hwf.
  - split; constructor.
Qed.

Lemma length_perform_row (st : AppState) (row : nat) (item : CartItem) :
  wellFormedCart (cartItems st) ->
  nth_error (cartItems st) row = Some item ->
  cartIds (cartItems (CartSession.perform (CartSession.Plus row) st))
  = cartIds (cartItems st)
  /\ cartIds (cartItems (CartSession.perform (CartSession.Minus row) st))
     = cartIds (cartItems st).
Proof.
  intros [_ Hq] Hrow. simpl. unfold CartSession.onRow. rewrite Hrow.
  assert (Hitem : 1 <= quantity item).
  { apply List.nth_error_In in Hrow.
    exact (proj1 (List.Forall_forall _ _) Hq item Hrow). }
  split.
  - unfold CartItemComponent.plusClick. rewrite cartItems_exec.
    assert (Hup : 1 <= JS.add (quantity item) 1) by (apply add_one_pos; lia).
    rewrite cartAfter_setQuantity_pos by lia.
    apply cartIds_map_keep. reflexivity.
  - unfold CartItemComponent.minusClick, CartItemComponent.minusDisabled.
    destruct (quantity item <=? 1) eqn:Hd; [reflexivity|].
    apply Z.leb_gt in Hd. rewrite cartItems_exec.
    pose proof (sub_one_pos (quantity item) Hd) as Hdown.
    rewrite cartAfter_setQuantity_pos by lia.
    apply cartIds_map_keep. reflexivity.
Qed.

(** X29.  Every sequence of clicks the user interface offers (add to cart,
    the plus, minus and remove buttons of the cart rows, remove all) keeps
    the cart well formed: started from a cart with pairwise distinct product
    ids and quantities of at least one, and so from the empty cart, it ends
    in such a cart.  In such a cart the plus and minus buttons of a row leave
    the list of product ids as it is: an entry leaves the cart through the
    remove buttons only. *)
Theorem sessions_keep_cart_well_formed (actions : list CartSession.Action)
    (st : AppState) :
  wellFormedCart (cartItems st) ->
  wellFormedCart (cartItems (CartSession.run actions st))
  /\ forall row,
       (row < length (cartItems (CartSession.run actions st)))%nat ->
       cartIds (cartItems (CartSession.perform (CartSession.Plus row)
                             (CartSession.run actions st)))
       = cartIds (cartItems (CartSession.run actions st))
       /\ cartIds (cartItems (CartSession.perform (CartSession.Minus row)
                                (CartSession.run actions st)))
          = cartIds (cartItems (CartSession.run actions st)).
Proof.
  intros Hwf.
  assert (Hrun : wellFormedCart (cartItems (CartSession.run actions st))).
  { revert st Hwf. unfold CartSession.run.
    induction actions as [|a actions IH]; intros st Hwf; simpl; [exact Hwf|].
    apply IH. apply wellFormed_perform. exact Hwf. }
  split; [exact Hrun|].
  intros row Hrow.
  destruct (nth_error (cartItems (CartSession.run actions st)) row)
    as [item|] eqn:Hitem.
  - apply (length_perform_row _ row item Hrun Hitem).
  - apply List.nth_error_None in Hitem. lia.
Qed.

Lemma sessions_keep_cart_well_formed_witness :
  wellFormedCart (cartItems Sample.fresh)
  /\ wellFormedCart
       (cartItems
          (CartSession.run
             [ CartSession.AddToCart Sample.banana;
               CartSession.AddToCart Sample.appleWatch;
               CartSession.AddToCart Sample.banana;
               CartSession.Minus 0; CartSession.Minus 0;
               CartSession.Plus 1; CartSession.Remove 0 ]
             Sample.fresh)).
Proof.
  assert (Hwf : wellFormedCart (cartItems Sample.fresh)).
  { split; constructor. }
  split; [exact Hwf|].
  destruct (sessions_keep_cart_well_formed
              [ CartSession.AddToCart Sample.banana;
                CartSession.AddToCart Sample.appleWatch;
                CartSession.AddToCart Sample.banana;
                CartSession.Minus 0; CartSession.Minus 0;
                CartSession.Plus 1; CartSession.Remove 0 ]
              Sample.fresh Hwf) as [Hend _].
  exact Hend.
Defined.
